(** * The command buffer of the Vulkan framework: state tracking and flushes

    A shallow embedding of [vkb::CommandBuffer] (command_buffer.cpp):
    the recording state machine, the render-pass and subpass sequencing, the
    resource bindings, and the two flush algorithms that run before every draw
    and dispatch.

    Conventions.
    - Unsigned machine integers are [N]; where the source computes on
      [uint32_t] the wrap-around is written out ([u32]).
    - A Vulkan handle is an [N], [VK_NULL_HANDLE] is [0].  A C++ pointer or
      reference that may be null is an [option].
    - [std::unordered_map] and [std::map] are [gmap]s.  A [std::map] is
      iterated in ascending key order ([sorted_entries]); the iteration order
      of a [std::unordered_map] is unspecified and no statement depends on it.
    - A member function that may dereference a null pointer, fail an
      assertion or throw returns a [result]; the calls into Vulkan, into the
      resource cache and into the logger are recorded, in program order, as
      a list of [Event]s. *)

From stdpp Require Import gmap sorting list strings.

Local Open Scope N_scope.

(** ** Vulkan enumerations and handles *)

Abbreviation VkHandle := N (only parsing).
Definition VK_NULL_HANDLE : N := 0.

Inductive VkResult := VK_SUCCESS | VK_NOT_READY.

Inductive VkCommandBufferLevel :=
| VK_COMMAND_BUFFER_LEVEL_PRIMARY
| VK_COMMAND_BUFFER_LEVEL_SECONDARY.

Inductive VkDescriptorType :=
| VK_DESCRIPTOR_TYPE_SAMPLER
| VK_DESCRIPTOR_TYPE_COMBINED_IMAGE_SAMPLER
| VK_DESCRIPTOR_TYPE_SAMPLED_IMAGE
| VK_DESCRIPTOR_TYPE_STORAGE_IMAGE
| VK_DESCRIPTOR_TYPE_UNIFORM_TEXEL_BUFFER
| VK_DESCRIPTOR_TYPE_STORAGE_TEXEL_BUFFER
| VK_DESCRIPTOR_TYPE_UNIFORM_BUFFER
| VK_DESCRIPTOR_TYPE_STORAGE_BUFFER
| VK_DESCRIPTOR_TYPE_UNIFORM_BUFFER_DYNAMIC
| VK_DESCRIPTOR_TYPE_STORAGE_BUFFER_DYNAMIC
| VK_DESCRIPTOR_TYPE_INPUT_ATTACHMENT.

Inductive VkImageLayout :=
| VK_IMAGE_LAYOUT_UNDEFINED
| VK_IMAGE_LAYOUT_GENERAL
| VK_IMAGE_LAYOUT_DEPTH_STENCIL_READ_ONLY_OPTIMAL
| VK_IMAGE_LAYOUT_SHADER_READ_ONLY_OPTIMAL.

(** [VkFormat] and [VkPipelineBindPoint] are kept as their enumeration
    values: the source only passes formats on, and it has to cope with any
    bind point a caller hands in. *)
Abbreviation VkFormat := N (only parsing).
Abbreviation VkPipelineBindPoint := N (only parsing).
Definition VK_PIPELINE_BIND_POINT_GRAPHICS : N := 0.
Definition VK_PIPELINE_BIND_POINT_COMPUTE : N := 1.

Inductive VkSubpassContents :=
| VK_SUBPASS_CONTENTS_INLINE
| VK_SUBPASS_CONTENTS_SECONDARY_COMMAND_BUFFERS.

#[global] Instance VkResult_eq_dec : EqDecision VkResult.
Proof. solve_decision. Defined.
#[global] Instance VkDescriptorType_eq_dec : EqDecision VkDescriptorType.
Proof. solve_decision. Defined.
#[global] Instance VkImageLayout_eq_dec : EqDecision VkImageLayout.
Proof. solve_decision. Defined.

(** [uint32_t] arithmetic. *)
Definition u32 (n : N) : N := n mod 2 ^ 32.

(** ** Helpers declared outside the sources at hand

    [is_buffer_descriptor_type], [is_dynamic_buffer_descriptor_type],
    [is_depth_stencil_format] and [to_u32] come from the framework's common
    headers, which are not part of the sources; they are parameters of the
    development.  [to_u32] converts a size or an offset to [uint32_t] and is
    taken as a total function.  [ndebug] tells whether [assert] is compiled
    out. *)
Class VkCommon := {
  is_buffer_descriptor_type : VkDescriptorType → bool;
  is_dynamic_buffer_descriptor_type : VkDescriptorType → bool;
  is_depth_stencil_format : VkFormat → bool;
  to_u32 : N → N;
  ndebug : bool;
}.

(** ** Failure *)

Inductive Error :=
| NullPipelineLayout      (* get_pipeline_layout() with no layout bound *)
| NullRenderPass          (* current_render_pass.render_pass is null *)
| NullFramebuffer         (* current_render_pass.framebuffer is null *)
| NullImageView           (* image_view->get_handle() on a null view *)
| NullPrimaryCommandBuffer
| SubpassOutOfRange       (* get_color_output_count past the last subpass *)
| AssertionFailed
| UnsupportedBindPoint.   (* the throw of flush_pipeline_state *)

Inductive result (A : Type) :=
| Ok (a : A)
| Fault (e : Error).
Arguments Ok {A} a.
Arguments Fault {A} e.

#[global] Instance result_ret : MRet result := λ A a, Ok a.
#[global] Instance result_bind : MBind result := λ A B f m,
  match m with
  | Ok a => f a
  | Fault e => Fault e
  end.

Definition is_Ok {A} (r : result A) : Prop := ∃ a, r = Ok a.

(** ** Ordered and nested maps *)

Definition key_le {A} (x y : N * A) : Prop := x.1 ≤ y.1.

#[global] Instance key_le_dec {A} (x y : N * A) : Decision (key_le x y).
Proof. unfold key_le. apply _. Defined.

(** Modelled from the spec: [BindingMap<T>] is declared outside the sources.
    The spec has the bindings of a set as a nested mapping, binding index
    first and array element second, key-ordered or hashed.  Here both
    levels are key-ordered ([std::map]); [sorted_entries] lists the entries
    of one level in iteration order, ascending by key. *)
Definition sorted_entries {A} (m : gmap N A) : list (N * A) :=
  merge_sort key_le (map_to_list m).

(** [m[binding][element] = v] *)
Definition binding_map_set {T} (binding element : N) (v : T)
    (m : gmap N (gmap N T)) : gmap N (gmap N T) :=
  <[binding := <[element := v]> (default ∅ (m !! binding))]> m.

Definition binding_map_get {T} (binding element : N)
    (m : gmap N (gmap N T)) : option T :=
  inner ← m !! binding; inner !! element.

(** ** Resources *)

Record Buffer := { buffer_handle : N }.
Record Sampler := { sampler_handle : N }.
Record ImageView := { image_view_handle : N; image_view_format : N }.

#[global] Instance Buffer_eq_dec : EqDecision Buffer.
Proof. solve_decision. Defined.
#[global] Instance Sampler_eq_dec : EqDecision Sampler.
Proof. solve_decision. Defined.
#[global] Instance ImageView_eq_dec : EqDecision ImageView.
Proof. solve_decision. Defined.

(** [ResourceInfo], declared outside the sources, with the fields the flush
    reads; a null pointer is [None]. *)
Record ResourceInfo := {
  buffer : option Buffer;
  offset : N;
  range : N;
  image_view : option ImageView;
  sampler : option Sampler;
}.

#[global] Instance ResourceInfo_eq_dec : EqDecision ResourceInfo.
Proof. solve_decision. Defined.

Record VkDescriptorBufferInfo := {
  bi_buffer : N;
  bi_offset : N;
  bi_range : N;
}.

Record VkDescriptorImageInfo := {
  ii_sampler : N;
  ii_imageView : N;
  ii_imageLayout : VkImageLayout;
}.

#[global] Instance VkDescriptorBufferInfo_eq_dec : EqDecision VkDescriptorBufferInfo.
Proof. solve_decision. Defined.
#[global] Instance VkDescriptorImageInfo_eq_dec : EqDecision VkDescriptorImageInfo.
Proof. solve_decision. Defined.

(** ** Layout objects *)

Record VkDescriptorSetLayoutBinding := {
  binding : N;
  descriptorType : VkDescriptorType;
  descriptorCount : N;
  stageFlags : N;
}.

(** Modelled from the spec: [DescriptorSetLayout] is not among the sources.
    It has a handle, which is its identity, and a lookup of the binding
    declared at an index ([get_layout_binding], false when undeclared). *)
Record DescriptorSetLayout := {
  dsl_handle : N;
  dsl_bindings : gmap N VkDescriptorSetLayoutBinding;
}.

Definition get_layout_binding (l : DescriptorSetLayout) (binding_index : N)
    : option VkDescriptorSetLayoutBinding :=
  dsl_bindings l !! binding_index.

Record PushConstantRange := {
  pc_stages : N;
  pc_offset : N;
  pc_size : N;
}.

(** Modelled from the spec: [PipelineLayout] is not among the sources.  It
    declares a set-layout object per declared set index ([get_bindings]
    enumerates the declared set indices, [has_set_layout] and
    [get_set_layout] look one up) and the push-constant ranges. *)
Record PipelineLayout := {
  pl_handle : N;
  pl_set_layouts : gmap N DescriptorSetLayout;
  pl_push_constant_ranges : list PushConstantRange;
}.

Definition get_bindings (pl : PipelineLayout) : list N :=
  elements (dom (pl_set_layouts pl)).

Definition has_set_layout (pl : PipelineLayout) (set_index : N) : bool :=
  bool_decide (is_Some (pl_set_layouts pl !! set_index)).

Definition get_set_layout (pl : PipelineLayout) (set_index : N)
    : option DescriptorSetLayout :=
  pl_set_layouts pl !! set_index.

Definition covers (r : PushConstantRange) (off size : N) : bool :=
  bool_decide (pc_offset r ≤ off) && bool_decide (off + size ≤ pc_offset r + pc_size r).

(** Modelled from the spec: the lookup of the push-constant range covering
    an offset and size, with its shader-stage visibility; no stage at all
    when no declared range covers the request. *)
Definition get_push_constant_range_stage (pl : PipelineLayout) (off size : N) : N :=
  foldl (λ stages r, if covers r off size then N.lor stages (pc_stages r) else stages)
        0 (pl_push_constant_ranges pl).

(** Modelled from the spec: [RenderPass] is not among the sources.  It has a
    handle and knows the colour-output count of each of its subpasses. *)
Record RenderPass := {
  rp_handle : N;
  rp_color_output_count : list N;
}.

Definition get_color_output_count (rp : RenderPass) (subpass : N) : option N :=
  rp_color_output_count rp !! N.to_nat subpass.

Record Framebuffer := { fb_handle : N }.

(** ** PipelineState *)

(** The colour-blend block; an attachment state is kept as the encoding of
    its content, the default-constructed one is [0]. *)
Record ColorBlendState := {
  cbs_logic_op : N;
  attachments : list N;      (* one ColorBlendAttachmentState per colour output *)
}.

#[global] Instance ColorBlendState_eq_dec : EqDecision ColorBlendState.
Proof. solve_decision. Defined.

(** Modelled from the spec: [PipelineState] is not among the sources.  It is
    a state container with a dirty flag.  Every [set_*] mutator compares
    the new value with the current one; if they differ it stores the new
    value and sets the dirty flag, otherwise it leaves the flag alone.  A
    reference is compared by the handle of the object it refers to.
    [reset] restores every field to its default and clears the flag. *)
Record PipelineState := {
  ps_dirty : bool;
  ps_pipeline_layout : option PipelineLayout;
  ps_render_pass : option RenderPass;
  ps_specialization_constants : gmap N (list N);
  ps_vertex_input_state : N;
  ps_input_assembly_state : N;
  ps_rasterization_state : N;
  ps_viewport_state : N;
  ps_multisample_state : N;
  ps_depth_stencil_state : N;
  ps_color_blend_state : ColorBlendState;
  ps_subpass_index : N;
}.

Module PipelineState.

Definition reset : PipelineState :=
  {| ps_dirty := false;
     ps_pipeline_layout := None;
     ps_render_pass := None;
     ps_specialization_constants := ∅;
     ps_vertex_input_state := 0;
     ps_input_assembly_state := 0;
     ps_rasterization_state := 0;
     ps_viewport_state := 0;
     ps_multisample_state := 0;
     ps_depth_stencil_state := 0;
     ps_color_blend_state := {| cbs_logic_op := 0; attachments := [] |};
     ps_subpass_index := 0 |}.

Definition is_dirty (ps : PipelineState) : bool := ps_dirty ps.

Definition with_dirty (d : bool) (ps : PipelineState) : PipelineState :=
  {| ps_dirty := d;
     ps_pipeline_layout := ps_pipeline_layout ps;
     ps_render_pass := ps_render_pass ps;
     ps_specialization_constants := ps_specialization_constants ps;
     ps_vertex_input_state := ps_vertex_input_state ps;
     ps_input_assembly_state := ps_input_assembly_state ps;
     ps_rasterization_state := ps_rasterization_state ps;
     ps_viewport_state := ps_viewport_state ps;
     ps_multisample_state := ps_multisample_state ps;
     ps_depth_stencil_state := ps_depth_stencil_state ps;
     ps_color_blend_state := ps_color_blend_state ps;
     ps_subpass_index := ps_subpass_index ps |}.

Definition clear_dirty (ps : PipelineState) : PipelineState := with_dirty false ps.

Definition get_pipeline_layout (ps : PipelineState) : result PipelineLayout :=
  match ps_pipeline_layout ps with
  | Some pl => Ok pl
  | None => Fault NullPipelineLayout
  end.

Definition get_subpass_index (ps : PipelineState) : N := ps_subpass_index ps.

Definition get_color_blend_state (ps : PipelineState) : ColorBlendState :=
  ps_color_blend_state ps.

Definition same_pipeline_layout (a : option PipelineLayout) (b : PipelineLayout) : bool :=
  match a with
  | Some a => bool_decide (pl_handle a = pl_handle b)
  | None => false
  end.

Definition same_render_pass (a : option RenderPass) (b : RenderPass) : bool :=
  match a with
  | Some a => bool_decide (rp_handle a = rp_handle b)
  | None => false
  end.

Definition set_pipeline_layout (pl : PipelineLayout) (ps : PipelineState) : PipelineState :=
  if same_pipeline_layout (ps_pipeline_layout ps) pl then ps
  else {| ps_dirty := true;
          ps_pipeline_layout := Some pl;
          ps_render_pass := ps_render_pass ps;
          ps_specialization_constants := ps_specialization_constants ps;
          ps_vertex_input_state := ps_vertex_input_state ps;
          ps_input_assembly_state := ps_input_assembly_state ps;
          ps_rasterization_state := ps_rasterization_state ps;
          ps_viewport_state := ps_viewport_state ps;
          ps_multisample_state := ps_multisample_state ps;
          ps_depth_stencil_state := ps_depth_stencil_state ps;
          ps_color_blend_state := ps_color_blend_state ps;
          ps_subpass_index := ps_subpass_index ps |}.

Definition set_render_pass (rp : RenderPass) (ps : PipelineState) : PipelineState :=
  if same_render_pass (ps_render_pass ps) rp then ps
  else {| ps_dirty := true;
          ps_pipeline_layout := ps_pipeline_layout ps;
          ps_render_pass := Some rp;
          ps_specialization_constants := ps_specialization_constants ps;
          ps_vertex_input_state := ps_vertex_input_state ps;
          ps_input_assembly_state := ps_input_assembly_state ps;
          ps_rasterization_state := ps_rasterization_state ps;
          ps_viewport_state := ps_viewport_state ps;
          ps_multisample_state := ps_multisample_state ps;
          ps_depth_stencil_state := ps_depth_stencil_state ps;
          ps_color_blend_state := ps_color_blend_state ps;
          ps_subpass_index := ps_subpass_index ps |}.

Definition set_specialization_constant (constant_id : N) (data : list N)
    (ps : PipelineState) : PipelineState :=
  if bool_decide (ps_specialization_constants ps !! constant_id = Some data) then ps
  else {| ps_dirty := true;
          ps_pipeline_layout := ps_pipeline_layout ps;
          ps_render_pass := ps_render_pass ps;
          ps_specialization_constants := <[constant_id := data]> (ps_specialization_constants ps);
          ps_vertex_input_state := ps_vertex_input_state ps;
          ps_input_assembly_state := ps_input_assembly_state ps;
          ps_rasterization_state := ps_rasterization_state ps;
          ps_viewport_state := ps_viewport_state ps;
          ps_multisample_state := ps_multisample_state ps;
          ps_depth_stencil_state := ps_depth_stencil_state ps;
          ps_color_blend_state := ps_color_blend_state ps;
          ps_subpass_index := ps_subpass_index ps |}.

Definition set_color_blend_state (s : ColorBlendState) (ps : PipelineState) : PipelineState :=
  if bool_decide (ps_color_blend_state ps = s) then ps
  else {| ps_dirty := true;
          ps_pipeline_layout := ps_pipeline_layout ps;
          ps_render_pass := ps_render_pass ps;
          ps_specialization_constants := ps_specialization_constants ps;
          ps_vertex_input_state := ps_vertex_input_state ps;
          ps_input_assembly_state := ps_input_assembly_state ps;
          ps_rasterization_state := ps_rasterization_state ps;
          ps_viewport_state := ps_viewport_state ps;
          ps_multisample_state := ps_multisample_state ps;
          ps_depth_stencil_state := ps_depth_stencil_state ps;
          ps_color_blend_state := s;
          ps_subpass_index := ps_subpass_index ps |}.

Definition set_subpass_index (i : N) (ps : PipelineState) : PipelineState :=
  if bool_decide (ps_subpass_index ps = i) then ps
  else {| ps_dirty := true;
          ps_pipeline_layout := ps_pipeline_layout ps;
          ps_render_pass := ps_render_pass ps;
          ps_specialization_constants := ps_specialization_constants ps;
          ps_vertex_input_state := ps_vertex_input_state ps;
          ps_input_assembly_state := ps_input_assembly_state ps;
          ps_rasterization_state := ps_rasterization_state ps;
          ps_viewport_state := ps_viewport_state ps;
          ps_multisample_state := ps_multisample_state ps;
          ps_depth_stencil_state := ps_depth_stencil_state ps;
          ps_color_blend_state := ps_color_blend_state ps;
          ps_subpass_index := i |}.

(** The remaining fixed-function blocks are set the same way; a block is
    kept as the encoding of its content. *)
Inductive Block :=
| VertexInput | InputAssembly | Rasterization | Viewport | Multisample | DepthStencil.

Definition get_block (b : Block) (ps : PipelineState) : N :=
  match b with
  | VertexInput => ps_vertex_input_state ps
  | InputAssembly => ps_input_assembly_state ps
  | Rasterization => ps_rasterization_state ps
  | Viewport => ps_viewport_state ps
  | Multisample => ps_multisample_state ps
  | DepthStencil => ps_depth_stencil_state ps
  end.

Definition set_block (b : Block) (v : N) (ps : PipelineState) : PipelineState :=
  if bool_decide (get_block b ps = v) then ps
  else {| ps_dirty := true;
          ps_pipeline_layout := ps_pipeline_layout ps;
          ps_render_pass := ps_render_pass ps;
          ps_specialization_constants := ps_specialization_constants ps;
          ps_vertex_input_state := if b is VertexInput then v else ps_vertex_input_state ps;
          ps_input_assembly_state := if b is InputAssembly then v else ps_input_assembly_state ps;
          ps_rasterization_state := if b is Rasterization then v else ps_rasterization_state ps;
          ps_viewport_state := if b is Viewport then v else ps_viewport_state ps;
          ps_multisample_state := if b is Multisample then v else ps_multisample_state ps;
          ps_depth_stencil_state := if b is DepthStencil then v else ps_depth_stencil_state ps;
          ps_color_blend_state := ps_color_blend_state ps;
          ps_subpass_index := ps_subpass_index ps |}.

End PipelineState.

(** ** ResourceBindingState *)

(** Modelled from the spec: [ResourceSet] and [ResourceBindingState] are not
    among the sources.  A bound resource is a buffer region, an image view
    with a sampler, or an input-attachment image view; exactly one variant
    is populated per entry.  A bind call stores its entry at (set, binding,
    element); it marks the set, and the whole state, dirty when there was
    no entry at that coordinate or a different one.  [reset] clears all
    sets and all dirty flags, [clear_dirty] the flag of the whole state or
    of one set. *)
Record ResourceSet := {
  rs_dirty : bool;
  resource_bindings : gmap N (gmap N ResourceInfo);
}.

Record ResourceBindingState := {
  rbs_dirty : bool;
  resource_sets : gmap N ResourceSet;
}.

Module ResourceSet.

Definition empty : ResourceSet := {| rs_dirty := false; resource_bindings := ∅ |}.

Definition is_dirty (rs : ResourceSet) : bool := rs_dirty rs.

Definition clear_dirty (rs : ResourceSet) : ResourceSet :=
  {| rs_dirty := false; resource_bindings := resource_bindings rs |}.

Definition get_resource_bindings (rs : ResourceSet) : gmap N (gmap N ResourceInfo) :=
  resource_bindings rs.

Definition changes (info : ResourceInfo) (binding element : N) (rs : ResourceSet) : bool :=
  negb (bool_decide (binding_map_get binding element (resource_bindings rs) = Some info)).

Definition bind (info : ResourceInfo) (binding element : N) (rs : ResourceSet) : ResourceSet :=
  {| rs_dirty := rs_dirty rs || changes info binding element rs;
     resource_bindings := binding_map_set binding element info (resource_bindings rs) |}.

End ResourceSet.

Module ResourceBindingState.

Definition reset : ResourceBindingState := {| rbs_dirty := false; resource_sets := ∅ |}.

Definition is_dirty (s : ResourceBindingState) : bool := rbs_dirty s.

Definition clear_dirty (s : ResourceBindingState) : ResourceBindingState :=
  {| rbs_dirty := false; resource_sets := resource_sets s |}.

Definition clear_dirty_set (set : N) (s : ResourceBindingState) : ResourceBindingState :=
  {| rbs_dirty := rbs_dirty s;
     resource_sets := alter ResourceSet.clear_dirty set (resource_sets s) |}.

Definition get_set_bindings (s : ResourceBindingState) : gmap N ResourceSet :=
  resource_sets s.

Definition bind (info : ResourceInfo) (set binding element : N)
    (s : ResourceBindingState) : ResourceBindingState :=
  let rs := default ResourceSet.empty (resource_sets s !! set) in
  {| rbs_dirty := rbs_dirty s || ResourceSet.changes info binding element rs;
     resource_sets := <[set := ResourceSet.bind info binding element rs]> (resource_sets s) |}.

Definition buffer_info (b : Buffer) (off rng : N) : ResourceInfo :=
  {| buffer := Some b; offset := off; range := rng; image_view := None; sampler := None |}.

Definition image_info (v : ImageView) (s : Sampler) : ResourceInfo :=
  {| buffer := None; offset := 0; range := 0; image_view := Some v; sampler := Some s |}.

Definition input_info (v : ImageView) : ResourceInfo :=
  {| buffer := None; offset := 0; range := 0; image_view := Some v; sampler := None |}.

Definition bind_buffer (b : Buffer) (off rng set binding element : N) :=
  bind (buffer_info b off rng) set binding element.

Definition bind_image (v : ImageView) (s : Sampler) (set binding element : N) :=
  bind (image_info v s) set binding element.

Definition bind_input (v : ImageView) (set binding element : N) :=
  bind (input_info v) set binding element.

End ResourceBindingState.

(** ** The resource cache and the event log *)

(** A render target and a subpass description, as far as
    [begin_render_pass] passes them on to the cache. *)
Record RenderTarget := {
  rt_attachments : list N;
  rt_extent : N * N;
}.

Record SubpassInfo := {
  input_attachments : list N;
  output_attachments : list N;
}.

(** A rendering [Subpass], as far as [begin_render_pass] reads it. *)
Record Subpass := {
  get_input_attachments : list N;
  get_output_attachments : list N;
}.

(** The resource cache is an external collaborator: get-or-create by
    structural key, the same object for the same key.  It is a parameter of
    the development; a pipeline or a descriptor set is known by its handle. *)
Class ResourceCache := {
  request_render_pass : list N → list N → list SubpassInfo → RenderPass;
  request_framebuffer : RenderTarget → RenderPass → Framebuffer;
  request_graphics_pipeline : PipelineState → N;
  request_compute_pipeline : PipelineState → N;
  request_descriptor_set :
    DescriptorSetLayout → gmap N (gmap N VkDescriptorBufferInfo) →
    gmap N (gmap N VkDescriptorImageInfo) → N;
}.

(** What a member function does to the outside world, in program order:
    requests to the resource cache, Vulkan commands recorded into the
    command buffer (the first argument of a [vk*] event is the command
    buffer's handle), and log lines. *)
Inductive Event :=
| call_request_render_pass (attachments load_store_infos : list N) (subpasses : list SubpassInfo)
| call_request_framebuffer (target : RenderTarget) (rp : RenderPass)
| call_request_graphics_pipeline (ps : PipelineState)
| call_request_compute_pipeline (ps : PipelineState)
| call_request_descriptor_set (l : DescriptorSetLayout)
    (buffer_infos : gmap N (gmap N VkDescriptorBufferInfo))
    (image_infos : gmap N (gmap N VkDescriptorImageInfo))
| vkBeginCommandBuffer (cmd flags : N) (inheritance : option (N * N * N))
| vkEndCommandBuffer (cmd : N)
| vkResetCommandBuffer (cmd : N)
| vkCmdBeginRenderPass (cmd render_pass framebuffer : N) (extent : N * N)
    (clear_value_count : N) (clear_values : list N) (contents : VkSubpassContents)
| vkCmdNextSubpass (cmd : N) (contents : VkSubpassContents)
| vkCmdEndRenderPass (cmd : N)
| vkCmdPushConstants (cmd layout stage off size : N) (values : list N)
| vkCmdBindPipeline (cmd bind_point pipeline : N)
| vkCmdBindDescriptorSets (cmd bind_point layout first_set : N)
    (descriptor_sets : list N) (dynamic_offset_count : N) (dynamic_offsets : list N)
| vkCmdDraw (cmd vertex_count instance_count first_vertex first_instance : N)
| vkCmdDrawIndexed (cmd index_count instance_count first_index : N)
    (vertex_offset : Z) (first_instance : N)
| vkCmdDrawIndexedIndirect (cmd buf off draw_count stride : N)
| vkCmdDispatch (cmd x y z : N)
| vkCmdDispatchIndirect (cmd buf off : N)
| vkCmdOther (cmd : N) (name : string) (arguments : list N)
| LOGW_push_constant_range_not_found (off size : N).

(** ** The command buffer *)

Inductive State := Invalid | Initial | Recording | Executable.

Inductive ResetMode := ResetPool | ResetIndividually | AlwaysAllocate.

#[global] Instance State_eq_dec : EqDecision State.
Proof. solve_decision. Defined.
#[global] Instance ResetMode_eq_dec : EqDecision ResetMode.
Proof. solve_decision. Defined.

Record RenderPassBinding := {
  render_pass : option RenderPass;
  framebuffer : option Framebuffer;
}.

Record CommandBuffer := {
  pool_reset_mode : ResetMode;          (* command_pool.get_reset_mode() *)
  level : VkCommandBufferLevel;
  handle : N;
  state : State;
  current_render_pass : RenderPassBinding;
  pipeline_state : PipelineState;
  resource_binding_state : ResourceBindingState;
  descriptor_set_layout_state : gmap N DescriptorSetLayout;
}.

(** The three tracked components, replaced together. *)
Definition with_tracking (ps : PipelineState) (rbs : ResourceBindingState)
    (dsls : gmap N DescriptorSetLayout) (cb : CommandBuffer) : CommandBuffer :=
  {| pool_reset_mode := pool_reset_mode cb;
     level := level cb;
     handle := handle cb;
     state := state cb;
     current_render_pass := current_render_pass cb;
     pipeline_state := ps;
     resource_binding_state := rbs;
     descriptor_set_layout_state := dsls |}.

Definition with_pipeline_state (ps : PipelineState) (cb : CommandBuffer) : CommandBuffer :=
  with_tracking ps (resource_binding_state cb) (descriptor_set_layout_state cb) cb.

Definition with_resource_binding_state (rbs : ResourceBindingState) (cb : CommandBuffer)
    : CommandBuffer :=
  with_tracking (pipeline_state cb) rbs (descriptor_set_layout_state cb) cb.

Definition with_state (s : State) (cb : CommandBuffer) : CommandBuffer :=
  {| pool_reset_mode := pool_reset_mode cb;
     level := level cb;
     handle := handle cb;
     state := s;
     current_render_pass := current_render_pass cb;
     pipeline_state := pipeline_state cb;
     resource_binding_state := resource_binding_state cb;
     descriptor_set_layout_state := descriptor_set_layout_state cb |}.

Definition with_current_render_pass (b : RenderPassBinding) (cb : CommandBuffer)
    : CommandBuffer :=
  {| pool_reset_mode := pool_reset_mode cb;
     level := level cb;
     handle := handle cb;
     state := state cb;
     current_render_pass := b;
     pipeline_state := pipeline_state cb;
     resource_binding_state := resource_binding_state cb;
     descriptor_set_layout_state := descriptor_set_layout_state cb |}.

(** The constructor, once [vkAllocateCommandBuffers] has given [h]. *)
Definition new_command_buffer (mode : ResetMode) (lvl : VkCommandBufferLevel) (h : N)
    : CommandBuffer :=
  {| pool_reset_mode := mode;
     level := lvl;
     handle := h;
     state := Initial;
     current_render_pass := {| render_pass := None; framebuffer := None |};
     pipeline_state := PipelineState.reset;
     resource_binding_state := ResourceBindingState.reset;
     descriptor_set_layout_state := ∅ |}.

(** The move constructor: pool, level, handle and state are taken over, the
    tracked components of the new object start out fresh.  [moved_from] is
    what it leaves behind. *)
Definition move_construct (other : CommandBuffer) : CommandBuffer :=
  {| pool_reset_mode := pool_reset_mode other;
     level := level other;
     handle := handle other;
     state := state other;
     current_render_pass := {| render_pass := None; framebuffer := None |};
     pipeline_state := PipelineState.reset;
     resource_binding_state := ResourceBindingState.reset;
     descriptor_set_layout_state := ∅ |}.

Definition moved_from (other : CommandBuffer) : CommandBuffer :=
  {| pool_reset_mode := pool_reset_mode other;
     level := level other;
     handle := VK_NULL_HANDLE;
     state := Invalid;
     current_render_pass := current_render_pass other;
     pipeline_state := pipeline_state other;
     resource_binding_state := resource_binding_state other;
     descriptor_set_layout_state := descriptor_set_layout_state other |}.

Definition get_handle (cb : CommandBuffer) : N := handle cb.
Definition get_state (cb : CommandBuffer) : State := state cb.
Definition get_current_render_pass (cb : CommandBuffer) : RenderPassBinding :=
  current_render_pass cb.

Definition is_recording (cb : CommandBuffer) : bool := bool_decide (state cb = Recording).

(** Dereferencing the pointers of the render-pass binding. *)
Definition deref_render_pass (b : RenderPassBinding) : result RenderPass :=
  match render_pass b with
  | Some rp => Ok rp
  | None => Fault NullRenderPass
  end.

Definition deref_framebuffer (b : RenderPassBinding) : result Framebuffer :=
  match framebuffer b with
  | Some fb => Ok fb
  | None => Fault NullFramebuffer
  end.

(** [std::vector::resize] on the blend attachments: cut, or pad with
    default-constructed attachment states. *)
Definition resize (n : N) (l : list N) : list N :=
  take (N.to_nat n) l ++ replicate (N.to_nat n - length l)%nat 0.

Definition resize_attachments (n : N) (s : ColorBlendState) : ColorBlendState :=
  {| cbs_logic_op := cbs_logic_op s; attachments := resize n (attachments s) |}.

Section CommandBuffer.
Context `{!VkCommon, !ResourceCache}.

(** [assert(c)]: nothing when compiled out, fatal when it fails. *)
Definition c_assert (c : bool) : result unit :=
  if ndebug || c then Ok () else Fault AssertionFailed.

(** *** Recording life cycle *)

Definition begin (flags : N) (primary_cmd_buf : option CommandBuffer) (cb : CommandBuffer)
    : result (VkResult * CommandBuffer * list Event) :=
  _ ← c_assert (negb (is_recording cb));
  if is_recording cb then Ok (VK_NOT_READY, cb, [])
  else
    let cb := with_state Recording cb in
    (* Reset state *)
    let cb := with_tracking PipelineState.reset ResourceBindingState.reset ∅ cb in
    match level cb with
    | VK_COMMAND_BUFFER_LEVEL_SECONDARY =>
        _ ← c_assert (bool_decide (is_Some primary_cmd_buf));
        match primary_cmd_buf with
        | None => Fault NullPrimaryCommandBuffer
        | Some primary =>
            let cb := with_current_render_pass (get_current_render_pass primary) cb in
            rp ← deref_render_pass (current_render_pass cb);
            fb ← deref_framebuffer (current_render_pass cb);
            let inheritance :=
              (rp_handle rp, fb_handle fb,
               PipelineState.get_subpass_index (pipeline_state cb)) in
            Ok (VK_SUCCESS, cb, [vkBeginCommandBuffer (handle cb) flags (Some inheritance)])
        end
    | VK_COMMAND_BUFFER_LEVEL_PRIMARY =>
        Ok (VK_SUCCESS, cb, [vkBeginCommandBuffer (handle cb) flags None])
    end.

Definition end_ (cb : CommandBuffer) : result (VkResult * CommandBuffer * list Event) :=
  _ ← c_assert (is_recording cb);
  if negb (is_recording cb) then Ok (VK_NOT_READY, cb, [])
  else Ok (VK_SUCCESS, with_state Executable cb, [vkEndCommandBuffer (get_handle cb)]).

(** [driver_result] is what [vkResetCommandBuffer] answers. *)
Definition reset (reset_mode : ResetMode) (driver_result : VkResult) (cb : CommandBuffer)
    : result (VkResult * CommandBuffer * list Event) :=
  _ ← c_assert (bool_decide (reset_mode = pool_reset_mode cb));
  let cb := with_state Initial cb in
  if bool_decide (reset_mode = ResetIndividually)
  then Ok (driver_result, cb, [vkResetCommandBuffer (handle cb)])
  else Ok (VK_SUCCESS, cb, []).

(** *** Render pass and subpass sequencing *)

Definition subpass_info (s : Subpass) : SubpassInfo :=
  {| input_attachments := get_input_attachments s;
     output_attachments := get_output_attachments s |}.

Definition begin_render_pass (render_target : RenderTarget) (load_store_infos : list N)
    (clear_values : list N) (contents : VkSubpassContents) (subpasses : list Subpass)
    (cb : CommandBuffer) : result (CommandBuffer * list Event) :=
  (* Reset state *)
  let cb := with_tracking PipelineState.reset ResourceBindingState.reset ∅ cb in
  (* Create render pass *)
  let subpass_infos := subpass_info <$> subpasses in
  let rp := request_render_pass (rt_attachments render_target) load_store_infos subpass_infos in
  let fb := request_framebuffer render_target rp in
  let cb := with_current_render_pass {| render_pass := Some rp; framebuffer := Some fb |} cb in
  (* Update blend state attachments for first subpass *)
  let blend_state := PipelineState.get_color_blend_state (pipeline_state cb) in
  match get_color_output_count rp (PipelineState.get_subpass_index (pipeline_state cb)) with
  | None => Fault SubpassOutOfRange
  | Some n =>
      let blend_state := resize_attachments n blend_state in
      let cb := with_pipeline_state
                  (PipelineState.set_color_blend_state blend_state (pipeline_state cb)) cb in
      Ok (cb,
          [call_request_render_pass (rt_attachments render_target) load_store_infos subpass_infos;
           call_request_framebuffer render_target rp;
           vkCmdBeginRenderPass (get_handle cb) (rp_handle rp) (fb_handle fb)
             (rt_extent render_target) (to_u32 (N.of_nat (length clear_values)))
             clear_values contents])
  end.

Definition next_subpass (cb : CommandBuffer) : result (CommandBuffer * list Event) :=
  (* Increment subpass index *)
  let ps := PipelineState.set_subpass_index
              (u32 (PipelineState.get_subpass_index (pipeline_state cb) + 1))
              (pipeline_state cb) in
  (* Update blend state attachments *)
  let blend_state := PipelineState.get_color_blend_state ps in
  rp ← deref_render_pass (current_render_pass cb);
  match get_color_output_count rp (PipelineState.get_subpass_index ps) with
  | None => Fault SubpassOutOfRange
  | Some n =>
      let ps := PipelineState.set_color_blend_state (resize_attachments n blend_state) ps in
      (* Reset descriptor sets *)
      let cb := with_tracking ps ResourceBindingState.reset ∅ cb in
      Ok (cb, [vkCmdNextSubpass (get_handle cb) VK_SUBPASS_CONTENTS_INLINE])
  end.

Definition end_render_pass (cb : CommandBuffer) : result (CommandBuffer * list Event) :=
  Ok (cb, [vkCmdEndRenderPass (get_handle cb)]).

(** *** State setters and resource binding *)

Definition bind_pipeline_layout (pl : PipelineLayout) (cb : CommandBuffer)
    : result (CommandBuffer * list Event) :=
  Ok (with_pipeline_state (PipelineState.set_pipeline_layout pl (pipeline_state cb)) cb, []).

Definition set_specialization_constant (constant_id : N) (data : list N) (cb : CommandBuffer)
    : result (CommandBuffer * list Event) :=
  Ok (with_pipeline_state
        (PipelineState.set_specialization_constant constant_id data (pipeline_state cb)) cb, []).

Definition set_state_block (b : PipelineState.Block) (v : N) (cb : CommandBuffer)
    : result (CommandBuffer * list Event) :=
  Ok (with_pipeline_state (PipelineState.set_block b v (pipeline_state cb)) cb, []).

Definition set_color_blend_state (s : ColorBlendState) (cb : CommandBuffer)
    : result (CommandBuffer * list Event) :=
  Ok (with_pipeline_state (PipelineState.set_color_blend_state s (pipeline_state cb)) cb, []).

Definition push_constants (off : N) (values : list N) (cb : CommandBuffer)
    : result (CommandBuffer * list Event) :=
  pipeline_layout ← PipelineState.get_pipeline_layout (pipeline_state cb);
  let size := to_u32 (N.of_nat (length values)) in
  let shader_stage := get_push_constant_range_stage pipeline_layout off size in
  if bool_decide (shader_stage ≠ 0)
  then Ok (cb, [vkCmdPushConstants (get_handle cb) (pl_handle pipeline_layout)
                  shader_stage off size values])
  else Ok (cb, [LOGW_push_constant_range_not_found off (N.of_nat (length values))]).

Definition bind_buffer (b : Buffer) (off rng set binding array_element : N)
    (cb : CommandBuffer) : result (CommandBuffer * list Event) :=
  Ok (with_resource_binding_state
        (ResourceBindingState.bind_buffer b off rng set binding array_element
           (resource_binding_state cb)) cb, []).

Definition bind_image (v : ImageView) (s : Sampler) (set binding array_element : N)
    (cb : CommandBuffer) : result (CommandBuffer * list Event) :=
  Ok (with_resource_binding_state
        (ResourceBindingState.bind_image v s set binding array_element
           (resource_binding_state cb)) cb, []).

Definition bind_input (v : ImageView) (set binding array_element : N)
    (cb : CommandBuffer) : result (CommandBuffer * list Event) :=
  Ok (with_resource_binding_state
        (ResourceBindingState.bind_input v set binding array_element
           (resource_binding_state cb)) cb, []).

End CommandBuffer.

(** ** The flushes *)

(** A loop whose body may fail. *)
Fixpoint for_each {A S} (body : A → S → result S) (l : list A) (s : S) : result S :=
  match l with
  | [] => Ok s
  | a :: l => s' ← body a s; for_each body l s'
  end.

(** What the flush accumulates for one descriptor set. *)
Record Infos := {
  buffer_infos : gmap N (gmap N VkDescriptorBufferInfo);
  image_infos : gmap N (gmap N VkDescriptorImageInfo);
  dynamic_offsets : list N;
}.

Definition no_infos : Infos :=
  {| buffer_infos := ∅; image_infos := ∅; dynamic_offsets := [] |}.

Section Flush.
Context `{!VkCommon, !ResourceCache}.

Definition flush_pipeline_state (pipeline_bind_point : N) (cb : CommandBuffer)
    : result (CommandBuffer * list Event) :=
  (* Create a new pipeline only if the graphics state changed *)
  if negb (PipelineState.is_dirty (pipeline_state cb)) then Ok (cb, [])
  else
    let ps := PipelineState.clear_dirty (pipeline_state cb) in
    (* Create and bind pipeline *)
    if bool_decide (pipeline_bind_point = VK_PIPELINE_BIND_POINT_GRAPHICS) then
      rp ← deref_render_pass (current_render_pass cb);
      let ps := PipelineState.set_render_pass rp ps in
      let pipeline := request_graphics_pipeline ps in
      Ok (with_pipeline_state ps cb,
          [call_request_graphics_pipeline ps;
           vkCmdBindPipeline (get_handle cb) pipeline_bind_point pipeline])
    else if bool_decide (pipeline_bind_point = VK_PIPELINE_BIND_POINT_COMPUTE) then
      let pipeline := request_compute_pipeline ps in
      Ok (with_pipeline_state ps cb,
          [call_request_compute_pipeline ps;
           vkCmdBindPipeline (get_handle cb) pipeline_bind_point pipeline])
    else Fault UnsupportedBindPoint.

(** The image layout for a descriptor type; [None] is the [default:
    continue] of the switch. *)
Definition image_layout_for (ty : VkDescriptorType) (v : ImageView) : option VkImageLayout :=
  match ty with
  | VK_DESCRIPTOR_TYPE_COMBINED_IMAGE_SAMPLER
  | VK_DESCRIPTOR_TYPE_INPUT_ATTACHMENT =>
      if is_depth_stencil_format (image_view_format v)
      then Some VK_IMAGE_LAYOUT_DEPTH_STENCIL_READ_ONLY_OPTIMAL
      else Some VK_IMAGE_LAYOUT_SHADER_READ_ONLY_OPTIMAL
  | VK_DESCRIPTOR_TYPE_STORAGE_IMAGE => Some VK_IMAGE_LAYOUT_GENERAL
  | _ => None
  end.

Definition sampler_handle_or_null (s : option Sampler) : N :=
  match s with
  | Some s => sampler_handle s
  | None => VK_NULL_HANDLE
  end.

(** The body of the loop over the elements of a binding. *)
Definition flush_element (binding_info : VkDescriptorSetLayoutBinding)
    (binding_index : N) (element_it : N * ResourceInfo) (acc : Infos) : result Infos :=
  let '(arrayElement, resource_info) := element_it in
  match buffer resource_info, is_buffer_descriptor_type (descriptorType binding_info) with
  | Some b, true =>
      (* Get buffer info *)
      let buffer_info :=
        {| bi_buffer := buffer_handle b;
           bi_offset := offset resource_info;
           bi_range := range resource_info |} in
      if is_dynamic_buffer_descriptor_type (descriptorType binding_info) then
        Ok {| buffer_infos :=
                binding_map_set binding_index arrayElement
                  {| bi_buffer := bi_buffer buffer_info;
                     bi_offset := 0;
                     bi_range := bi_range buffer_info |} (buffer_infos acc);
              image_infos := image_infos acc;
              dynamic_offsets := dynamic_offsets acc ++ [to_u32 (bi_offset buffer_info)] |}
      else
        Ok {| buffer_infos :=
                binding_map_set binding_index arrayElement buffer_info (buffer_infos acc);
              image_infos := image_infos acc;
              dynamic_offsets := dynamic_offsets acc |}
  | _, _ =>
      (* Get image info *)
      match image_view resource_info, sampler resource_info with
      | None, None => Ok acc
      | None, Some _ => Fault NullImageView
      | Some v, s =>
          match image_layout_for (descriptorType binding_info) v with
          | None => Ok acc
          | Some image_layout =>
              Ok {| buffer_infos := buffer_infos acc;
                    image_infos :=
                      binding_map_set binding_index arrayElement
                        {| ii_sampler := sampler_handle_or_null s;
                           ii_imageView := image_view_handle v;
                           ii_imageLayout := image_layout |} (image_infos acc);
                    dynamic_offsets := dynamic_offsets acc |}
          end
      end
  end.

(** The body of the loop over the bindings of a set. *)
Definition flush_binding (descriptor_set_layout : DescriptorSetLayout)
    (binding_it : N * gmap N ResourceInfo) (acc : Infos) : result Infos :=
  let '(binding_index, binding_resources) := binding_it in
  (* Check if binding exists in the pipeline layout *)
  match get_layout_binding descriptor_set_layout binding_index with
  | None => Ok acc
  | Some binding_info =>
      for_each (flush_element binding_info binding_index)
               (sorted_entries binding_resources) acc
  end.

Definition collect_infos (descriptor_set_layout : DescriptorSetLayout) (rs : ResourceSet)
    : result Infos :=
  for_each (flush_binding descriptor_set_layout)
           (sorted_entries (ResourceSet.get_resource_bindings rs)) no_infos.

(** Whether a declared set was bound before with another layout object. *)
Definition layout_changed (pl : PipelineLayout) (dsls : gmap N DescriptorSetLayout)
    (set : N) : bool :=
  match dsls !! set, get_set_layout pl set with
  | Some bound, Some l => negb (bool_decide (dsl_handle bound = dsl_handle l))
  | _, _ => false
  end.

Definition collect_update_sets (pl : PipelineLayout) (dsls : gmap N DescriptorSetLayout)
    : gset N :=
  list_to_set (filter (λ set, layout_changed pl dsls set = true) (get_bindings pl)).

(** Remove bound descriptor set layouts which don't exist in the pipeline
    layout. *)
Definition prune (pl : PipelineLayout) (dsls : gmap N DescriptorSetLayout)
    : gmap N DescriptorSetLayout :=
  filter (λ kv, has_set_layout pl kv.1 = true) dsls.

(** The events of one resolved and bound set. *)
Definition bind_events (pipeline_bind_point : N) (cb : CommandBuffer) (pl : PipelineLayout)
    (set : N) (l : DescriptorSetLayout) (infos : Infos) : list Event :=
  [call_request_descriptor_set l (buffer_infos infos) (image_infos infos);
   vkCmdBindDescriptorSets (get_handle cb) pipeline_bind_point (pl_handle pl) set
     [request_descriptor_set l (buffer_infos infos) (image_infos infos)]
     (to_u32 (N.of_nat (length (dynamic_offsets infos)))) (dynamic_offsets infos)].

(** The body of the loop over all set bindings.  The loop state is the
    binding state, the bound layouts and the events so far. *)
Definition flush_set (pipeline_bind_point : N) (cb : CommandBuffer) (pl : PipelineLayout)
    (update_sets : gset N) (set_it : N * ResourceSet)
    (st : ResourceBindingState * gmap N DescriptorSetLayout * list Event)
    : result (ResourceBindingState * gmap N DescriptorSetLayout * list Event) :=
  let '(set, rs) := set_it in
  let '(rbs, dsls, events) := st in
  (* Skip if set bindings don't have changes *)
  if negb (ResourceSet.is_dirty rs) && negb (bool_decide (set ∈ update_sets)) then Ok st
  else
    (* Clear dirty flag for binding set *)
    let rbs := ResourceBindingState.clear_dirty_set set rbs in
    (* Skip set layout if it doesn't exist *)
    match get_set_layout pl set with
    | None => Ok (rbs, dsls, events)
    | Some descriptor_set_layout =>
        (* Make descriptor set layout bound for current set *)
        let dsls := <[set := descriptor_set_layout]> dsls in
        infos ← collect_infos descriptor_set_layout rs;
        Ok (rbs, dsls,
            events ++ bind_events pipeline_bind_point cb pl set descriptor_set_layout infos)
    end.

Definition flush_descriptor_state (pipeline_bind_point : N) (cb : CommandBuffer)
    : result (CommandBuffer * list Event) :=
  pl ← PipelineState.get_pipeline_layout (pipeline_state cb);
  let update_sets := collect_update_sets pl (descriptor_set_layout_state cb) in
  let dsls := prune pl (descriptor_set_layout_state cb) in
  let rbs := resource_binding_state cb in
  (* Check if descriptor set needs to be created *)
  if ResourceBindingState.is_dirty rbs || negb (bool_decide (update_sets = ∅)) then
    '(rbs', dsls', events) ←
      for_each (flush_set pipeline_bind_point cb pl update_sets)
               (map_to_list (ResourceBindingState.get_set_bindings rbs))
               (ResourceBindingState.clear_dirty rbs, dsls, []);
    Ok (with_tracking (pipeline_state cb) rbs' dsls' cb, events)
  else
    Ok (with_tracking (pipeline_state cb) rbs dsls cb, []).

(** *** Draws and dispatches *)

(** What every draw and dispatch function does: the two flushes for its
    bind point, then its own command. *)
Definition flush (pipeline_bind_point : N) (last : Event) (cb : CommandBuffer)
    : result (CommandBuffer * list Event) :=
  '(cb, e1) ← flush_pipeline_state pipeline_bind_point cb;
  '(cb, e2) ← flush_descriptor_state pipeline_bind_point cb;
  Ok (cb, e1 ++ e2 ++ [last]).

Definition draw (vertex_count instance_count first_vertex first_instance : N)
    (cb : CommandBuffer) :=
  flush VK_PIPELINE_BIND_POINT_GRAPHICS
    (vkCmdDraw (get_handle cb) vertex_count instance_count first_vertex first_instance) cb.

Definition draw_indexed (index_count instance_count first_index : N) (vertex_offset : Z)
    (first_instance : N) (cb : CommandBuffer) :=
  flush VK_PIPELINE_BIND_POINT_GRAPHICS
    (vkCmdDrawIndexed (get_handle cb) index_count instance_count first_index
       vertex_offset first_instance) cb.

Definition draw_indexed_indirect (b : Buffer) (off draw_count stride : N)
    (cb : CommandBuffer) :=
  flush VK_PIPELINE_BIND_POINT_GRAPHICS
    (vkCmdDrawIndexedIndirect (get_handle cb) (buffer_handle b) off draw_count stride) cb.

Definition dispatch (group_count_x group_count_y group_count_z : N) (cb : CommandBuffer) :=
  flush VK_PIPELINE_BIND_POINT_COMPUTE
    (vkCmdDispatch (get_handle cb) group_count_x group_count_y group_count_z) cb.

Definition dispatch_indirect (b : Buffer) (off : N) (cb : CommandBuffer) :=
  flush VK_PIPELINE_BIND_POINT_COMPUTE
    (vkCmdDispatchIndirect (get_handle cb) (buffer_handle b) off) cb.

(** The remaining member functions (vertex and index buffers, dynamic
    state, copies, blits, barriers, [execute_commands]) record one Vulkan
    command and touch no tracked state. *)
Definition pass_through (name : string) (arguments : list N) (cb : CommandBuffer)
    : result (CommandBuffer * list Event) :=
  Ok (cb, [vkCmdOther (get_handle cb) name arguments]).

End Flush.

(** ** The public interface as a transition system *)

Inductive Op :=
| op_begin (flags : N) (primary_cmd_buf : option CommandBuffer)
| op_end
| op_reset (reset_mode : ResetMode) (driver_result : VkResult)
| op_move
| op_begin_render_pass (render_target : RenderTarget) (load_store_infos clear_values : list N)
    (contents : VkSubpassContents) (subpasses : list Subpass)
| op_next_subpass
| op_end_render_pass
| op_bind_pipeline_layout (pl : PipelineLayout)
| op_set_specialization_constant (constant_id : N) (data : list N)
| op_set_state_block (b : PipelineState.Block) (v : N)
| op_set_color_blend_state (s : ColorBlendState)
| op_push_constants (off : N) (values : list N)
| op_bind_buffer (b : Buffer) (off rng set binding array_element : N)
| op_bind_image (v : ImageView) (s : Sampler) (set binding array_element : N)
| op_bind_input (v : ImageView) (set binding array_element : N)
| op_draw (vertex_count instance_count first_vertex first_instance : N)
| op_draw_indexed (index_count instance_count first_index : N) (vertex_offset : Z)
    (first_instance : N)
| op_draw_indexed_indirect (b : Buffer) (off draw_count stride : N)
| op_dispatch (x y z : N)
| op_dispatch_indirect (b : Buffer) (off : N)
| op_pass_through (name : string) (arguments : list N).

(** An entry of a resource set that the flush visits: the declared binding,
    the binding index, the array element and the bound resource. *)
Record Entry := {
  entry_binding_info : VkDescriptorSetLayoutBinding;
  entry_binding : N;
  entry_element : N;
  entry_resource : ResourceInfo;
}.

Definition entry_key (x : Entry) : N * N := (entry_binding x, entry_element x).

(** Lexicographic order on (binding, element). *)
Definition key_lt (k1 k2 : N * N) : Prop :=
  k1.1 < k2.1 ∨ (k1.1 = k2.1 ∧ k1.2 < k2.2).

Section Interface.
Context `{!VkCommon, !ResourceCache}.

Definition drop_result {A} (r : result (VkResult * A * list Event))
    : result (A * list Event) :=
  '(_, a, events) ← r; Ok (a, events).

Definition call (op : Op) (cb : CommandBuffer) : result (CommandBuffer * list Event) :=
  match op with
  | op_begin flags primary => drop_result (begin flags primary cb)
  | op_end => drop_result (end_ cb)
  | op_reset mode r => drop_result (reset mode r cb)
  | op_move => Ok (move_construct cb, [])
  | op_begin_render_pass rt ls cv c sp => begin_render_pass rt ls cv c sp cb
  | op_next_subpass => next_subpass cb
  | op_end_render_pass => end_render_pass cb
  | op_bind_pipeline_layout pl => bind_pipeline_layout pl cb
  | op_set_specialization_constant i d => set_specialization_constant i d cb
  | op_set_state_block b v => set_state_block b v cb
  | op_set_color_blend_state s => set_color_blend_state s cb
  | op_push_constants off values => push_constants off values cb
  | op_bind_buffer b off rng s bd e => bind_buffer b off rng s bd e cb
  | op_bind_image v sm s bd e => bind_image v sm s bd e cb
  | op_bind_input v s bd e => bind_input v s bd e cb
  | op_draw a b c d => draw a b c d cb
  | op_draw_indexed a b c d e => draw_indexed a b c d e cb
  | op_draw_indexed_indirect b o d s => draw_indexed_indirect b o d s cb
  | op_dispatch x y z => dispatch x y z cb
  | op_dispatch_indirect b o => dispatch_indirect b o cb
  | op_pass_through name args => pass_through name args cb
  end.

(** A sequence of calls; the events of the calls are concatenated. *)
Fixpoint run (ops : list Op) (cb : CommandBuffer) : result (CommandBuffer * list Event) :=
  match ops with
  | [] => Ok (cb, [])
  | op :: ops =>
      '(cb, e1) ← call op cb;
      '(cb, e2) ← run ops cb;
      Ok (cb, e1 ++ e2)
  end.

(** The command buffers a caller can get hold of. *)
Definition reachable (cb : CommandBuffer) : Prop :=
  ∃ mode lvl h ops events, run ops (new_command_buffer mode lvl h) = Ok (cb, events).

(** The command buffers that [flush_descriptor_state] finds when a draw or
    dispatch function calls it: those that [flush_pipeline_state], called
    just before it for the same bind point, has left of a reachable one. *)
Definition flush_site (pipeline_bind_point : N) (cb : CommandBuffer) : Prop :=
  ∃ cb0 events,
    reachable cb0 ∧ flush_pipeline_state pipeline_bind_point cb0 = Ok (cb, events).

(** The entries the flush of a set visits, in the order it visits them:
    bindings in ascending order, undeclared bindings left out, the
    elements of a binding in ascending order. *)
Definition binding_entries (l : DescriptorSetLayout) (binding_it : N * gmap N ResourceInfo)
    : list Entry :=
  match get_layout_binding l binding_it.1 with
  | None => []
  | Some binding_info =>
      (λ element_it, {| entry_binding_info := binding_info;
                        entry_binding := binding_it.1;
                        entry_element := element_it.1;
                        entry_resource := element_it.2 |})
      <$> sorted_entries binding_it.2
  end.

Definition visited_entries (l : DescriptorSetLayout) (rs : ResourceSet) : list Entry :=
  sorted_entries (resource_bindings rs) ≫= binding_entries l.

(** The loop body of the flush at a visited entry. *)
Definition visit (x : Entry) (acc : Infos) : result Infos :=
  flush_element (entry_binding_info x) (entry_binding x)
                (entry_element x, entry_resource x) acc.

(** The entry is a buffer region at a binding of a buffer descriptor type. *)
Definition is_buffer_entry (x : Entry) : bool :=
  bool_decide (is_Some (buffer (entry_resource x)))
  && is_buffer_descriptor_type (descriptorType (entry_binding_info x)).

Definition is_dynamic_buffer_entry (x : Entry) : bool :=
  is_buffer_entry x
  && is_dynamic_buffer_descriptor_type (descriptorType (entry_binding_info x)).

(** A set of the binding state that the flush does not skip as unchanged. *)
Definition needs_update (update_sets : gset N) (set : N) (rs : ResourceSet) : bool :=
  ResourceSet.is_dirty rs || bool_decide (set ∈ update_sets).

(** Whether the flush does any descriptor work at all. *)
Definition descriptor_work_needed (pl : PipelineLayout) (cb : CommandBuffer) : bool :=
  ResourceBindingState.is_dirty (resource_binding_state cb)
  || negb (bool_decide
             (collect_update_sets pl (descriptor_set_layout_state cb) = ∅)).

(** A set of the binding state for which the flush resolves and binds a
    descriptor set. *)
Definition resolves (pl : PipelineLayout) (update_sets : gset N)
    (set_it : N * ResourceSet) : bool :=
  needs_update update_sets set_it.1 set_it.2 && has_set_layout pl set_it.1.

(** The events of a resolved set: one request to the cache and one bind. *)
Definition set_events (pipeline_bind_point : N) (cb : CommandBuffer) (pl : PipelineLayout)
    (set_it : N * ResourceSet) : list Event :=
  match get_set_layout pl set_it.1 with
  | Some l =>
      match collect_infos l set_it.2 with
      | Ok infos => bind_events pipeline_bind_point cb pl set_it.1 l infos
      | Fault _ => []
      end
  | None => []
  end.

End Interface.

(** Every stored resource with a sampler has an image view. *)
Definition resource_ok (r : ResourceInfo) : Prop :=
  is_Some (sampler r) → is_Some (image_view r).

Definition bindings_ok (s : ResourceBindingState) : Prop :=
  ∀ set rs b e r,
    resource_sets s !! set = Some rs →
    binding_map_get b e (resource_bindings rs) = Some r →
    resource_ok r.

(** What holds of the tracked state of every reachable command buffer. *)
Record tracking_inv (cb : CommandBuffer) : Prop := {
  inv_bound_sets_have_bindings :
    ∀ set, is_Some (descriptor_set_layout_state cb !! set) →
           is_Some (resource_sets (resource_binding_state cb) !! set);
  inv_dirty_set_marks_state :
    ∀ set rs, resource_sets (resource_binding_state cb) !! set = Some rs →
              rs_dirty rs = true → rbs_dirty (resource_binding_state cb) = true;
  inv_bindings_ok : bindings_ok (resource_binding_state cb);
}.

(** Counting what a flush did. *)
Definition is_pipeline_request (e : Event) : bool :=
  match e with
  | call_request_graphics_pipeline _ | call_request_compute_pipeline _ => true
  | _ => false
  end.

Definition pipeline_requests (events : list Event) : nat :=
  length (filter (λ e, is_pipeline_request e = true) events).

Definition is_bind_of_set (set : N) (e : Event) : bool :=
  match e with
  | vkCmdBindDescriptorSets _ _ _ first_set _ _ _ => bool_decide (first_set = set)
  | _ => false
  end.

(** ** An instance of the parameters, for the worked examples

    The helpers with the meaning their names have in Vulkan, assertions
    compiled out, and a cache that hands out handles derived from the key. *)
Module Example.

Definition vk_common : VkCommon :=
  {| is_buffer_descriptor_type t :=
       match t with
       | VK_DESCRIPTOR_TYPE_UNIFORM_BUFFER | VK_DESCRIPTOR_TYPE_STORAGE_BUFFER
       | VK_DESCRIPTOR_TYPE_UNIFORM_BUFFER_DYNAMIC
       | VK_DESCRIPTOR_TYPE_STORAGE_BUFFER_DYNAMIC => true
       | _ => false
       end;
     is_dynamic_buffer_descriptor_type t :=
       match t with
       | VK_DESCRIPTOR_TYPE_UNIFORM_BUFFER_DYNAMIC
       | VK_DESCRIPTOR_TYPE_STORAGE_BUFFER_DYNAMIC => true
       | _ => false
       end;
     is_depth_stencil_format f := bool_decide (124 ≤ f ≤ 130);
     to_u32 := u32;
     ndebug := true |}.

Definition resource_cache : ResourceCache :=
  {| request_render_pass _ _ subpasses :=
       {| rp_handle := 1;
          rp_color_output_count :=
            (λ s, N.of_nat (length (output_attachments s))) <$> subpasses |};
     request_framebuffer _ rp := {| fb_handle := rp_handle rp + 1 |};
     request_graphics_pipeline ps := 100 + ps_subpass_index ps;
     request_compute_pipeline ps := 200;
     request_descriptor_set l _ _ := 300 + dsl_handle l |}.

Definition uniform_binding (b : N) (ty : VkDescriptorType) : VkDescriptorSetLayoutBinding :=
  {| binding := b; descriptorType := ty; descriptorCount := 1; stageFlags := 1 |}.

(** Two set layouts, and two pipeline layouts that both declare set 0,
    each with its own layout object. *)
Definition L1 : DescriptorSetLayout :=
  {| dsl_handle := 11;
     dsl_bindings := {[ 0 := uniform_binding 0 VK_DESCRIPTOR_TYPE_UNIFORM_BUFFER ]} |}.

Definition L2 : DescriptorSetLayout :=
  {| dsl_handle := 12;
     dsl_bindings := {[ 0 := uniform_binding 0 VK_DESCRIPTOR_TYPE_UNIFORM_BUFFER_DYNAMIC;
                        1 := uniform_binding 1 VK_DESCRIPTOR_TYPE_COMBINED_IMAGE_SAMPLER ]} |}.

Definition layout_A : PipelineLayout :=
  {| pl_handle := 21;
     pl_set_layouts := {[ 0 := L1 ]};
     pl_push_constant_ranges := [{| pc_stages := 1; pc_offset := 0; pc_size := 64 |}] |}.

Definition layout_B : PipelineLayout :=
  {| pl_handle := 22;
     pl_set_layouts := {[ 0 := L2 ]};
     pl_push_constant_ranges := [] |}.

Definition a_buffer : Buffer := {| buffer_handle := 31 |}.
Definition a_sampler : Sampler := {| sampler_handle := 41 |}.
Definition a_color_view : ImageView := {| image_view_handle := 51; image_view_format := 37 |}.
Definition a_depth_view : ImageView := {| image_view_handle := 52; image_view_format := 126 |}.

Definition a_target : RenderTarget := {| rt_attachments := [1; 2; 3]; rt_extent := (640, 480) |}.

(** A render pass of two subpasses, with one and with two colour outputs. *)
Definition two_subpasses : list Subpass :=
  [ {| get_input_attachments := []; get_output_attachments := [0] |};
    {| get_input_attachments := [0]; get_output_attachments := [1; 2] |} ].

Definition fresh : CommandBuffer :=
  new_command_buffer ResetPool VK_COMMAND_BUFFER_LEVEL_PRIMARY 7.

(** The command buffer after a sequence of calls on a fresh one. *)
Definition after (ops : list Op) : CommandBuffer :=
  match @run vk_common resource_cache ops fresh with
  | Ok (cb, _) => cb
  | Fault _ => fresh
  end.

(** Recording, in a render pass, with a pipeline layout bound. *)
Definition ready_to_draw : list Op :=
  [op_begin 0 None;
   op_begin_render_pass a_target [] [] VK_SUBPASS_CONTENTS_INLINE two_subpasses;
   op_bind_pipeline_layout layout_A].

(** Recording, with a pipeline layout that declares set 0 only, and a
    buffer bound into set 1. *)
Definition stale_set_1 : list Op :=
  [op_begin 0 None;
   op_bind_pipeline_layout layout_A;
   op_bind_buffer a_buffer 0 256 1 0 0].

(** The same, with a buffer bound into set 0 as well. *)
Definition two_dirty_sets : list Op :=
  stale_set_1 ++ [op_bind_buffer a_buffer 0 64 0 0 0].

(** Set 0 bound and flushed under layout A, then layout B bound, with no
    further resource binding. *)
Definition layout_swap : list Op :=
  [op_begin 0 None;
   op_bind_pipeline_layout layout_A;
   op_bind_buffer a_buffer 16 256 0 0 0;
   op_dispatch 1 1 1;
   op_bind_pipeline_layout layout_B].

(** Recording, with layout B bound: a dynamic uniform buffer at binding 0
    of set 0 and a depth image with a sampler at binding 1. *)
Definition buffer_and_image : list Op :=
  [op_begin 0 None;
   op_bind_pipeline_layout layout_B;
   op_bind_buffer a_buffer 16 256 0 0 0;
   op_bind_image a_depth_view a_sampler 0 1 0].

(** What [stale_set_1] leaves in set 1. *)
Definition set_1_bindings : gmap N (gmap N ResourceInfo) :=
  binding_map_set 0 0 (ResourceBindingState.buffer_info a_buffer 0 256) ∅.

(** What the flush after [buffer_and_image] requests the descriptor set
    of set 0 with. *)
Definition zeroed_buffer_infos : gmap N (gmap N VkDescriptorBufferInfo) :=
  binding_map_set 0 0 {| bi_buffer := 31; bi_offset := 0; bi_range := 256 |} ∅.

Definition depth_image_infos : gmap N (gmap N VkDescriptorImageInfo) :=
  binding_map_set 1 0
    {| ii_sampler := 41; ii_imageView := 52;
       ii_imageLayout := VK_IMAGE_LAYOUT_DEPTH_STENCIL_READ_ONLY_OPTIMAL |} ∅.

(** The outcome of a compute flush of the descriptor state. *)
Definition flushed (cb : CommandBuffer) : CommandBuffer * list Event :=
  match @flush_descriptor_state vk_common resource_cache
          VK_PIPELINE_BIND_POINT_COMPUTE cb with
  | Ok outcome => outcome
  | Fault _ => (cb, [])
  end.

(** What the pipeline flush of a dispatch leaves for the descriptor flush
    that follows it. *)
Definition pipeline_flushed (cb : CommandBuffer) : CommandBuffer :=
  match @flush_pipeline_state resource_cache VK_PIPELINE_BIND_POINT_COMPUTE cb with
  | Ok (cb', _) => cb'
  | Fault _ => cb
  end.

(** The command buffer at the descriptor flush of a dispatch that follows
    [layout_swap], and of one that follows [two_dirty_sets]. *)
Definition swapped : CommandBuffer := pipeline_flushed (after layout_swap).
Definition two_dirty : CommandBuffer := pipeline_flushed (after two_dirty_sets).

(** The command buffer after [buffer_and_image], and its flush. *)
Definition bound : CommandBuffer := after buffer_and_image.
Definition flush_state : CommandBuffer := (flushed bound).1.
Definition flush_events : list Event := (flushed bound).2.

End Example.

(** ** Further definitions

    The destructor, chains of moves, and the notions the further
    properties are stated with. *)

(** The destructor: the handles it passes to [vkFreeCommandBuffers]. *)
Definition destructor (cb : CommandBuffer) : list N :=
  if bool_decide (handle cb ≠ VK_NULL_HANDLE) then [handle cb] else [].

(** [n] move constructions in a row, each from the object the previous one
    built: the last object built, and the objects left behind, oldest
    first. *)
Fixpoint move_times (n : nat) (cb : CommandBuffer) : CommandBuffer * list CommandBuffer :=
  match n with
  | O => (cb, [])
  | S n =>
      let '(last, behind) := move_times n (move_construct cb) in
      (last, moved_from cb :: behind)
  end.

(** The command buffer a Vulkan call is recorded into. *)
Definition event_command_buffer (e : Event) : option N :=
  match e with
  | vkBeginCommandBuffer cmd _ _ | vkEndCommandBuffer cmd | vkResetCommandBuffer cmd
  | vkCmdBeginRenderPass cmd _ _ _ _ _ _ | vkCmdNextSubpass cmd _ | vkCmdEndRenderPass cmd
  | vkCmdPushConstants cmd _ _ _ _ _ | vkCmdBindPipeline cmd _ _
  | vkCmdBindDescriptorSets cmd _ _ _ _ _ _ | vkCmdDraw cmd _ _ _ _
  | vkCmdDrawIndexed cmd _ _ _ _ _ | vkCmdDrawIndexedIndirect cmd _ _ _ _
  | vkCmdDispatch cmd _ _ _ | vkCmdDispatchIndirect cmd _ _ | vkCmdOther cmd _ _ => Some cmd
  | _ => None
  end.

(** The calls of the recording life cycle. *)
Definition is_lifecycle (op : Op) : bool :=
  match op with
  | op_begin _ _ | op_end | op_reset _ _ => true
  | _ => false
  end.

(** The resource bound at (set, binding, array element), if any. *)
Definition bound_resource (cb : CommandBuffer) (set binding element : N)
    : option ResourceInfo :=
  rs ← resource_sets (resource_binding_state cb) !! set;
  binding_map_get binding element (resource_bindings rs).

(** Nothing is left for the descriptor flush to do under layout [pl]: no
    dirty flag is set, and every set tracked as bound is declared by [pl]
    with a layout object of the same handle. *)
Definition settled (pl : PipelineLayout) (cb : CommandBuffer) : Prop :=
  rbs_dirty (resource_binding_state cb) = false ∧
  (∀ set rs, resource_sets (resource_binding_state cb) !! set = Some rs →
             rs_dirty rs = false) ∧
  (∀ set bound, descriptor_set_layout_state cb !! set = Some bound →
                ∃ l, get_set_layout pl set = Some l ∧ dsl_handle bound = dsl_handle l).

(** Further values for the worked examples. *)
Module Scenario.

(** A secondary command buffer, and a primary one in the second subpass of
    a render pass. *)
Definition secondary : CommandBuffer :=
  new_command_buffer ResetIndividually VK_COMMAND_BUFFER_LEVEL_SECONDARY 8.

Definition in_second_subpass : list Op :=
  [op_begin 0 None;
   op_begin_render_pass Example.a_target [] [] VK_SUBPASS_CONTENTS_SECONDARY_COMMAND_BUFFERS
     Example.two_subpasses;
   op_next_subpass].

(** Recording, with layout B bound and nothing else. *)
Definition layout_bound : list Op :=
  [op_begin 0 None; op_bind_pipeline_layout Example.layout_B].

(** A primary command buffer whose render pass has ended and whose
    recording has ended, and one that is still recording after the end of
    its render pass, with a pipeline layout bound since. *)
Definition render_pass_ended : list Op :=
  [op_begin 0 None;
   op_begin_render_pass Example.a_target [] [] VK_SUBPASS_CONTENTS_SECONDARY_COMMAND_BUFFERS
     Example.two_subpasses;
   op_end_render_pass;
   op_end].


End Scenario.

(** * Properties *)

(** ** Loops and maps *)

Lemma for_each_app {A S} (body : A → S → result S) (l1 l2 : list A) (s : S) :
  for_each body (l1 ++ l2) s = s' ← for_each body l1 s; for_each body l2 s'.
Proof.
  revert s. induction l1 as [|a l1 IH]; intros s; simpl; [done|].
  destruct (body a s) as [s'|e]; simpl; [apply IH|done].
Qed.

Lemma for_each_fault {A S} (body : A → S → result S) (l : list A) (s : S) (err : Error) :
  for_each body l s = Fault err → ∃ a s0, a ∈ l ∧ body a s0 = Fault err.
Proof.
  revert s. induction l as [|a l IH]; intros s Hrun; [done|].
  simpl in Hrun. destruct (body a s) as [s'|err'] eqn:Hbody; simpl in Hrun.
  - destruct (IH _ Hrun) as (b & s0 & Hb & Hfault). exists b, s0. split; [by right|done].
  - inversion Hrun; subst. exists a, s. split; [by left|done].
Qed.

Lemma for_each_ext {A S} (f g : A → S → result S) (l : list A) (s : S) :
  (∀ a s, a ∈ l → f a s = g a s) → for_each f l s = for_each g l s.
Proof.
  revert s. induction l as [|a l IH]; intros s Hfg; simpl; [done|].
  rewrite Hfg by left. destruct (g a s) as [s'|e]; simpl; [|done].
  apply IH. intros b t Hb. apply Hfg. by right.
Qed.

Lemma for_each_fmap {A B S} (h : A → B) (body : B → S → result S) (l : list A) (s : S) :
  for_each body (h <$> l) s = for_each (λ a, body (h a)) l s.
Proof.
  revert s. induction l as [|a l IH]; intros s; simpl; [done|].
  destruct (body (h a) s); simpl; [apply IH|done].
Qed.

#[global] Instance key_le_total {A} : Total (@key_le A).
Proof. intros x y. unfold key_le. lia. Qed.

#[global] Instance key_le_trans {A} : Transitive (@key_le A).
Proof. intros x y z. unfold key_le. lia. Qed.

Lemma sorted_entries_perm {A} (m : gmap N A) : sorted_entries m ≡ₚ map_to_list m.
Proof. apply merge_sort_Permutation. Qed.

Lemma elem_of_sorted_entries {A} (m : gmap N A) (k : N) (v : A) :
  (k, v) ∈ sorted_entries m ↔ m !! k = Some v.
Proof. rewrite sorted_entries_perm. apply elem_of_map_to_list. Qed.

Lemma NoDup_sorted_entries_keys {A} (m : gmap N A) : NoDup (sorted_entries m).*1.
Proof. rewrite sorted_entries_perm. apply NoDup_fst_map_to_list. Qed.

(** Iteration is in strictly ascending key order. *)
Lemma sorted_entries_ascending {A} (m : gmap N A) :
  StronglySorted (λ x y, x.1 < y.1) (sorted_entries m).
Proof.
  pose proof (NoDup_sorted_entries_keys m) as Hnd.
  assert (StronglySorted key_le (sorted_entries m)) as Hs
    by apply (StronglySorted_merge_sort _).
  induction Hs as [|x l Hl IH Hx]; [constructor|].
  simpl in Hnd. apply NoDup_cons in Hnd as [Hnotin Hnd].
  constructor; [by apply IH|].
  apply Forall_forall. intros y Hy.
  rewrite Forall_forall in Hx. specialize (Hx y Hy). unfold key_le in Hx.
  assert (x.1 ≠ y.1); [|lia].
  intros Heq. apply Hnotin. rewrite Heq. by apply list_elem_of_fmap_2.
Qed.

Lemma binding_map_get_set {T} (b e : N) (v : T) (m : gmap N (gmap N T)) :
  binding_map_get b e (binding_map_set b e v m) = Some v.
Proof.
  unfold binding_map_get, binding_map_set.
  rewrite lookup_insert_eq. simpl. apply lookup_insert_eq.
Qed.

Lemma binding_map_get_set_ne {T} (b e b' e' : N) (v : T) (m : gmap N (gmap N T)) :
  (b, e) ≠ (b', e') →
  binding_map_get b' e' (binding_map_set b e v m) = binding_map_get b' e' m.
Proof.
  intros Hne. unfold binding_map_get, binding_map_set.
  destruct (decide (b = b')) as [->|Hb].
  - rewrite lookup_insert_eq. simpl.
    rewrite lookup_insert_ne by congruence.
    destruct (m !! b'); simpl; [done|apply lookup_empty].
  - by rewrite lookup_insert_ne.
Qed.

(** ** The infos collected for one set *)

Section Collect.
Context `{!VkCommon, !ResourceCache}.

Lemma flush_binding_visits l binding_it acc :
  flush_binding l binding_it acc = for_each visit (binding_entries l binding_it) acc.
Proof.
  destruct binding_it as [b m]. unfold flush_binding, binding_entries. simpl.
  destruct (get_layout_binding l b) as [info|]; [|done].
  rewrite for_each_fmap. apply for_each_ext. by intros [e r] acc' _.
Qed.

Lemma collect_infos_visits l rs :
  collect_infos l rs = for_each visit (visited_entries l rs) no_infos.
Proof.
  unfold collect_infos, visited_entries, ResourceSet.get_resource_bindings.
  generalize no_infos.
  induction (sorted_entries (resource_bindings rs)) as [|it its IH]; intros acc; [done|].
  simpl. rewrite for_each_app, flush_binding_visits.
  destruct (for_each visit (binding_entries l it) acc); simpl; [apply IH|done].
Qed.

Lemma elem_of_visited_entries l rs x :
  x ∈ visited_entries l rs ↔
    get_layout_binding l (entry_binding x) = Some (entry_binding_info x) ∧
    binding_map_get (entry_binding x) (entry_element x) (resource_bindings rs)
      = Some (entry_resource x).
Proof.
  unfold visited_entries, binding_map_get. rewrite list_elem_of_bind. split.
  - intros ([b m] & Hx & Hbm). apply elem_of_sorted_entries in Hbm.
    unfold binding_entries in Hx. simpl in Hx.
    destruct (get_layout_binding l b) as [info|] eqn:Hinfo; [|by apply elem_of_nil in Hx].
    apply list_elem_of_fmap in Hx as ([e r] & -> & Her).
    apply elem_of_sorted_entries in Her. simpl. by rewrite Hbm.
  - intros [Hinfo Hget].
    destruct (resource_bindings rs !! entry_binding x) as [m|] eqn:Hm; [|done].
    simpl in Hget. exists (entry_binding x, m). split.
    + unfold binding_entries. simpl. rewrite Hinfo.
      apply list_elem_of_fmap. exists (entry_element x, entry_resource x).
      split; [by destruct x|]. by apply elem_of_sorted_entries.
    + by apply elem_of_sorted_entries.
Qed.

Lemma binding_entries_keys l binding_it x :
  x ∈ binding_entries l binding_it → entry_binding x = binding_it.1.
Proof.
  unfold binding_entries.
  destruct (get_layout_binding l binding_it.1); [|by intros ?%elem_of_nil].
  by intros (? & -> & _)%list_elem_of_fmap.
Qed.

Lemma binding_entries_ascending l binding_it :
  StronglySorted (λ x y, key_lt (entry_key x) (entry_key y)) (binding_entries l binding_it).
Proof.
  unfold binding_entries.
  destruct (get_layout_binding l binding_it.1); [|constructor].
  pose proof (sorted_entries_ascending binding_it.2) as Hs.
  induction Hs as [|x xs Hxs IH Hx]; [constructor|].
  rewrite fmap_cons. constructor; [done|].
  apply Forall_fmap. eapply Forall_impl; [done|].
  intros y Hy. right. done.
Qed.

(** The flush visits the entries of a set in strictly ascending order of
    (binding, element). *)
Lemma visited_entries_ascending l rs :
  StronglySorted (λ x y, key_lt (entry_key x) (entry_key y)) (visited_entries l rs).
Proof.
  unfold visited_entries.
  pose proof (sorted_entries_ascending (resource_bindings rs)) as Hs.
  induction Hs as [|it its Hits IH Hit]; [constructor|].
  simpl. apply StronglySorted_app_2; [|apply binding_entries_ascending|done].
  intros x y Hx Hy.
  apply list_elem_of_bind in Hy as (it' & Hy & Hit').
  apply binding_entries_keys in Hx, Hy.
  rewrite Forall_forall in Hit. specialize (Hit it' Hit').
  left. simpl. by rewrite Hx, Hy.
Qed.

Lemma visited_entries_NoDup l rs : NoDup (entry_key <$> visited_entries l rs).
Proof.
  induction (visited_entries_ascending l rs) as [|x xs Hxs IH Hx]; [constructor|].
  rewrite fmap_cons. constructor; [|done].
  intros (y & Hkey & Hy)%list_elem_of_fmap.
  rewrite Forall_forall in Hx. specialize (Hx y Hy).
  rewrite Hkey in Hx. unfold key_lt in Hx. lia.
Qed.

Ltac visit_cases x :=
  let info := fresh "info" in
  let view := fresh "view" in
  destruct x as [info ? ? [[?|] ? ? [view|] [?|]]];
  unfold visit, flush_element, is_dynamic_buffer_entry, is_buffer_entry, entry_key in *;
  simpl in *;
  destruct (is_buffer_descriptor_type (descriptorType info)) eqn:Hbuffer_type;
  destruct (is_dynamic_buffer_descriptor_type (descriptorType info)) eqn:Hdynamic_type;
  simpl in *;
  try destruct (image_layout_for (descriptorType info) view) as [?|] eqn:Hlayout;
  simpl in *.

(** One visit touches only the slot of its own (binding, element). *)
Lemma visit_frame x acc acc' b e :
  visit x acc = Ok acc' → entry_key x ≠ (b, e) →
  binding_map_get b e (buffer_infos acc') = binding_map_get b e (buffer_infos acc) ∧
  binding_map_get b e (image_infos acc') = binding_map_get b e (image_infos acc).
Proof.
  intros Hvisit Hkey.
  visit_cases x; inversion Hvisit; subst; simpl;
    rewrite ?binding_map_get_set_ne by done; done.
Qed.

Lemma visit_dynamic_offsets x acc acc' :
  visit x acc = Ok acc' →
  dynamic_offsets acc' =
    dynamic_offsets acc ++
    (if is_dynamic_buffer_entry x then [to_u32 (offset (entry_resource x))] else []).
Proof.
  intros Hvisit.
  visit_cases x; inversion Hvisit; subst; simpl; by rewrite ?app_nil_r.
Qed.

Lemma visit_buffer x acc acc' :
  visit x acc = Ok acc' → is_buffer_entry x = true →
  ∃ buf, buffer (entry_resource x) = Some buf ∧
    binding_map_get (entry_binding x) (entry_element x) (buffer_infos acc') =
      Some {| bi_buffer := buffer_handle buf;
              bi_offset :=
                if is_dynamic_buffer_descriptor_type (descriptorType (entry_binding_info x))
                then 0 else offset (entry_resource x);
              bi_range := range (entry_resource x) |}.
Proof.
  intros Hvisit Hentry.
  visit_cases x; try done; inversion Hvisit; subst; simpl;
    (eexists; split; [done|]); by rewrite binding_map_get_set.
Qed.

Lemma visit_image x acc acc' v :
  visit x acc = Ok acc' → is_buffer_entry x = false →
  image_view (entry_resource x) = Some v →
  binding_map_get (entry_binding x) (entry_element x) (image_infos acc') =
    match image_layout_for (descriptorType (entry_binding_info x)) v with
    | Some image_layout =>
        Some {| ii_sampler := sampler_handle_or_null (sampler (entry_resource x));
                ii_imageView := image_view_handle v;
                ii_imageLayout := image_layout |}
    | None => binding_map_get (entry_binding x) (entry_element x) (image_infos acc)
    end.
Proof.
  intros Hvisit Hentry Hview.
  visit_cases x; try done; inversion Hview; subst;
    rewrite ?Hlayout in *; inversion Hvisit; subst; simpl;
    by rewrite ?binding_map_get_set.
Qed.

(** The only way a visit fails is the read of the handle of a null image
    view, for an entry that has a sampler and no view. *)
Lemma visit_fault x acc err :
  visit x acc = Fault err →
  err = NullImageView ∧ image_view (entry_resource x) = None ∧
  is_Some (sampler (entry_resource x)).
Proof.
  intros Hvisit. visit_cases x; inversion Hvisit; eauto.
Qed.

Lemma visit_ok x acc : resource_ok (entry_resource x) → is_Ok (visit x acc).
Proof.
  intros Hok. destruct (visit x acc) as [acc'|err] eqn:Hvisit; [by eexists|].
  apply visit_fault in Hvisit as (_ & Hview & Hsampler).
  apply Hok in Hsampler. rewrite Hview in Hsampler. by destruct Hsampler.
Qed.

Lemma visits_ok xs acc :
  (∀ x, x ∈ xs → resource_ok (entry_resource x)) → is_Ok (for_each visit xs acc).
Proof.
  revert acc. induction xs as [|x xs IH]; intros acc Hok; [by eexists|].
  simpl. destruct (visit_ok x acc) as [acc' ->]; [apply Hok; by left|].
  simpl. apply IH. intros y Hy. apply Hok. by right.
Qed.

Lemma visits_frame xs acc acc' b e :
  for_each visit xs acc = Ok acc' → (b, e) ∉ entry_key <$> xs →
  binding_map_get b e (buffer_infos acc') = binding_map_get b e (buffer_infos acc) ∧
  binding_map_get b e (image_infos acc') = binding_map_get b e (image_infos acc).
Proof.
  revert acc. induction xs as [|x xs IH]; intros acc Hrun Hkey.
  - by inversion Hrun.
  - simpl in Hrun. destruct (visit x acc) as [acc1|] eqn:Hvisit; [|done].
    simpl in Hrun. rewrite fmap_cons in Hkey. apply not_elem_of_cons in Hkey as [Hne Hkey].
    destruct (IH _ Hrun Hkey) as [-> ->].
    eapply visit_frame; [done|]. congruence.
Qed.

Lemma visits_dynamic_offsets xs acc acc' :
  for_each visit xs acc = Ok acc' →
  dynamic_offsets acc' =
    dynamic_offsets acc ++
    ((λ x, to_u32 (offset (entry_resource x))) <$>
       filter (λ x, is_dynamic_buffer_entry x = true) xs).
Proof.
  revert acc. induction xs as [|x xs IH]; intros acc Hrun.
  - inversion Hrun. by rewrite app_nil_r.
  - simpl in Hrun. destruct (visit x acc) as [acc1|] eqn:Hvisit; [|done].
    simpl in Hrun. rewrite (IH _ Hrun), (visit_dynamic_offsets _ _ _ Hvisit).
    rewrite filter_cons.
    destruct (decide (is_dynamic_buffer_entry x = true)) as [Hdyn|Hdyn].
    + rewrite Hdyn. simpl. by rewrite <- app_assoc.
    + apply not_true_is_false in Hdyn. rewrite Hdyn. by rewrite app_nil_r.
Qed.

Lemma visits_buffer xs acc acc' x :
  for_each visit xs acc = Ok acc' → NoDup (entry_key <$> xs) → x ∈ xs →
  is_buffer_entry x = true →
  ∃ buf, buffer (entry_resource x) = Some buf ∧
    binding_map_get (entry_binding x) (entry_element x) (buffer_infos acc') =
      Some {| bi_buffer := buffer_handle buf;
              bi_offset :=
                if is_dynamic_buffer_descriptor_type (descriptorType (entry_binding_info x))
                then 0 else offset (entry_resource x);
              bi_range := range (entry_resource x) |}.
Proof.
  revert acc. induction xs as [|y xs IH]; intros acc Hrun Hnd Hx Hentry.
  - by apply elem_of_nil in Hx.
  - simpl in Hrun. destruct (visit y acc) as [acc1|] eqn:Hvisit; [|done].
    simpl in Hrun. rewrite fmap_cons in Hnd. apply NoDup_cons in Hnd as [Hnotin Hnd].
    apply elem_of_cons in Hx as [->|Hx]; [|by eapply IH].
    destruct (visit_buffer _ _ _ Hvisit Hentry) as (buf & Hbuf & Hget).
    exists buf. split; [done|].
    by destruct (visits_frame _ _ _ _ _ Hrun Hnotin) as [-> _].
Qed.

Lemma visits_image xs acc acc' x v :
  for_each visit xs acc = Ok acc' → NoDup (entry_key <$> xs) → x ∈ xs →
  is_buffer_entry x = false → image_view (entry_resource x) = Some v →
  binding_map_get (entry_binding x) (entry_element x) (image_infos acc) = None →
  binding_map_get (entry_binding x) (entry_element x) (image_infos acc') =
    (λ image_layout,
       {| ii_sampler := sampler_handle_or_null (sampler (entry_resource x));
          ii_imageView := image_view_handle v;
          ii_imageLayout := image_layout |})
    <$> image_layout_for (descriptorType (entry_binding_info x)) v.
Proof.
  revert acc. induction xs as [|y xs IH]; intros acc Hrun Hnd Hx Hentry Hview Hnone.
  - by apply elem_of_nil in Hx.
  - simpl in Hrun. destruct (visit y acc) as [acc1|] eqn:Hvisit; [|done].
    simpl in Hrun. rewrite fmap_cons in Hnd. apply NoDup_cons in Hnd as [Hnotin Hnd].
    apply elem_of_cons in Hx as [->|Hx].
    + destruct (visits_frame _ _ _ _ _ Hrun Hnotin) as [_ ->].
      rewrite (visit_image _ _ _ _ Hvisit Hentry Hview), Hnone.
      by destruct (image_layout_for _ _).
    + eapply IH; try done.
      destruct (visit_frame y acc acc1 (entry_binding x) (entry_element x) Hvisit) as [_ ->];
        [|done].
      intros Heq. apply Hnotin. rewrite Heq. by apply (list_elem_of_fmap_2 entry_key).
Qed.
End Collect.

(** ** The loop over the sets of the binding state *)

Section FlushSets.
Context `{!VkCommon, !ResourceCache}.
Variables (bp : N) (cb : CommandBuffer) (pl : PipelineLayout) (U : gset N).

Abbreviation updated its :=
  (filter (λ it : N * ResourceSet, needs_update U it.1 it.2 = true) its).
Abbreviation resolved its :=
  (filter (λ it : N * ResourceSet, resolves pl U it = true) its).

Lemma has_set_layout_true set :
  has_set_layout pl set = true ↔ is_Some (get_set_layout pl set).
Proof. unfold has_set_layout, get_set_layout. apply bool_decide_eq_true. Qed.

Lemma has_set_layout_false set :
  has_set_layout pl set = false ↔ get_set_layout pl set = None.
Proof.
  unfold has_set_layout, get_set_layout.
  rewrite bool_decide_eq_false. symmetry. apply eq_None_not_Some.
Qed.

Lemma flush_set_skip it st :
  needs_update U it.1 it.2 = false → flush_set bp cb pl U it st = Ok st.
Proof.
  destruct it as [set rs], st as [[rbs dsls] events].
  unfold needs_update, flush_set. simpl. intros [-> ->]%orb_false_iff. done.
Qed.

Lemma flush_set_undeclared it rbs dsls events :
  needs_update U it.1 it.2 = true → get_set_layout pl it.1 = None →
  flush_set bp cb pl U it (rbs, dsls, events)
    = Ok (ResourceBindingState.clear_dirty_set it.1 rbs, dsls, events).
Proof.
  destruct it as [set rs]. unfold needs_update, flush_set. simpl.
  intros Hneeds ->. apply orb_true_iff in Hneeds.
  destruct (ResourceSet.is_dirty rs), (bool_decide (set ∈ U)); simpl; try done.
  by destruct Hneeds.
Qed.

Lemma flush_set_declared it rbs dsls events l :
  needs_update U it.1 it.2 = true → get_set_layout pl it.1 = Some l →
  flush_set bp cb pl U it (rbs, dsls, events)
    = infos ← collect_infos l it.2;
      Ok (ResourceBindingState.clear_dirty_set it.1 rbs, <[it.1 := l]> dsls,
          events ++ bind_events bp cb pl it.1 l infos).
Proof.
  destruct it as [set rs]. unfold needs_update, flush_set. simpl.
  intros Hneeds ->. apply orb_true_iff in Hneeds.
  destruct (ResourceSet.is_dirty rs), (bool_decide (set ∈ U)); simpl; try done.
  by destruct Hneeds.
Qed.

(** What the loop leaves behind: the global flag as it was, the per-set
    flag cleared for exactly the sets not skipped as unchanged, the layout
    recorded as bound and two events for exactly the resolved sets. *)
Lemma flush_sets_spec its rbs dsls events rbs' dsls' events' :
  for_each (flush_set bp cb pl U) its (rbs, dsls, events) = Ok (rbs', dsls', events') →
  rbs_dirty rbs' = rbs_dirty rbs ∧
  (∀ set, resource_sets rbs' !! set =
     if bool_decide (set ∈ (updated its).*1)
     then ResourceSet.clear_dirty <$> resource_sets rbs !! set
     else resource_sets rbs !! set) ∧
  (∀ set, dsls' !! set =
     if bool_decide (set ∈ (resolved its).*1)
     then get_set_layout pl set else dsls !! set) ∧
  events' = events ++ (resolved its ≫= set_events bp cb pl).
Proof.
  revert rbs dsls events.
  induction its as [|it its IH]; intros rbs dsls events Hrun.
  { inversion Hrun; subst. by rewrite app_nil_r. }
  assert (∀ set, set ≠ it.1 → ∀ (A : list N),
            bool_decide (set ∈ it.1 :: A) = bool_decide (set ∈ A)) as Hother.
  { intros set Hne A. apply bool_decide_ext. rewrite elem_of_cons.
    split; [by intros [?|?]|by right]. }
  assert (∀ rbs0 set,
            (if bool_decide (set ∈ (updated its).*1)
             then ResourceSet.clear_dirty <$>
                    resource_sets (ResourceBindingState.clear_dirty_set it.1 rbs0) !! set
             else resource_sets (ResourceBindingState.clear_dirty_set it.1 rbs0) !! set) =
            (if bool_decide (set ∈ it.1 :: (updated its).*1)
             then ResourceSet.clear_dirty <$> resource_sets rbs0 !! set
             else resource_sets rbs0 !! set)) as Hcleared.
  { intros rbs0 set. unfold ResourceBindingState.clear_dirty_set. cbn [resource_sets].
    destruct (decide (set = it.1)) as [->|Hne].
    - rewrite lookup_alter_eq, (bool_decide_eq_true_2 (_ ∈ _ :: _)) by left.
      destruct (resource_sets rbs0 !! it.1) as [rs|]; simpl; by case_bool_decide.
    - by rewrite lookup_alter_ne, Hother. }
  simpl in Hrun. rewrite !filter_cons.
  destruct (needs_update U it.1 it.2) eqn:Hneeds.
  - destruct (get_set_layout pl it.1) as [l|] eqn:Hlayout.
    + rewrite (flush_set_declared _ _ _ _ l) in Hrun by done.
      destruct (collect_infos l it.2) as [infos|] eqn:Hinfos; [|done].
      simpl in Hrun. apply IH in Hrun as (Hdirty & Hsets & Hdsls & Hevents).
      assert (resolves pl U it = true) as Hres.
      { unfold resolves. rewrite Hneeds. simpl. apply has_set_layout_true. by rewrite Hlayout. }
      rewrite !decide_True by done. rewrite !fmap_cons. repeat split.
      * done.
      * intros set. by rewrite Hsets, Hcleared.
      * intros set. rewrite Hdsls.
        destruct (decide (set = it.1)) as [->|Hne].
        -- rewrite lookup_insert_eq, (bool_decide_eq_true_2 (_ ∈ _ :: _)) by left.
           by case_bool_decide.
        -- by rewrite lookup_insert_ne, Hother.
      * rewrite Hevents. cbn [mbind list_bind]. unfold set_events at 2.
        rewrite Hlayout, Hinfos. by rewrite <- app_assoc.
    + rewrite flush_set_undeclared in Hrun by done.
      simpl in Hrun. apply IH in Hrun as (Hdirty & Hsets & Hdsls & Hevents).
      assert (resolves pl U it = false) as Hres.
      { unfold resolves. rewrite Hneeds. simpl. by apply has_set_layout_false. }
      rewrite decide_True by done. rewrite decide_False by (by rewrite Hres).
      rewrite fmap_cons. repeat split; [done| |done|done].
      intros set. by rewrite Hsets, Hcleared.
  - rewrite flush_set_skip in Hrun by done. simpl in Hrun.
    assert (resolves pl U it = false) as Hres by (unfold resolves; by rewrite Hneeds).
    rewrite !decide_False by (by rewrite ?Hres). by apply IH.
Qed.

Lemma flush_sets_ok its st :
  (∀ it l, it ∈ its → get_set_layout pl it.1 = Some l → is_Ok (collect_infos l it.2)) →
  is_Ok (for_each (flush_set bp cb pl U) its st).
Proof.
  revert st. induction its as [|it its IH]; intros [[rbs dsls] events] Hok; [by eexists|].
  simpl.
  assert (is_Ok (flush_set bp cb pl U it (rbs, dsls, events))) as [st' ->].
  { destruct (needs_update U it.1 it.2) eqn:Hneeds.
    - destruct (get_set_layout pl it.1) as [l|] eqn:Hlayout.
      + rewrite (flush_set_declared _ _ _ _ l) by done.
        destruct (Hok it l) as [infos ->]; [by left|done|]. by eexists.
      + rewrite flush_set_undeclared by done. by eexists.
    - rewrite flush_set_skip by done. by eexists. }
  simpl. apply IH. intros it' l Hit'. apply Hok. by right.
Qed.
End FlushSets.

(** ** The descriptor flush as a whole *)

Section FlushDescriptorState.
Context `{!VkCommon, !ResourceCache}.

Lemma elem_of_collect_update_sets pl dsls set :
  set ∈ collect_update_sets pl dsls ↔
    ∃ bound l, dsls !! set = Some bound ∧ get_set_layout pl set = Some l ∧
               dsl_handle bound ≠ dsl_handle l.
Proof.
  unfold collect_update_sets, layout_changed, get_bindings.
  rewrite elem_of_list_to_set, list_elem_of_filter, elem_of_elements, elem_of_dom.
  unfold get_set_layout. split.
  - intros [Hchanged _].
    destruct (dsls !! set) as [bound|]; [|done].
    destruct (pl_set_layouts pl !! set) as [l|]; [|done].
    exists bound, l. repeat split.
    apply negb_true_iff, bool_decide_eq_false in Hchanged. done.
  - intros (bound & l & -> & Hl & Hne). rewrite Hl. split; [|by eexists].
    apply negb_true_iff, bool_decide_eq_false. done.
Qed.

Lemma lookup_prune pl dsls set :
  prune pl dsls !! set = if has_set_layout pl set then dsls !! set else None.
Proof.
  unfold prune. destruct (has_set_layout pl set) eqn:Hdecl.
  - destruct (dsls !! set) as [l|] eqn:Hl.
    + by apply map_lookup_filter_Some.
    + apply map_lookup_filter_None. left. done.
  - apply map_lookup_filter_None. right. intros l _. simpl. by rewrite Hdecl.
Qed.

Lemma collect_infos_ok l rs :
  (∀ b e r, binding_map_get b e (resource_bindings rs) = Some r → resource_ok r) →
  is_Ok (collect_infos l rs).
Proof.
  intros Hok. rewrite collect_infos_visits. apply visits_ok.
  intros x [_ Hx]%elem_of_visited_entries. by eapply Hok.
Qed.

(** The flush needs a pipeline layout.  With one, and with no sampler-only
    resource in the binding state, it returns. *)
Lemma flush_descriptor_state_ok bp cb :
  is_Some (ps_pipeline_layout (pipeline_state cb)) →
  bindings_ok (resource_binding_state cb) →
  is_Ok (flush_descriptor_state bp cb).
Proof.
  intros [pl Hpl] Hok. unfold flush_descriptor_state, PipelineState.get_pipeline_layout.
  rewrite Hpl. simpl.
  destruct (_ || _); [|by eexists].
  match goal with |- context [for_each ?f ?l ?s] =>
    destruct (flush_sets_ok bp cb pl (collect_update_sets pl (descriptor_set_layout_state cb))
                l s) as [[[rbs' dsls'] events] ->] end; [|by eexists].
  intros [set rs] l Hit _. apply elem_of_map_to_list in Hit.
  apply collect_infos_ok. intros b e r. by apply (Hok set).
Qed.

(** The other way round: the only failures of the flush are a missing
    pipeline layout and the null image view of a sampler-only resource. *)
Lemma flush_descriptor_state_fault bp cb err :
  flush_descriptor_state bp cb = Fault err →
  (err = NullPipelineLayout ∧ ps_pipeline_layout (pipeline_state cb) = None) ∨
  (err = NullImageView ∧ ¬ bindings_ok (resource_binding_state cb)).
Proof.
  intros Hflush.
  destruct (ps_pipeline_layout (pipeline_state cb)) as [pl|] eqn:Hpl.
  - right. split.
    + revert Hflush. unfold flush_descriptor_state, PipelineState.get_pipeline_layout.
      rewrite Hpl. simpl. destruct (_ || _); [|done].
      destruct (for_each _ _ _) as [[[? ?] ?]|err'] eqn:Hrun; [done|].
      intros [= ->].
      apply for_each_fault in Hrun as ([set rs] & [[rbs dsls] events] & _ & Hset).
      unfold flush_set in Hset.
      destruct (_ && _); [done|].
      destruct (get_set_layout pl set) as [l|]; [|done].
      rewrite collect_infos_visits in Hset.
      destruct (for_each visit _ _) as [|err'] eqn:Hvisits; [done|].
      inversion Hset; subst.
      apply for_each_fault in Hvisits as (x & acc & _ & Hvisit).
      by apply visit_fault in Hvisit as [-> _].
    + intros Hok. destruct (flush_descriptor_state_ok bp cb) as [? Heq]; [by eexists|done|].
      by rewrite Heq in Hflush.
  - left. revert Hflush.
    unfold flush_descriptor_state, PipelineState.get_pipeline_layout. rewrite Hpl. simpl.
    by intros [= <-].
Qed.

Lemma flush_descriptor_state_idle bp cb pl :
  ps_pipeline_layout (pipeline_state cb) = Some pl →
  descriptor_work_needed pl cb = false →
  flush_descriptor_state bp cb =
    Ok (with_tracking (pipeline_state cb) (resource_binding_state cb)
          (prune pl (descriptor_set_layout_state cb)) cb, []).
Proof.
  intros Hpl Hidle. unfold flush_descriptor_state, PipelineState.get_pipeline_layout.
  rewrite Hpl. simpl. unfold descriptor_work_needed in Hidle. by rewrite Hidle.
Qed.

Lemma flush_descriptor_state_spec bp cb pl cb' events :
  ps_pipeline_layout (pipeline_state cb) = Some pl →
  descriptor_work_needed pl cb = true →
  flush_descriptor_state bp cb = Ok (cb', events) →
  let U := collect_update_sets pl (descriptor_set_layout_state cb) in
  let its := map_to_list (resource_sets (resource_binding_state cb)) in
  cb' = with_tracking (pipeline_state cb) (resource_binding_state cb')
          (descriptor_set_layout_state cb') cb ∧
  rbs_dirty (resource_binding_state cb') = false ∧
  (∀ set, resource_sets (resource_binding_state cb') !! set =
     (λ rs, if needs_update U set rs then ResourceSet.clear_dirty rs else rs)
     <$> resource_sets (resource_binding_state cb) !! set) ∧
  (∀ set, descriptor_set_layout_state cb' !! set =
     match resource_sets (resource_binding_state cb) !! set, get_set_layout pl set with
     | Some rs, Some l =>
         if needs_update U set rs then Some l else descriptor_set_layout_state cb !! set
     | None, Some _ => descriptor_set_layout_state cb !! set
     | _, None => None
     end) ∧
  events = filter (λ it, resolves pl U it = true) its ≫= set_events bp cb pl.
Proof.
  intros Hpl Hwork Hflush U its.
  unfold flush_descriptor_state, PipelineState.get_pipeline_layout in Hflush.
  rewrite Hpl in Hflush. simpl in Hflush.
  unfold descriptor_work_needed in Hwork. rewrite Hwork in Hflush. clear Hwork.
  destruct (for_each _ _ _) as [[[rbs' dsls'] events']|] eqn:Hrun; [|done].
  simpl in Hflush. inversion Hflush; subst. clear Hflush.
  apply flush_sets_spec in Hrun as (Hdirty & Hsets & Hdsls & ->).
  unfold ResourceBindingState.get_set_bindings, ResourceBindingState.clear_dirty in *.
  cbn [resource_binding_state descriptor_set_layout_state with_tracking
       resource_sets rbs_dirty] in *.
  assert (∀ (P : N * ResourceSet → bool) set,
            set ∈ (filter (λ it, P it = true) its).*1 ↔
            ∃ rs, resource_sets (resource_binding_state cb) !! set = Some rs ∧
                  P (set, rs) = true) as Hin.
  { intros P set. rewrite list_elem_of_fmap. split.
    - intros ([set' rs] & -> & [HP Hit%elem_of_map_to_list]%list_elem_of_filter). eauto.
    - intros (rs & Hrs & HP). exists (set, rs). split; [done|].
      apply list_elem_of_filter. split; [done|]. by apply elem_of_map_to_list. }
  repeat split; [done|..].
  - intros set. rewrite Hsets. fold U its.
    destruct (resource_sets (resource_binding_state cb) !! set) as [rs|] eqn:Hrs.
    + simpl. case_bool_decide as Hset.
      * apply Hin in Hset as (rs' & Hrs' & Hneeds). rewrite Hrs in Hrs'.
        injection Hrs' as <-. simpl in Hneeds. by rewrite Hneeds.
      * destruct (needs_update U set rs) eqn:Hneeds; [|done].
        exfalso. apply Hset, Hin. eauto.
    + by case_bool_decide.
  - intros set. rewrite Hdsls, lookup_prune. fold U its.
    case_bool_decide as Hset.
    + apply Hin in Hset as (rs & -> & [Hneeds Hdecl]%andb_true_iff). simpl in *.
      apply has_set_layout_true in Hdecl as [l Hl]. by rewrite Hl, Hneeds.
    + destruct (resource_sets (resource_binding_state cb) !! set) as [rs|] eqn:Hrs.
      * destruct (get_set_layout pl set) as [l|] eqn:Hl.
        -- rewrite (proj2 (has_set_layout_true pl set)) by (by rewrite Hl).
           destruct (needs_update U set rs) eqn:Hneeds; [|done].
           exfalso. apply Hset, Hin. exists rs. split; [done|].
           unfold resolves. simpl. rewrite Hneeds. simpl.
           apply has_set_layout_true. by rewrite Hl.
        -- by rewrite (proj2 (has_set_layout_false pl set)).
      * destruct (get_set_layout pl set) as [l|] eqn:Hl.
        -- by rewrite (proj2 (has_set_layout_true pl set)) by (by rewrite Hl).
        -- by rewrite (proj2 (has_set_layout_false pl set)).
Qed.
End FlushDescriptorState.

(** ** What every reachable command buffer satisfies *)

Section Reachable.
Context `{!VkCommon, !ResourceCache}.

Lemma tracking_inv_transfer cb cb' :
  resource_binding_state cb' = resource_binding_state cb →
  descriptor_set_layout_state cb' = descriptor_set_layout_state cb →
  tracking_inv cb → tracking_inv cb'.
Proof. intros Hrbs Hdsls [H1 H2 H3]. split; rewrite ?Hrbs, ?Hdsls; done. Qed.

Lemma tracking_inv_cleared cb :
  resource_binding_state cb = ResourceBindingState.reset →
  descriptor_set_layout_state cb = ∅ →
  tracking_inv cb.
Proof.
  intros Hrbs Hdsls. split; rewrite ?Hrbs, ?Hdsls.
  - intros set. rewrite lookup_empty. by intros [? ?].
  - intros set rs. simpl. by rewrite lookup_empty.
  - intros set rs b e r. simpl. by rewrite lookup_empty.
Qed.

Lemma tracking_inv_bind info set b e cb :
  resource_ok info → tracking_inv cb →
  tracking_inv (with_resource_binding_state
                  (ResourceBindingState.bind info set b e (resource_binding_state cb)) cb).
Proof.
  intros Hinfo [H1 H2 H3]. split; simpl.
  - intros set' Hbound. destruct (decide (set' = set)) as [->|Hne].
    + rewrite lookup_insert_eq. by eexists.
    + rewrite lookup_insert_ne by done. by apply H1.
  - intros set' rs'. destruct (decide (set' = set)) as [->|Hne].
    + rewrite lookup_insert_eq. intros [= <-]. simpl.
      intros [Hdirty| ->]%orb_true_iff; [|by rewrite orb_true_r].
      destruct (resource_sets (resource_binding_state cb) !! set) as [rs|] eqn:Hrs; [|done].
      simpl in Hdirty. by rewrite (H2 set rs).
    + rewrite lookup_insert_ne by done. intros Hrs Hdirty. by rewrite (H2 set' rs').
  - intros set' rs' b' e' r. simpl. destruct (decide (set' = set)) as [->|Hne].
    + rewrite lookup_insert_eq. intros [= <-]. simpl.
      destruct (decide ((b, e) = (b', e'))) as [[= <- <-]|Hkey].
      * rewrite binding_map_get_set. by intros [= <-].
      * rewrite binding_map_get_set_ne by done.
        destruct (resource_sets (resource_binding_state cb) !! set) as [rs|] eqn:Hrs.
        -- apply (H3 set rs b' e' r Hrs).
        -- simpl. unfold binding_map_get. by rewrite lookup_empty.
    + rewrite lookup_insert_ne by done. apply H3.
Qed.

Lemma flush_pipeline_state_tracking bp cb cb' events :
  flush_pipeline_state bp cb = Ok (cb', events) →
  resource_binding_state cb' = resource_binding_state cb ∧
  descriptor_set_layout_state cb' = descriptor_set_layout_state cb.
Proof.
  unfold flush_pipeline_state. intros Hflush.
  destruct (negb _); [by inversion Hflush|].
  repeat case_bool_decide; [| |done].
  - destruct (deref_render_pass _); [|done]. by inversion Hflush.
  - by inversion Hflush.
Qed.

Lemma flush_descriptor_state_tracking bp cb cb' events :
  flush_descriptor_state bp cb = Ok (cb', events) → tracking_inv cb → tracking_inv cb'.
Proof.
  intros Hflush [H1 H2 H3].
  destruct (ps_pipeline_layout (pipeline_state cb)) as [pl|] eqn:Hpl; cycle 1.
  { unfold flush_descriptor_state, PipelineState.get_pipeline_layout in Hflush.
    by rewrite Hpl in Hflush. }
  destruct (descriptor_work_needed pl cb) eqn:Hwork.
  - destruct (flush_descriptor_state_spec _ _ _ _ _ Hpl Hwork Hflush)
      as (_ & Hdirty & Hsets & Hdsls & _).
    split.
    + intros set [l Hl]. rewrite Hsets. rewrite Hdsls in Hl.
      destruct (resource_sets (resource_binding_state cb) !! set) as [rs|] eqn:Hrs;
        [by eexists|].
      destruct (get_set_layout pl set); [|done].
      destruct (H1 set) as [? Hcontra]; [by eexists|congruence].
    + intros set rs'. rewrite Hsets.
      destruct (resource_sets (resource_binding_state cb) !! set) as [rs|]; [|done].
      simpl. intros [= <-]. unfold needs_update, ResourceSet.is_dirty.
      destruct (rs_dirty rs) eqn:Hrs; simpl; [done|].
      destruct (bool_decide _); simpl; congruence.
    + intros set rs' b e r. rewrite Hsets.
      destruct (resource_sets (resource_binding_state cb) !! set) as [rs|] eqn:Hrs; [|done].
      simpl. intros [= <-]. intros Hget. apply (H3 set rs b e r Hrs).
      by destruct (needs_update _ _ _).
  - rewrite (flush_descriptor_state_idle _ _ _ Hpl Hwork) in Hflush.
    inversion Hflush; subst. split; simpl; [|done|done].
    intros set [l Hl]. apply H1. rewrite lookup_prune in Hl.
    destruct (has_set_layout pl set); [by eexists|done].
Qed.

Lemma flush_tracking bp last cb cb' events :
  flush bp last cb = Ok (cb', events) → tracking_inv cb → tracking_inv cb'.
Proof.
  unfold flush. intros Hflush Hinv.
  destruct (flush_pipeline_state bp cb) as [[cb1 e1]|] eqn:H1; [|done].
  simpl in Hflush.
  destruct (flush_descriptor_state bp cb1) as [[cb2 e2]|] eqn:H2; [|done].
  inversion Hflush; subst.
  apply flush_pipeline_state_tracking in H1 as [Hrbs Hdsls].
  eapply flush_descriptor_state_tracking; [done|].
  by apply (tracking_inv_transfer cb).
Qed.

Lemma call_tracking op cb cb' events :
  call op cb = Ok (cb', events) → tracking_inv cb → tracking_inv cb'.
Proof.
  intros Hcall Hinv. destruct op; simpl in Hcall;
    unfold end_render_pass, bind_pipeline_layout, set_specialization_constant,
      set_state_block, set_color_blend_state, bind_buffer, bind_image, bind_input,
      pass_through, draw, draw_indexed, draw_indexed_indirect, dispatch,
      dispatch_indirect in Hcall;
    try (by eapply flush_tracking);
    try (injection Hcall as <- <-; by apply (tracking_inv_transfer cb)).
  - (* begin *)
    unfold begin, drop_result, c_assert in Hcall.
    destruct (is_recording cb); simpl in Hcall.
    { rewrite orb_false_r in Hcall. destruct ndebug; simpl in Hcall; [|done].
      by injection Hcall as <- <-. }
    rewrite orb_true_r in Hcall. simpl in Hcall.
    destruct (level cb); simpl in Hcall.
    + injection Hcall as <- <-. by apply tracking_inv_cleared.
    + destruct primary_cmd_buf as [primary|]; simpl in Hcall; cycle 1.
      { rewrite orb_false_r in Hcall. by destruct ndebug. }
      rewrite orb_true_r in Hcall. simpl in Hcall.
      destruct (deref_render_pass _); simpl in Hcall; [|done].
      destruct (deref_framebuffer _); simpl in Hcall; [|done].
      injection Hcall as <- <-. by apply tracking_inv_cleared.
  - (* end *)
    unfold end_, drop_result, c_assert in Hcall.
    destruct (ndebug || is_recording cb); simpl in Hcall; [|done].
    destruct (negb _); injection Hcall as <- <-; [done|by apply (tracking_inv_transfer cb)].
  - (* reset *)
    unfold reset, drop_result, c_assert in Hcall.
    destruct (ndebug || _); simpl in Hcall; [|done].
    case_bool_decide; injection Hcall as <- <-; by apply (tracking_inv_transfer cb).
  - (* move *)
    injection Hcall as <- <-. by apply tracking_inv_cleared.
  - (* begin_render_pass *)
    unfold begin_render_pass in Hcall.
    destruct (get_color_output_count _ _); [|done].
    injection Hcall as <- <-. by apply tracking_inv_cleared.
  - (* next_subpass *)
    unfold next_subpass in Hcall.
    destruct (deref_render_pass _); simpl in Hcall; [|done].
    destruct (get_color_output_count _ _); [|done].
    injection Hcall as <- <-. by apply tracking_inv_cleared.
  - (* push_constants *)
    unfold push_constants in Hcall.
    destruct (PipelineState.get_pipeline_layout _); simpl in Hcall; [|done].
    case_bool_decide; injection Hcall as <- <-; done.
  - (* bind_buffer *)
    injection Hcall as <- <-. by apply tracking_inv_bind; [intros [? ?]|].
  - (* bind_image *)
    injection Hcall as <- <-. by apply tracking_inv_bind; [intros _; eexists|].
  - (* bind_input *)
    injection Hcall as <- <-. by apply tracking_inv_bind; [intros [? ?]|].
Qed.

Lemma run_tracking ops cb cb' events :
  run ops cb = Ok (cb', events) → tracking_inv cb → tracking_inv cb'.
Proof.
  revert cb events. induction ops as [|op ops IH]; intros cb events Hrun Hinv.
  - by inversion Hrun; subst.
  - simpl in Hrun. destruct (call op cb) as [[cb1 e1]|] eqn:Hcall; [|done].
    simpl in Hrun. destruct (run ops cb1) as [[cb2 e2]|] eqn:Hrest; [|done].
    inversion Hrun; subst. eapply IH; [done|]. by eapply call_tracking.
Qed.

Lemma reachable_tracking cb : reachable cb → tracking_inv cb.
Proof.
  intros (mode & lvl & h & ops & events & Hrun).
  eapply run_tracking; [done|]. by apply tracking_inv_cleared.
Qed.
End Reachable.

(** * The properties of the specification *)

(** ** The recording life cycle *)

Section Begin.
Context `{!VkCommon, !ResourceCache}.

(** With assertions compiled in, [begin] on a recording command buffer is
    fatal, and the command buffer is not touched either. *)
Lemma begin_while_recording_asserts flags primary cb :
  ndebug = false → state cb = Recording →
  begin flags primary cb = Fault AssertionFailed.
Proof.
  intros Hdebug Hstate. unfold begin, c_assert, is_recording.
  rewrite Hdebug, Hstate. done.
Qed.

(** C7.  With assertions compiled out, [begin] on a command buffer that
    is recording returns [VK_NOT_READY], records nothing and leaves the
    command buffer as it is: it stays in [Recording] and none of the three
    tracked components is reset.  From any other state [begin] returns
    [VK_SUCCESS] (for a secondary command buffer: given a primary one
    inside a render pass), moves to [Recording] and resets the pipeline
    state, the resource bindings and the bound descriptor-set layouts. *)
Theorem begin_twice_not_ready flags primary cb :
  ndebug = true →
  (state cb = Recording → begin flags primary cb = Ok (VK_NOT_READY, cb, [])) ∧
  (state cb ≠ Recording →
   level cb = VK_COMMAND_BUFFER_LEVEL_PRIMARY ∨
     (∃ p rp fb, primary = Some p ∧
                 render_pass (current_render_pass p) = Some rp ∧
                 framebuffer (current_render_pass p) = Some fb) →
   ∃ cb' events,
     begin flags primary cb = Ok (VK_SUCCESS, cb', events) ∧
     state cb' = Recording ∧
     pipeline_state cb' = PipelineState.reset ∧
     resource_binding_state cb' = ResourceBindingState.reset ∧
     descriptor_set_layout_state cb' = ∅).
Proof.
  intros Hrelease. split.
  - intros Hstate. unfold begin, c_assert, is_recording.
    rewrite Hrelease, Hstate. done.
  - intros Hstate Hlevel. unfold begin, c_assert, is_recording.
    rewrite Hrelease, bool_decide_eq_false_2 by done. simpl.
    destruct Hlevel as [->|(p & rp & fb & -> & Hrp & Hfb)].
    + eexists _, _. done.
    + destruct (level cb); [by eexists _, _|].
      unfold deref_render_pass, deref_framebuffer, get_current_render_pass. simpl.
      rewrite Hrp, Hfb. simpl. eexists _, _. done.
Qed.
End Begin.

(** ** Push constants *)

Section PushConstants.
Context `{!VkCommon, !ResourceCache}.

Lemma no_covering_range_no_stage pl off size :
  (∀ r, r ∈ pl_push_constant_ranges pl → covers r off size = false) →
  get_push_constant_range_stage pl off size = 0.
Proof.
  unfold get_push_constant_range_stage. intros Hnone.
  assert (∀ stages,
            foldl (λ stages r, if covers r off size then N.lor stages (pc_stages r)
                               else stages) stages (pl_push_constant_ranges pl)
            = stages) as Hfold; [|apply Hfold].
  induction (pl_push_constant_ranges pl) as [|r rs IH]; intros stages; [done|].
  simpl. rewrite Hnone by left. apply IH. intros r' Hr'. apply Hnone. by right.
Qed.

(** C9.  When no push-constant range declared by the bound pipeline layout
    covers the requested offset and size, [push_constants] returns
    normally, leaves the command buffer as it is, and the one thing it
    does is to log the warning: no [vkCmdPushConstants] is recorded. *)
Theorem push_constants_without_range off values cb pl :
  ps_pipeline_layout (pipeline_state cb) = Some pl →
  (∀ r, r ∈ pl_push_constant_ranges pl →
        covers r off (to_u32 (N.of_nat (length values))) = false) →
  push_constants off values cb
    = Ok (cb, [LOGW_push_constant_range_not_found off (N.of_nat (length values))]).
Proof.
  intros Hpl Hnone. unfold push_constants, PipelineState.get_pipeline_layout.
  rewrite Hpl. simpl. rewrite no_covering_range_no_stage by done.
  by rewrite bool_decide_eq_false_2 by (intros Hne; by apply Hne).
Qed.
End PushConstants.

(** ** Subpass transitions *)

Section NextSubpass.
Context `{!VkCommon, !ResourceCache}.

Lemma length_resize n l : length (resize n l) = N.to_nat n.
Proof. unfold resize. rewrite length_app, length_take, length_replicate. lia. Qed.

Lemma set_color_blend_state_stores s ps :
  ps_color_blend_state (PipelineState.set_color_blend_state s ps) = s ∧
  ps_subpass_index (PipelineState.set_color_blend_state s ps) = ps_subpass_index ps.
Proof. unfold PipelineState.set_color_blend_state. by case_bool_decide. Qed.

Lemma set_subpass_index_stores i ps :
  ps_subpass_index (PipelineState.set_subpass_index i ps) = i ∧
  ps_color_blend_state (PipelineState.set_subpass_index i ps) = ps_color_blend_state ps.
Proof. unfold PipelineState.set_subpass_index. by case_bool_decide. Qed.

(** C6.  Inside a render pass that has a next subpass, [next_subpass]
    returns, and afterwards the subpass index is the previous one plus
    one, the colour-blend attachment list is as long as the colour-output
    count of the new subpass, the resource binding state is clear (not
    dirty, no set left) and no descriptor-set layout is tracked as bound.
    The index is a [uint32_t], and so is the number of subpasses of a
    render pass: with a next subpass to go to, the increment does not
    wrap. *)
Theorem next_subpass_resets_bindings cb rp i n :
  ps_subpass_index (pipeline_state cb) = i →
  render_pass (current_render_pass cb) = Some rp →
  N.of_nat (length (rp_color_output_count rp)) < 2 ^ 32 →
  get_color_output_count rp (i + 1) = Some n →
  ∃ cb',
    next_subpass cb = Ok (cb', [vkCmdNextSubpass (handle cb) VK_SUBPASS_CONTENTS_INLINE]) ∧
    ps_subpass_index (pipeline_state cb') = i + 1 ∧
    N.of_nat (length (attachments (ps_color_blend_state (pipeline_state cb')))) = n ∧
    rbs_dirty (resource_binding_state cb') = false ∧
    resource_sets (resource_binding_state cb') = ∅ ∧
    descriptor_set_layout_state cb' = ∅.
Proof.
  intros Hi Hrp Hsubpasses Hcount.
  assert (i + 1 < 2 ^ 32) as Hwrap.
  { apply lookup_lt_Some in Hcount. lia. }
  unfold next_subpass, deref_render_pass, PipelineState.get_subpass_index,
    PipelineState.get_color_blend_state.
  rewrite Hrp, Hi. simpl.
  assert (u32 (i + 1) = i + 1) as -> by (unfold u32; by apply N.mod_small).
  rewrite (proj1 (set_subpass_index_stores _ _)), Hcount.
  eexists. split; [done|]. simpl.
  destruct (set_color_blend_state_stores
              (resize_attachments n
                 (ps_color_blend_state
                    (PipelineState.set_subpass_index (i + 1) (pipeline_state cb))))
              (PipelineState.set_subpass_index (i + 1) (pipeline_state cb))) as [-> ->].
  rewrite (proj1 (set_subpass_index_stores _ _)). simpl.
  rewrite length_resize. repeat split; [lia].
Qed.
End NextSubpass.

(** ** The pipeline flush *)

Section FlushPipelineState.
Context `{!VkCommon, !ResourceCache}.

Lemma flush_pipeline_state_clean bp cb :
  ps_dirty (pipeline_state cb) = false → flush_pipeline_state bp cb = Ok (cb, []).
Proof. intros Hclean. unfold flush_pipeline_state, PipelineState.is_dirty. by rewrite Hclean. Qed.

(** A flush of a dirty pipeline state that returns makes one request. *)
Lemma flush_pipeline_state_dirty bp cb cb' events :
  ps_dirty (pipeline_state cb) = true →
  flush_pipeline_state bp cb = Ok (cb', events) →
  pipeline_requests events = 1%nat.
Proof.
  intros Hdirty. unfold flush_pipeline_state, PipelineState.is_dirty. rewrite Hdirty. simpl.
  repeat case_bool_decide; [| |done].
  - destruct (deref_render_pass _); simpl; [|done]. by intros [= <- <-].
  - by intros [= <- <-].
Qed.

(** The compute flush leaves the pipeline state clean: a second call
    does nothing. *)
Lemma flush_pipeline_state_compute_twice cb cb' events :
  flush_pipeline_state VK_PIPELINE_BIND_POINT_COMPUTE cb = Ok (cb', events) →
  flush_pipeline_state VK_PIPELINE_BIND_POINT_COMPUTE cb' = Ok (cb', []).
Proof.
  unfold flush_pipeline_state at 1, PipelineState.is_dirty.
  destruct (ps_dirty (pipeline_state cb)) eqn:Hdirty; simpl.
  - intros [= <- <-]. by apply flush_pipeline_state_clean.
  - intros [= <- <-]. by apply flush_pipeline_state_clean.
Qed.

(** So does the graphics flush when the pipeline state already holds the
    active render pass. *)
Lemma flush_pipeline_state_graphics_twice cb cb' events rp :
  render_pass (current_render_pass cb) = Some rp →
  PipelineState.same_render_pass (ps_render_pass (pipeline_state cb)) rp = true →
  flush_pipeline_state VK_PIPELINE_BIND_POINT_GRAPHICS cb = Ok (cb', events) →
  flush_pipeline_state VK_PIPELINE_BIND_POINT_GRAPHICS cb' = Ok (cb', []).
Proof.
  intros Hrp Hsame. unfold flush_pipeline_state at 1, PipelineState.is_dirty.
  destruct (ps_dirty (pipeline_state cb)) eqn:Hdirty; simpl.
  - unfold deref_render_pass. rewrite Hrp. simpl.
    unfold PipelineState.set_render_pass. simpl. rewrite Hsame.
    intros [= <- <-]. by apply flush_pipeline_state_clean.
  - intros [= <- <-]. by apply flush_pipeline_state_clean.
Qed.

(** Otherwise stamping the render pass marks the pipeline state dirty
    again, behind the [clear_dirty] that precedes it. *)
Lemma flush_pipeline_state_graphics_stays_dirty cb cb' events rp :
  render_pass (current_render_pass cb) = Some rp →
  PipelineState.same_render_pass (ps_render_pass (pipeline_state cb)) rp = false →
  ps_dirty (pipeline_state cb) = true →
  flush_pipeline_state VK_PIPELINE_BIND_POINT_GRAPHICS cb = Ok (cb', events) →
  ps_dirty (pipeline_state cb') = true.
Proof.
  intros Hrp Hsame Hdirty. unfold flush_pipeline_state, PipelineState.is_dirty.
  rewrite Hdirty. simpl. unfold deref_render_pass. rewrite Hrp. simpl.
  unfold PipelineState.set_render_pass. simpl. rewrite Hsame.
  by intros [= <- <-].
Qed.
End FlushPipelineState.

Section FlushPipelineStateExample.
#[local] Existing Instance Example.vk_common.
#[local] Existing Instance Example.resource_cache.

(** C5.  The claim fails on the code.  After [begin], [begin_render_pass]
    and [bind_pipeline_layout], two calls of [flush_pipeline_state] in a
    row, with no [set_*] call of the caller in between, both request a
    graphics pipeline: the first call clears the dirty flag and then
    stamps the render pass with [set_render_pass], which sets the flag
    again, so the second call is not a no-op. *)
Theorem flush_pipeline_state_twice_requests_twice :
  ∃ events0 cb1 events1 cb2 events2,
    run Example.ready_to_draw Example.fresh
      = Ok (Example.after Example.ready_to_draw, events0) ∧
    flush_pipeline_state VK_PIPELINE_BIND_POINT_GRAPHICS
      (Example.after Example.ready_to_draw) = Ok (cb1, events1) ∧
    flush_pipeline_state VK_PIPELINE_BIND_POINT_GRAPHICS cb1 = Ok (cb2, events2) ∧
    pipeline_requests events1 = 1%nat ∧
    pipeline_requests events2 = 1%nat.
Proof.
  eexists _, _, _, _, _. split; [by vm_compute|].
  split; [by vm_compute|]. split; [by vm_compute|]. by vm_compute.
Qed.
End FlushPipelineStateExample.

(** ** The descriptor flush *)

Section FlushDescriptorStateClaims.
Context `{!VkCommon, !ResourceCache}.

(** The events of a set concern that set only. *)
Lemma set_events_other_set bp cb pl set set' rs e :
  set' ≠ set → e ∈ set_events bp cb pl (set', rs) → is_bind_of_set set e = false.
Proof.
  intros Hne. unfold set_events. simpl.
  destruct (get_set_layout pl set'); [|by intros ?%elem_of_nil].
  destruct (collect_infos _ _); [|by intros ?%elem_of_nil].
  unfold bind_events. rewrite !elem_of_cons, elem_of_nil.
  intros [->|[->|[]]]; simpl; [done|]. by rewrite bool_decide_eq_false_2.
Qed.

(** In a reachable command buffer a set that needs an update makes the
    flush do its work: a dirty set has marked the whole state dirty. *)
Lemma needs_update_work_needed cb pl set rs :
  tracking_inv cb →
  resource_sets (resource_binding_state cb) !! set = Some rs →
  needs_update (collect_update_sets pl (descriptor_set_layout_state cb)) set rs = true →
  descriptor_work_needed pl cb = true.
Proof.
  intros [_ Hdirty _] Hrs. unfold needs_update, descriptor_work_needed.
  unfold ResourceSet.is_dirty, ResourceBindingState.is_dirty.
  intros [Hset|Hset%bool_decide_eq_true]%orb_true_iff.
  - by rewrite (Hdirty set rs).
  - rewrite bool_decide_eq_false_2; [by rewrite orb_true_r|]. set_solver.
Qed.

(** The outcome of the flush of a reachable command buffer with a
    pipeline layout bound, in one statement: it returns; it resolves and
    binds exactly the sets of the binding state that are dirty or whose
    layout changed, and that the layout declares. *)
Lemma flush_descriptor_state_reachable bp cb pl :
  tracking_inv cb →
  ps_pipeline_layout (pipeline_state cb) = Some pl →
  ∃ cb' (resolved : list (N * ResourceSet)),
    flush_descriptor_state bp cb = Ok (cb', resolved ≫= set_events bp cb pl) ∧
    NoDup resolved.*1 ∧
    (∀ set rs, (set, rs) ∈ resolved ↔
       resource_sets (resource_binding_state cb) !! set = Some rs ∧
       needs_update (collect_update_sets pl (descriptor_set_layout_state cb)) set rs = true ∧
       has_set_layout pl set = true) ∧
    (descriptor_work_needed pl cb = false →
     cb' = with_tracking (pipeline_state cb) (resource_binding_state cb)
             (prune pl (descriptor_set_layout_state cb)) cb) ∧
    (descriptor_work_needed pl cb = true →
     ∀ set, resource_sets (resource_binding_state cb') !! set =
              (λ rs, if needs_update
                          (collect_update_sets pl (descriptor_set_layout_state cb)) set rs
                     then ResourceSet.clear_dirty rs else rs)
              <$> resource_sets (resource_binding_state cb) !! set) ∧
    (∀ set rs l,
       resource_sets (resource_binding_state cb) !! set = Some rs →
       get_set_layout pl set = Some l →
       needs_update (collect_update_sets pl (descriptor_set_layout_state cb)) set rs = true →
       descriptor_set_layout_state cb' !! set = Some l) ∧
    (∀ set, get_set_layout pl set = None → descriptor_set_layout_state cb' !! set = None).
Proof.
  intros Hinv Hpl.
  destruct (flush_descriptor_state_ok bp cb) as [[cb' events] Hflush];
    [by eexists|apply Hinv|].
  destruct (descriptor_work_needed pl cb) eqn:Hwork.
  - destruct (flush_descriptor_state_spec _ _ _ _ _ Hpl Hwork Hflush)
      as (_ & _ & Hsets & Hdsls & ->).
    eexists cb', _. split; [done|].
    split; [|split; [|split; [|split; [|split]]]].
    + apply NoDup_fmap_fst.
      * intros set rs1 rs2 [_ H1%elem_of_map_to_list]%list_elem_of_filter
          [_ H2%elem_of_map_to_list]%list_elem_of_filter. congruence.
      * apply NoDup_filter, NoDup_map_to_list.
    + intros set rs. rewrite list_elem_of_filter, elem_of_map_to_list.
      unfold resolves. simpl. rewrite andb_true_iff. tauto.
    + done.
    + done.
    + intros set rs l Hrs Hl Hneeds. by rewrite Hdsls, Hrs, Hl, Hneeds.
    + intros set Hl. rewrite Hdsls, Hl. by destruct (_ !! set).
  - clear Hflush. rewrite (flush_descriptor_state_idle _ _ _ Hpl Hwork).
    eexists _, []. split; [done|].
    split; [|split; [|split; [|split; [|split]]]].
    + constructor.
    + intros set rs. split; [by intros ?%elem_of_nil|].
      intros (Hrs & Hneeds & _).
      by rewrite (needs_update_work_needed cb pl set rs) in Hwork.
    + done.
    + done.
    + intros set rs l Hrs Hl Hneeds.
      by rewrite (needs_update_work_needed cb pl set rs) in Hwork.
    + intros set Hl. simpl. rewrite lookup_prune.
      by rewrite (proj2 (has_set_layout_false pl set)).
Qed.

(** The descriptor flush is called on a reachable command buffer, or on
    what the pipeline flush of a draw or dispatch has left of one; the
    pipeline flush does not touch the binding state or the bound layouts,
    so the invariants hold where the descriptor flush starts. *)
Lemma flush_site_tracking bp cb : reachable cb ∨ flush_site bp cb → tracking_inv cb.
Proof.
  intros [Hreach|(cb0 & events & Hreach & Hflush)]; [by apply reachable_tracking|].
  apply flush_pipeline_state_tracking in Hflush as [Hrbs Hdsls].
  apply (tracking_inv_transfer cb0); [done|done|]. by apply reachable_tracking.
Qed.

(** The two events of a resolved set, written out. *)
Lemma set_events_written_out bp cb pl set rs l infos :
  get_set_layout pl set = Some l → collect_infos l rs = Ok infos →
  set_events bp cb pl (set, rs)
    = [call_request_descriptor_set l (buffer_infos infos) (image_infos infos);
       vkCmdBindDescriptorSets (handle cb) bp (pl_handle pl) set
         [request_descriptor_set l (buffer_infos infos) (image_infos infos)]
         (to_u32 (N.of_nat (length (dynamic_offsets infos)))) (dynamic_offsets infos)].
Proof. unfold set_events, bind_events, get_handle. simpl. by intros -> ->. Qed.

(** The sets of a list that all resolve, each with the layout it was
    resolved for and the infos collected for it. *)
Lemma resolve_all bp cb pl (its : list (N * ResourceSet)) :
  (∀ it, it ∈ its →
     ∃ l infos, get_set_layout pl it.1 = Some l ∧ collect_infos l it.2 = Ok infos) →
  ∃ resolved : list (N * DescriptorSetLayout * Infos),
    its ≫= set_events bp cb pl
      = resolved ≫=
          (λ r : N * DescriptorSetLayout * Infos,
             [call_request_descriptor_set r.1.2 (buffer_infos r.2) (image_infos r.2);
              vkCmdBindDescriptorSets (handle cb) bp (pl_handle pl) r.1.1
                [request_descriptor_set r.1.2 (buffer_infos r.2) (image_infos r.2)]
                (to_u32 (N.of_nat (length (dynamic_offsets r.2)))) (dynamic_offsets r.2)]) ∧
    resolved.*1.*1 = its.*1 ∧
    (∀ set l infos, (set, l, infos) ∈ resolved ↔
       ∃ rs, (set, rs) ∈ its ∧ get_set_layout pl set = Some l ∧
             collect_infos l rs = Ok infos).
Proof.
  induction its as [|[set rs] its IH]; intros Hall.
  { exists []. split; [done|]. split; [done|]. intros set l infos. split.
    - by intros ?%elem_of_nil.
    - by intros (rs & ?%elem_of_nil & _). }
  destruct IH as (resolved & Hevents & Hsets & Hin).
  { intros it Hit. apply Hall. by right. }
  destruct (Hall (set, rs)) as (l & infos & Hl & Hinfos); [by left|]. simpl in Hl, Hinfos.
  exists ((set, l, infos) :: resolved). split; [|split].
  - rewrite !bind_cons, Hevents, (set_events_written_out _ _ _ _ _ l infos) by done. done.
  - rewrite !fmap_cons, Hsets. done.
  - intros set' l' infos'. rewrite elem_of_cons, Hin. split.
    + intros [[= -> -> ->]|(rs' & Hit & ? & ?)].
      * exists rs. split; [by left|done].
      * exists rs'. split; [by right|done].
    + intros (rs' & [[= -> ->]|Hit]%elem_of_cons & Hl' & Hinfos').
      * left. rewrite Hl in Hl'. injection Hl' as <-.
        rewrite Hinfos in Hinfos'. by injection Hinfos' as <-.
      * right. exists rs'. done.
Qed.

(** C1.  Where the descriptor flush is called, on a reachable command
    buffer or behind the pipeline flush of a draw or dispatch, with a
    pipeline layout bound: a set index that the layout declares and that
    is tracked as bound with another layout object (another handle) is
    resolved and bound again, whether or not the binding state reports
    the set dirty.  The flush returns; among what it records are a
    request to the cache for a descriptor set of the layout's object, with
    the infos collected from the resources of the set, and right after it
    a [vkCmdBindDescriptorSets] of the descriptor set requested, into the
    handle of the command buffer, for the bind point and the pipeline
    layout, at that set index; nothing else is bound at that index; and
    afterwards the layout's object is the one tracked for the index. *)
Theorem changed_layout_is_rebound bp cb pl set bound l :
  reachable cb ∨ flush_site bp cb →
  ps_pipeline_layout (pipeline_state cb) = Some pl →
  descriptor_set_layout_state cb !! set = Some bound →
  get_set_layout pl set = Some l →
  dsl_handle bound ≠ dsl_handle l →
  ∃ cb' rs infos before after,
    flush_descriptor_state bp cb
      = Ok (cb',
            before ++
            [call_request_descriptor_set l (buffer_infos infos) (image_infos infos);
             vkCmdBindDescriptorSets (handle cb) bp (pl_handle pl) set
               [request_descriptor_set l (buffer_infos infos) (image_infos infos)]
               (to_u32 (N.of_nat (length (dynamic_offsets infos))))
               (dynamic_offsets infos)] ++
            after) ∧
    resource_sets (resource_binding_state cb) !! set = Some rs ∧
    collect_infos l rs = Ok infos ∧
    (∀ e, e ∈ before ++ after → is_bind_of_set set e = false) ∧
    descriptor_set_layout_state cb' !! set = Some l.
Proof.
  intros Hinv%flush_site_tracking Hpl Hbound Hl Hne.
  destruct (inv_bound_sets_have_bindings cb Hinv set) as [rs Hrs]; [by eexists|].
  assert (needs_update (collect_update_sets pl (descriptor_set_layout_state cb)) set rs
          = true) as Hneeds.
  { unfold needs_update. rewrite (bool_decide_eq_true_2 (set ∈ _)); [apply orb_true_r|].
    apply elem_of_collect_update_sets. eauto. }
  assert (has_set_layout pl set = true) as Hdecl
    by (apply has_set_layout_true; by rewrite Hl).
  destruct (flush_descriptor_state_reachable bp cb pl Hinv Hpl)
    as (cb' & resolved & Hflush & Hnd & Hres & _ & _ & Hdsls & _).
  assert ((set, rs) ∈ resolved) as Hin by (by apply Hres).
  apply list_elem_of_split in Hin as (its1 & its2 & ->).
  destruct (collect_infos_ok l rs) as [infos Hinfos].
  { intros b e r. by apply (inv_bindings_ok cb Hinv set). }
  exists cb', rs, infos, (its1 ≫= set_events bp cb pl), (its2 ≫= set_events bp cb pl).
  split; [|split; [done|split; [done|split]]].
  - by rewrite Hflush, bind_app, bind_cons, (set_events_written_out _ _ _ _ _ l infos).
  - rewrite fmap_app, fmap_cons in Hnd. simpl in Hnd.
    apply NoDup_app in Hnd as (_ & Hdisjoint & [Hnotin _]%NoDup_cons).
    intros e [He|He]%elem_of_app; apply list_elem_of_bind in He as ([set' rs'] & He & Hit);
      (eapply set_events_other_set; [|exact He]); intros Heq.
    + apply (Hdisjoint set'); [by apply (list_elem_of_fmap_2 fst _ (set', rs'))|].
      rewrite Heq. by left.
    + apply Hnotin. rewrite <- Heq. by apply (list_elem_of_fmap_2 fst _ (set', rs')).
  - by apply (Hdsls set rs l).
Qed.

(** C2.  Where the descriptor flush is called, on a reachable command
    buffer or behind the pipeline flush of a draw or dispatch, with a
    pipeline layout bound, it returns, and what it records is, for each
    entry of a list of resolved sets, one request to the cache for a
    descriptor set and one [vkCmdBindDescriptorSets] of it at the set
    index, and nothing else.  No set index occurs twice in the list.  A
    set index is in the list, with a layout and infos, exactly when it is
    a set of the binding state, the pipeline layout declares it with that
    layout, the infos are those collected from its resources, and it is
    dirty or tracked as bound with a layout object of another handle.  So
    one descriptor set is resolved for every dirty declared set, and none
    for a set that is clean and needs no update, undeclared, or absent
    from the binding state.  When the binding state is not dirty and no
    tracked layout differs from the declared one, nothing is requested or
    bound, and the binding state stays as it is. *)
Theorem flush_resolves_dirty_declared_sets_once bp cb pl :
  reachable cb ∨ flush_site bp cb →
  ps_pipeline_layout (pipeline_state cb) = Some pl →
  ∃ cb' (resolved : list (N * DescriptorSetLayout * Infos)),
    flush_descriptor_state bp cb
      = Ok (cb',
            resolved ≫=
              (λ r : N * DescriptorSetLayout * Infos,
                 [call_request_descriptor_set r.1.2 (buffer_infos r.2) (image_infos r.2);
                  vkCmdBindDescriptorSets (handle cb) bp (pl_handle pl) r.1.1
                    [request_descriptor_set r.1.2 (buffer_infos r.2) (image_infos r.2)]
                    (to_u32 (N.of_nat (length (dynamic_offsets r.2))))
                    (dynamic_offsets r.2)])) ∧
    NoDup resolved.*1.*1 ∧
    (∀ set l infos, (set, l, infos) ∈ resolved ↔
       ∃ rs, resource_sets (resource_binding_state cb) !! set = Some rs ∧
             get_set_layout pl set = Some l ∧
             collect_infos l rs = Ok infos ∧
             (rs_dirty rs = true ∨
              ∃ bound, descriptor_set_layout_state cb !! set = Some bound ∧
                       dsl_handle bound ≠ dsl_handle l)) ∧
    (rbs_dirty (resource_binding_state cb) = false →
     (∀ set bound l, descriptor_set_layout_state cb !! set = Some bound →
                     get_set_layout pl set = Some l →
                     dsl_handle bound = dsl_handle l) →
     resolved = [] ∧ resource_binding_state cb' = resource_binding_state cb).
Proof.
  intros Hinv%flush_site_tracking Hpl.
  destruct (flush_descriptor_state_reachable bp cb pl Hinv Hpl)
    as (cb' & its & Hflush & Hnd & Hres & Hidle & _).
  destruct (resolve_all bp cb pl its) as (resolved & Hevents & Hsets & Hin).
  { intros [set rs] (Hrs & _ & Hdecl)%Hres. simpl.
    apply has_set_layout_true in Hdecl as [l Hl].
    destruct (collect_infos_ok l rs) as [infos Hinfos]; [|by eauto].
    intros b e r. by apply (inv_bindings_ok cb Hinv set). }
  exists cb', resolved. split; [by rewrite Hflush, Hevents|].
  split; [by rewrite Hsets|]. split.
  - intros set l infos. rewrite Hin. split.
    + intros (rs & (Hrs & Hneeds & _)%Hres & Hl & Hinfos).
      exists rs. repeat (split; [done|]).
      unfold needs_update, ResourceSet.is_dirty in Hneeds.
      apply orb_true_iff in Hneeds as [?|Hset%bool_decide_eq_true]; [by left|].
      apply elem_of_collect_update_sets in Hset as (bound & l' & Hbound & Hl' & Hne).
      right. exists bound. split; [done|]. congruence.
    + intros (rs & Hrs & Hl & Hinfos & Hwhy). exists rs. split; [|done].
      apply Hres. split; [done|]. split; [|apply has_set_layout_true; by eexists].
      unfold needs_update, ResourceSet.is_dirty.
      destruct Hwhy as [->|(bound & Hbound & Hne)]; [done|].
      rewrite (bool_decide_eq_true_2 (set ∈ _)); [apply orb_true_r|].
      apply elem_of_collect_update_sets. eauto.
  - intros Hclean Hsame.
    assert (collect_update_sets pl (descriptor_set_layout_state cb) = ∅) as Hnone.
    { apply elem_of_equiv_empty_L. intros set Hset.
      apply elem_of_collect_update_sets in Hset as (bound & l & Hbound & Hl & Hne).
      apply Hne. by apply (Hsame set). }
    assert (descriptor_work_needed pl cb = false) as Hwork.
    { unfold descriptor_work_needed, ResourceBindingState.is_dirty.
      by rewrite Hclean, Hnone, bool_decide_eq_true_2. }
    rewrite (Hidle Hwork). split; [|done].
    destruct its as [|[set rs] its].
    { destruct resolved; [done|]. by rewrite !fmap_cons in Hsets. }
    destruct (proj1 (Hres set rs)) as (Hrs & Hneeds & _); [by left|].
    by rewrite (needs_update_work_needed cb pl set rs) in Hwork.
Qed.

(** C8, as the code has it.  The flush clears the per-set dirty flag
    before it checks whether the pipeline layout declares the set.  So
    for a dirty set of a reachable command buffer that the bound layout
    does not declare, the flush returns, leaves the set in the binding
    state with its flag cleared and its bindings as they were, binds
    nothing at that set index and tracks no layout for it. *)
Theorem undeclared_dirty_set_is_cleared bp cb pl set rs :
  reachable cb →
  ps_pipeline_layout (pipeline_state cb) = Some pl →
  resource_sets (resource_binding_state cb) !! set = Some rs →
  rs_dirty rs = true →
  has_set_layout pl set = false →
  ∃ cb' events,
    flush_descriptor_state bp cb = Ok (cb', events) ∧
    resource_sets (resource_binding_state cb') !! set
      = Some {| rs_dirty := false; resource_bindings := resource_bindings rs |} ∧
    (∀ e, e ∈ events → is_bind_of_set set e = false) ∧
    descriptor_set_layout_state cb' !! set = None.
Proof.
  intros Hinv%reachable_tracking Hpl Hrs Hdirty Hundeclared.
  assert (needs_update (collect_update_sets pl (descriptor_set_layout_state cb)) set rs
          = true) as Hneeds
    by (unfold needs_update, ResourceSet.is_dirty; by rewrite Hdirty).
  destruct (flush_descriptor_state_reachable bp cb pl Hinv Hpl)
    as (cb' & resolved & Hflush & _ & Hres & _ & Hsets & _ & Hdsls).
  exists cb', (resolved ≫= set_events bp cb pl). split; [done|].
  split; [|split].
  - rewrite Hsets by (by eapply needs_update_work_needed).
    by rewrite Hrs; simpl; rewrite Hneeds.
  - intros e ([set' rs'] & He & (_ & _ & Hdecl)%Hres)%list_elem_of_bind.
    eapply set_events_other_set; [|exact He]. intros Heq.
    rewrite Heq in Hdecl. congruence.
  - apply Hdsls. by apply has_set_layout_false.
Qed.

(** C10.  An entry that takes the image branch with a sampler and no
    image view makes the flush read the handle of a null view.  No such
    entry arises through the public interface: in every reachable command
    buffer each bound resource that has a sampler has an image view
    ([bind_image] and [bind_input] take the view by reference), so the
    flush never fails on a null image view, and it returns whenever a
    pipeline layout is bound. *)
Theorem null_image_view_is_unreachable cb :
  reachable cb →
  (∀ x acc, is_buffer_entry x = false →
            image_view (entry_resource x) = None →
            is_Some (sampler (entry_resource x)) →
            visit x acc = Fault NullImageView) ∧
  bindings_ok (resource_binding_state cb) ∧
  (∀ bp, flush_descriptor_state bp cb ≠ Fault NullImageView) ∧
  (∀ bp, is_Some (ps_pipeline_layout (pipeline_state cb)) →
         is_Ok (flush_descriptor_state bp cb)).
Proof.
  intros Hinv%reachable_tracking. split; [|split; [|split]].
  - intros [info b e [[buf|] off rng [v|] [s|]]] acc;
      unfold is_buffer_entry, visit, flush_element; simpl;
      intros Hbuffer Hview [? Hsampler]; try done.
    by rewrite Hbuffer.
  - apply Hinv.
  - intros bp [[? _]|[_ Hbad]]%flush_descriptor_state_fault; [done|].
    apply Hbad, Hinv.
  - intros bp Hpl. apply flush_descriptor_state_ok; [done|apply Hinv].
Qed.

(** Every event of a flush belongs to the two events of some set that
    the flush resolved, and all of those are among its events. *)
Lemma flush_descriptor_state_events bp cb cb' events e :
  flush_descriptor_state bp cb = Ok (cb', events) → e ∈ events →
  ∃ pl set rs l infos,
    ps_pipeline_layout (pipeline_state cb) = Some pl ∧
    resource_sets (resource_binding_state cb) !! set = Some rs ∧
    get_set_layout pl set = Some l ∧
    collect_infos l rs = Ok infos ∧
    e ∈ bind_events bp cb pl set l infos ∧
    (∀ e', e' ∈ bind_events bp cb pl set l infos → e' ∈ events).
Proof.
  intros Hflush He.
  destruct (ps_pipeline_layout (pipeline_state cb)) as [pl|] eqn:Hpl; cycle 1.
  { unfold flush_descriptor_state, PipelineState.get_pipeline_layout in Hflush.
    by rewrite Hpl in Hflush. }
  destruct (descriptor_work_needed pl cb) eqn:Hwork; cycle 1.
  { rewrite (flush_descriptor_state_idle _ _ _ Hpl Hwork) in Hflush.
    injection Hflush as <- <-. by apply elem_of_nil in He. }
  destruct (flush_descriptor_state_spec _ _ _ _ _ Hpl Hwork Hflush)
    as (_ & _ & _ & _ & Hevents).
  rewrite Hevents in He.
  apply list_elem_of_bind in He as ([set rs] & He & Hit).
  pose proof Hit as [_ Hrs%elem_of_map_to_list]%list_elem_of_filter.
  unfold set_events in He. simpl in He.
  destruct (get_set_layout pl set) as [l|] eqn:Hl; [|by apply elem_of_nil in He].
  destruct (collect_infos l rs) as [infos|] eqn:Hinfos; [|by apply elem_of_nil in He].
  exists pl, set, rs, l, infos. repeat (split; [done|]).
  intros e' He'. rewrite Hevents. apply list_elem_of_bind. exists (set, rs).
  split; [|done]. unfold set_events. simpl. by rewrite Hl, Hinfos.
Qed.

(** C3.  Take any bind-descriptor-sets command that a flush records, for
    a set index [set].  The set is a set of the binding state with a
    layout declared at [set], and the flush has visited its entries at
    declared bindings in ascending order of binding index and array
    element.  The dynamic offsets of the command are the offsets of the
    visited buffer entries at bindings of a dynamic buffer descriptor
    type, in that order, one per entry, each converted with [to_u32];
    where the conversion keeps the value they are the entries' offsets
    themselves.  The descriptor set bound was requested with buffer infos
    in which each of these entries has its buffer and range and the
    offset zero. *)
Theorem dynamic_offsets_in_binding_order
    bp cb cb' events cmd bind_point layout set descriptor_sets count offsets :
  flush_descriptor_state bp cb = Ok (cb', events) →
  vkCmdBindDescriptorSets cmd bind_point layout set descriptor_sets count offsets ∈ events →
  ∃ pl rs l infos,
    ps_pipeline_layout (pipeline_state cb) = Some pl ∧
    resource_sets (resource_binding_state cb) !! set = Some rs ∧
    get_set_layout pl set = Some l ∧
    call_request_descriptor_set l (buffer_infos infos) (image_infos infos) ∈ events ∧
    descriptor_sets = [request_descriptor_set l (buffer_infos infos) (image_infos infos)] ∧
    (∀ x, x ∈ visited_entries l rs ↔
       get_layout_binding l (entry_binding x) = Some (entry_binding_info x) ∧
       binding_map_get (entry_binding x) (entry_element x) (resource_bindings rs)
         = Some (entry_resource x)) ∧
    StronglySorted (λ x y, key_lt (entry_key x) (entry_key y)) (visited_entries l rs) ∧
    offsets = (λ x, to_u32 (offset (entry_resource x)))
              <$> filter (λ x, is_dynamic_buffer_entry x = true) (visited_entries l rs) ∧
    ((∀ x, x ∈ visited_entries l rs → is_dynamic_buffer_entry x = true →
           to_u32 (offset (entry_resource x)) = offset (entry_resource x)) →
     offsets = (λ x, offset (entry_resource x))
               <$> filter (λ x, is_dynamic_buffer_entry x = true) (visited_entries l rs)) ∧
    (∀ x, x ∈ visited_entries l rs → is_dynamic_buffer_entry x = true →
       ∃ buf, buffer (entry_resource x) = Some buf ∧
         binding_map_get (entry_binding x) (entry_element x) (buffer_infos infos)
           = Some {| bi_buffer := buffer_handle buf;
                     bi_offset := 0;
                     bi_range := range (entry_resource x) |}).
Proof.
  intros Hflush He.
  destruct (flush_descriptor_state_events _ _ _ _ _ Hflush He)
    as (pl & set' & rs & l & infos & Hpl & Hrs & Hl & Hinfos & Hbind & Hall).
  unfold bind_events in Hbind. rewrite !elem_of_cons, elem_of_nil in Hbind.
  destruct Hbind as [?|[Heq|[]]]; [done|].
  injection Heq as -> -> -> -> -> -> ->.
  rewrite collect_infos_visits in Hinfos.
  pose proof (visits_dynamic_offsets _ _ _ Hinfos) as Hoffsets. simpl in Hoffsets.
  exists pl, rs, l, infos. repeat (split; [done|]).
  split; [apply Hall; by left|]. split; [done|].
  split; [apply elem_of_visited_entries|].
  split; [apply visited_entries_ascending|].
  split; [done|]. split.
  - intros Hkeeps. rewrite Hoffsets. apply list_fmap_ext.
    intros i x [Hdyn Hx]%list_elem_of_lookup_2%list_elem_of_filter.
    by apply Hkeeps.
  - intros x Hx Hdyn.
    pose proof Hdyn as [Hbuffer Hdynamic]%andb_true_iff.
    destruct (visits_buffer _ _ _ x Hinfos (visited_entries_NoDup l rs) Hx Hbuffer)
      as (buf & Hbuf & Hget).
    exists buf. split; [done|]. by rewrite Hget, Hdynamic.
Qed.

(** C4.  Take any descriptor set that a flush requests.  It is requested
    for the layout [l] of a set of the binding state, and for every
    visited entry of that set that is not taken as a buffer and has an
    image view, what the image infos of the request hold at the entry's
    binding and array element is decided by the declared descriptor type:
    for a combined image sampler and for an input attachment, a record
    with the depth-stencil-read-only layout when the format of the view is
    a depth/stencil format and with the shader-read-only layout otherwise;
    for a storage image, a record with the general layout whatever the
    format; for every other type, no record. *)
Theorem image_layout_from_descriptor_type bp cb cb' events l buffers images :
  flush_descriptor_state bp cb = Ok (cb', events) →
  call_request_descriptor_set l buffers images ∈ events →
  ∃ pl set rs,
    ps_pipeline_layout (pipeline_state cb) = Some pl ∧
    resource_sets (resource_binding_state cb) !! set = Some rs ∧
    get_set_layout pl set = Some l ∧
    ∀ x v,
      x ∈ visited_entries l rs →
      is_buffer_entry x = false →
      image_view (entry_resource x) = Some v →
      binding_map_get (entry_binding x) (entry_element x) images =
        match descriptorType (entry_binding_info x) with
        | VK_DESCRIPTOR_TYPE_COMBINED_IMAGE_SAMPLER
        | VK_DESCRIPTOR_TYPE_INPUT_ATTACHMENT =>
            Some {| ii_sampler := sampler_handle_or_null (sampler (entry_resource x));
                    ii_imageView := image_view_handle v;
                    ii_imageLayout :=
                      if is_depth_stencil_format (image_view_format v)
                      then VK_IMAGE_LAYOUT_DEPTH_STENCIL_READ_ONLY_OPTIMAL
                      else VK_IMAGE_LAYOUT_SHADER_READ_ONLY_OPTIMAL |}
        | VK_DESCRIPTOR_TYPE_STORAGE_IMAGE =>
            Some {| ii_sampler := sampler_handle_or_null (sampler (entry_resource x));
                    ii_imageView := image_view_handle v;
                    ii_imageLayout := VK_IMAGE_LAYOUT_GENERAL |}
        | _ => None
        end.
Proof.
  intros Hflush He.
  destruct (flush_descriptor_state_events _ _ _ _ _ Hflush He)
    as (pl & set & rs & l' & infos & Hpl & Hrs & Hl & Hinfos & Hbind & _).
  unfold bind_events in Hbind. rewrite !elem_of_cons, elem_of_nil in Hbind.
  destruct Hbind as [Heq|[?|[]]]; [|done].
  injection Heq as -> -> ->.
  rewrite collect_infos_visits in Hinfos.
  exists pl, set, rs. repeat (split; [done|]).
  intros x v Hx Hbuffer Hview.
  rewrite (visits_image _ _ _ x v Hinfos (visited_entries_NoDup l' rs) Hx Hbuffer Hview)
    by done.
  unfold image_layout_for.
  destruct (descriptorType (entry_binding_info x)); try done.
  - by destruct (is_depth_stencil_format _).
  - by destruct (is_depth_stencil_format _).
Qed.
End FlushDescriptorStateClaims.

(** ** Worked examples *)

Section Examples.
#[local] Existing Instance Example.vk_common.
#[local] Existing Instance Example.resource_cache.

Lemma after_reachable ops : is_Ok (run ops Example.fresh) → reachable (Example.after ops).
Proof.
  intros [[cb events] Hrun]. unfold Example.after. rewrite Hrun.
  by exists ResetPool, VK_COMMAND_BUFFER_LEVEL_PRIMARY, 7, ops, events.
Qed.

(** A second [begin] on a recording command buffer, and a first one on a
    fresh command buffer. *)
Lemma begin_twice_not_ready_witness :
  ndebug = true ∧
  begin 0 None (Example.after [op_begin 0 None])
    = Ok (VK_NOT_READY, Example.after [op_begin 0 None], []) ∧
  ∃ cb' events,
    begin 0 None Example.fresh = Ok (VK_SUCCESS, cb', events) ∧
    state cb' = Recording ∧
    pipeline_state cb' = PipelineState.reset ∧
    resource_binding_state cb' = ResourceBindingState.reset ∧
    descriptor_set_layout_state cb' = ∅.
Proof.
  split; [reflexivity|]. split.
  - destruct (begin_twice_not_ready 0 None (Example.after [op_begin 0 None]))
      as [Hrecording _]; [reflexivity|].
    apply Hrecording. reflexivity.
  - destruct (begin_twice_not_ready 0 None Example.fresh) as [_ Hfresh]; [reflexivity|].
    apply Hfresh; [discriminate|]. left. reflexivity.
Defined.

(** Four bytes pushed at offset 128, where layout A declares [0, 64). *)
Lemma push_constants_without_range_witness :
  ps_pipeline_layout (pipeline_state (Example.after Example.ready_to_draw))
    = Some Example.layout_A ∧
  (∀ r, r ∈ pl_push_constant_ranges Example.layout_A →
        covers r 128 (to_u32 (N.of_nat (length [1; 2; 3; 4]))) = false) ∧
  push_constants 128 [1; 2; 3; 4] (Example.after Example.ready_to_draw)
    = Ok (Example.after Example.ready_to_draw,
          [LOGW_push_constant_range_not_found 128 (N.of_nat (length [1; 2; 3; 4]))]).
Proof.
  assert (∀ r, r ∈ pl_push_constant_ranges Example.layout_A →
               covers r 128 (to_u32 (N.of_nat (length [1; 2; 3; 4]))) = false) as Hnone.
  { intros r Hr. apply list_elem_of_singleton in Hr. subst r. reflexivity. }
  split; [reflexivity|]. split; [exact Hnone|].
  apply (push_constants_without_range 128 [1; 2; 3; 4] _ Example.layout_A);
    [reflexivity|exact Hnone].
Defined.

(** From subpass 0, with one colour output, to subpass 1, with two. *)
Lemma next_subpass_resets_bindings_witness :
  ps_subpass_index (pipeline_state (Example.after Example.ready_to_draw)) = 0 ∧
  length (attachments (ps_color_blend_state
                         (pipeline_state (Example.after Example.ready_to_draw)))) = 1%nat ∧
  ∃ rp cb',
    render_pass (current_render_pass (Example.after Example.ready_to_draw)) = Some rp ∧
    N.of_nat (length (rp_color_output_count rp)) < 2 ^ 32 ∧
    get_color_output_count rp (0 + 1) = Some 2 ∧
    next_subpass (Example.after Example.ready_to_draw)
      = Ok (cb', [vkCmdNextSubpass (handle (Example.after Example.ready_to_draw))
                    VK_SUBPASS_CONTENTS_INLINE]) ∧
    ps_subpass_index (pipeline_state cb') = 0 + 1 ∧
    N.of_nat (length (attachments (ps_color_blend_state (pipeline_state cb')))) = 2 ∧
    rbs_dirty (resource_binding_state cb') = false ∧
    resource_sets (resource_binding_state cb') = ∅ ∧
    descriptor_set_layout_state cb' = ∅.
Proof.
  split; [reflexivity|]. split; [reflexivity|].
  destruct (next_subpass_resets_bindings (Example.after Example.ready_to_draw)
              {| rp_handle := 1; rp_color_output_count := [1; 2] |} 0 2)
    as [cb' Hpost]; [reflexivity|reflexivity|reflexivity|reflexivity|].
  exists {| rp_handle := 1; rp_color_output_count := [1; 2] |}, cb'.
  split; [reflexivity|]. split; [reflexivity|]. split; [reflexivity|]. exact Hpost.
Defined.

(** The scenario of C1: set 0 bound and flushed under layout A, layout B
    bound next, no resource bound since; at the descriptor flush of the
    dispatch that follows, set 0 is not dirty and is bound again, for the
    layout object of B. *)
Lemma changed_layout_is_rebound_witness :
  (reachable Example.swapped ∨ flush_site VK_PIPELINE_BIND_POINT_COMPUTE Example.swapped) ∧
  rs_dirty <$> resource_sets (resource_binding_state Example.swapped) !! 0 = Some false ∧
  ps_pipeline_layout (pipeline_state Example.swapped) = Some Example.layout_B ∧
  descriptor_set_layout_state Example.swapped !! 0 = Some Example.L1 ∧
  get_set_layout Example.layout_B 0 = Some Example.L2 ∧
  dsl_handle Example.L1 ≠ dsl_handle Example.L2 ∧
  ∃ cb' rs infos before after,
    flush_descriptor_state VK_PIPELINE_BIND_POINT_COMPUTE Example.swapped
      = Ok (cb',
            before ++
            [call_request_descriptor_set Example.L2 (buffer_infos infos) (image_infos infos);
             vkCmdBindDescriptorSets (handle Example.swapped) VK_PIPELINE_BIND_POINT_COMPUTE
               (pl_handle Example.layout_B) 0
               [request_descriptor_set Example.L2 (buffer_infos infos) (image_infos infos)]
               (to_u32 (N.of_nat (length (dynamic_offsets infos))))
               (dynamic_offsets infos)] ++
            after) ∧
    resource_sets (resource_binding_state Example.swapped) !! 0 = Some rs ∧
    collect_infos Example.L2 rs = Ok infos ∧
    (∀ e, e ∈ before ++ after → is_bind_of_set 0 e = false) ∧
    descriptor_set_layout_state cb' !! 0 = Some Example.L2.
Proof.
  assert (flush_site VK_PIPELINE_BIND_POINT_COMPUTE Example.swapped) as Hsite.
  { exists (Example.after Example.layout_swap). eexists. split.
    - apply after_reachable. eexists. vm_compute. reflexivity.
    - vm_compute. reflexivity. }
  split; [right; exact Hsite|]. split; [reflexivity|]. split; [reflexivity|].
  split; [reflexivity|]. split; [reflexivity|]. split; [discriminate|].
  apply (changed_layout_is_rebound VK_PIPELINE_BIND_POINT_COMPUTE
           Example.swapped Example.layout_B 0 Example.L1 Example.L2);
    [right; exact Hsite|reflexivity|reflexivity|reflexivity|discriminate].
Defined.

(** A dirty set 0, declared by layout A, and a dirty set 1, undeclared,
    at the descriptor flush of a dispatch: set 0 is resolved, set 1 is
    not. *)
Lemma flush_resolves_dirty_declared_sets_once_witness :
  (reachable Example.two_dirty ∨
   flush_site VK_PIPELINE_BIND_POINT_COMPUTE Example.two_dirty) ∧
  ps_pipeline_layout (pipeline_state Example.two_dirty) = Some Example.layout_A ∧
  rs_dirty <$> resource_sets (resource_binding_state Example.two_dirty) !! 0 = Some true ∧
  rs_dirty <$> resource_sets (resource_binding_state Example.two_dirty) !! 1 = Some true ∧
  ∃ cb' (resolved : list (N * DescriptorSetLayout * Infos)) infos,
    flush_descriptor_state VK_PIPELINE_BIND_POINT_COMPUTE Example.two_dirty
      = Ok (cb',
            resolved ≫=
              (λ r : N * DescriptorSetLayout * Infos,
                 [call_request_descriptor_set r.1.2 (buffer_infos r.2) (image_infos r.2);
                  vkCmdBindDescriptorSets (handle Example.two_dirty)
                    VK_PIPELINE_BIND_POINT_COMPUTE (pl_handle Example.layout_A) r.1.1
                    [request_descriptor_set r.1.2 (buffer_infos r.2) (image_infos r.2)]
                    (to_u32 (N.of_nat (length (dynamic_offsets r.2))))
                    (dynamic_offsets r.2)])) ∧
    NoDup resolved.*1.*1 ∧
    (0, Example.L1, infos) ∈ resolved ∧
    (∀ set l infos', (set, l, infos') ∈ resolved → set = 0).
Proof.
  assert (flush_site VK_PIPELINE_BIND_POINT_COMPUTE Example.two_dirty) as Hsite.
  { exists (Example.after Example.two_dirty_sets). eexists. split.
    - apply after_reachable. eexists. vm_compute. reflexivity.
    - vm_compute. reflexivity. }
  split; [right; exact Hsite|]. split; [reflexivity|]. split; [reflexivity|].
  split; [reflexivity|].
  destruct (flush_resolves_dirty_declared_sets_once VK_PIPELINE_BIND_POINT_COMPUTE
              Example.two_dirty Example.layout_A)
    as (cb' & resolved & Hflush & Hnd & Hin & _); [right; exact Hsite|reflexivity|].
  destruct (collect_infos Example.L1
              {| rs_dirty := true;
                 resource_bindings :=
                   binding_map_set 0 0 (ResourceBindingState.buffer_info Example.a_buffer 0 64)
                     ∅ |}) as [infos|err] eqn:Hinfos; [|vm_compute in Hinfos; discriminate].
  exists cb', resolved, infos. split; [exact Hflush|]. split; [exact Hnd|]. split.
  - apply Hin. eexists. split; [reflexivity|]. split; [reflexivity|].
    split; [exact Hinfos|]. left. reflexivity.
  - intros set l infos' (rs & _ & Hl & _)%Hin.
    unfold get_set_layout in Hl. simpl in Hl.
    apply lookup_singleton_Some in Hl as [Hset _]. by symmetry.
Defined.

(** The claim of C8 as it stands fails.  Layout A declares set 0 only; a
    buffer is bound into set 1, which makes set 1 dirty.  After the flush
    the flag of set 1 is cleared. *)
Lemma undeclared_dirty_set_is_cleared_counterexample :
  ∃ events0 rs cb' events rs',
    run Example.stale_set_1 Example.fresh
      = Ok (Example.after Example.stale_set_1, events0) ∧
    ps_pipeline_layout (pipeline_state (Example.after Example.stale_set_1))
      = Some Example.layout_A ∧
    has_set_layout Example.layout_A 1 = false ∧
    resource_sets (resource_binding_state (Example.after Example.stale_set_1)) !! 1
      = Some rs ∧
    rs_dirty rs = true ∧
    flush_descriptor_state VK_PIPELINE_BIND_POINT_GRAPHICS
      (Example.after Example.stale_set_1) = Ok (cb', events) ∧
    resource_sets (resource_binding_state cb') !! 1 = Some rs' ∧
    rs_dirty rs' = false.
Proof.
  eexists _, _, _, _, _.
  split; [by vm_compute|]. split; [by vm_compute|]. split; [by vm_compute|].
  split; [by vm_compute|]. split; [by vm_compute|]. split; [by vm_compute|].
  split; by vm_compute.
Qed.

Lemma undeclared_dirty_set_is_cleared_witness :
  reachable (Example.after Example.stale_set_1) ∧
  ps_pipeline_layout (pipeline_state (Example.after Example.stale_set_1))
    = Some Example.layout_A ∧
  resource_sets (resource_binding_state (Example.after Example.stale_set_1)) !! 1
    = Some {| rs_dirty := true;
              resource_bindings :=
                Example.set_1_bindings |} ∧
  has_set_layout Example.layout_A 1 = false ∧
  ∃ cb' events,
    flush_descriptor_state VK_PIPELINE_BIND_POINT_GRAPHICS
      (Example.after Example.stale_set_1) = Ok (cb', events) ∧
    resource_sets (resource_binding_state cb') !! 1
      = Some {| rs_dirty := false;
                resource_bindings :=
                  Example.set_1_bindings |} ∧
    (∀ e, e ∈ events → is_bind_of_set 1 e = false) ∧
    descriptor_set_layout_state cb' !! 1 = None.
Proof.
  assert (reachable (Example.after Example.stale_set_1)) as Hreach.
  { apply after_reachable. eexists. vm_compute. reflexivity. }
  split; [exact Hreach|]. split; [reflexivity|]. split; [reflexivity|].
  split; [reflexivity|].
  exact (undeclared_dirty_set_is_cleared VK_PIPELINE_BIND_POINT_GRAPHICS
           (Example.after Example.stale_set_1) Example.layout_A 1
           {| rs_dirty := true;
              resource_bindings :=
                Example.set_1_bindings |}
           Hreach eq_refl eq_refl eq_refl eq_refl).
Defined.

(** A buffer, and an image with its sampler, bound through the public
    interface. *)
Lemma null_image_view_is_unreachable_witness :
  reachable (Example.after Example.buffer_and_image) ∧
  bindings_ok (resource_binding_state (Example.after Example.buffer_and_image)) ∧
  flush_descriptor_state VK_PIPELINE_BIND_POINT_COMPUTE
    (Example.after Example.buffer_and_image) ≠ Fault NullImageView ∧
  is_Ok (flush_descriptor_state VK_PIPELINE_BIND_POINT_COMPUTE
           (Example.after Example.buffer_and_image)).
Proof.
  assert (reachable (Example.after Example.buffer_and_image)) as Hreach.
  { apply after_reachable. eexists. vm_compute. reflexivity. }
  destruct (null_image_view_is_unreachable (Example.after Example.buffer_and_image) Hreach)
    as (_ & Hok & Hnofault & Hreturns).
  split; [exact Hreach|]. split; [exact Hok|]. split; [apply Hnofault|].
  apply Hreturns. eexists. reflexivity.
Defined.

(** The flush of a dynamic uniform buffer bound at offset 16. *)
Lemma dynamic_offsets_in_binding_order_witness :
  flush_descriptor_state VK_PIPELINE_BIND_POINT_COMPUTE Example.bound
    = Ok (Example.flush_state, Example.flush_events) ∧
  vkCmdBindDescriptorSets 7 VK_PIPELINE_BIND_POINT_COMPUTE 22 0 [312] 1 [16]
    ∈ Example.flush_events ∧
  ∃ pl rs l infos,
    ps_pipeline_layout (pipeline_state Example.bound) = Some pl ∧
    resource_sets (resource_binding_state Example.bound) !! 0 = Some rs ∧
    get_set_layout pl 0 = Some l ∧
    call_request_descriptor_set l (buffer_infos infos) (image_infos infos)
      ∈ Example.flush_events ∧
    [312] = [request_descriptor_set l (buffer_infos infos) (image_infos infos)] ∧
    (∀ x, x ∈ visited_entries l rs ↔
       get_layout_binding l (entry_binding x) = Some (entry_binding_info x) ∧
       binding_map_get (entry_binding x) (entry_element x) (resource_bindings rs)
         = Some (entry_resource x)) ∧
    StronglySorted (λ x y, key_lt (entry_key x) (entry_key y)) (visited_entries l rs) ∧
    [16] = (λ x, to_u32 (offset (entry_resource x)))
              <$> filter (λ x, is_dynamic_buffer_entry x = true) (visited_entries l rs) ∧
    ((∀ x, x ∈ visited_entries l rs → is_dynamic_buffer_entry x = true →
           to_u32 (offset (entry_resource x)) = offset (entry_resource x)) →
     [16] = (λ x, offset (entry_resource x))
               <$> filter (λ x, is_dynamic_buffer_entry x = true) (visited_entries l rs)) ∧
    (∀ x, x ∈ visited_entries l rs → is_dynamic_buffer_entry x = true →
       ∃ buf, buffer (entry_resource x) = Some buf ∧
         binding_map_get (entry_binding x) (entry_element x) (buffer_infos infos)
           = Some {| bi_buffer := buffer_handle buf;
                     bi_offset := 0;
                     bi_range := range (entry_resource x) |}).
Proof.
  assert (vkCmdBindDescriptorSets 7 VK_PIPELINE_BIND_POINT_COMPUTE 22 0 [312] 1 [16]
            ∈ Example.flush_events) as Hbind.
  { vm_compute. apply list_elem_of_further, list_elem_of_here. }
  split; [reflexivity|]. split; [exact Hbind|].
  exact (dynamic_offsets_in_binding_order VK_PIPELINE_BIND_POINT_COMPUTE
           Example.bound Example.flush_state Example.flush_events
           7 VK_PIPELINE_BIND_POINT_COMPUTE 22 0 [312] 1 [16] eq_refl Hbind).
Defined.

(** The flush of a depth image bound with a sampler at a combined image
    sampler binding. *)
Lemma image_layout_from_descriptor_type_witness :
  flush_descriptor_state VK_PIPELINE_BIND_POINT_COMPUTE Example.bound
    = Ok (Example.flush_state, Example.flush_events) ∧
  call_request_descriptor_set Example.L2 Example.zeroed_buffer_infos
    Example.depth_image_infos ∈ Example.flush_events ∧
  binding_map_get 1 0 Example.depth_image_infos
    = Some {| ii_sampler := 41; ii_imageView := 52;
              ii_imageLayout := VK_IMAGE_LAYOUT_DEPTH_STENCIL_READ_ONLY_OPTIMAL |} ∧
  ∃ pl set rs,
    ps_pipeline_layout (pipeline_state Example.bound) = Some pl ∧
    resource_sets (resource_binding_state Example.bound) !! set = Some rs ∧
    get_set_layout pl set = Some Example.L2 ∧
    ∀ x v,
      x ∈ visited_entries Example.L2 rs →
      is_buffer_entry x = false →
      image_view (entry_resource x) = Some v →
      binding_map_get (entry_binding x) (entry_element x) Example.depth_image_infos =
        match descriptorType (entry_binding_info x) with
        | VK_DESCRIPTOR_TYPE_COMBINED_IMAGE_SAMPLER
        | VK_DESCRIPTOR_TYPE_INPUT_ATTACHMENT =>
            Some {| ii_sampler := sampler_handle_or_null (sampler (entry_resource x));
                    ii_imageView := image_view_handle v;
                    ii_imageLayout :=
                      if is_depth_stencil_format (image_view_format v)
                      then VK_IMAGE_LAYOUT_DEPTH_STENCIL_READ_ONLY_OPTIMAL
                      else VK_IMAGE_LAYOUT_SHADER_READ_ONLY_OPTIMAL |}
        | VK_DESCRIPTOR_TYPE_STORAGE_IMAGE =>
            Some {| ii_sampler := sampler_handle_or_null (sampler (entry_resource x));
                    ii_imageView := image_view_handle v;
                    ii_imageLayout := VK_IMAGE_LAYOUT_GENERAL |}
        | _ => None
        end.
Proof.
  assert (call_request_descriptor_set Example.L2 Example.zeroed_buffer_infos
            Example.depth_image_infos ∈ Example.flush_events) as Hrequest.
  { vm_compute. apply list_elem_of_here. }
  split; [reflexivity|]. split; [exact Hrequest|]. split; [reflexivity|].
  exact (image_layout_from_descriptor_type VK_PIPELINE_BIND_POINT_COMPUTE
           Example.bound Example.flush_state Example.flush_events
           Example.L2 Example.zeroed_buffer_infos Example.depth_image_infos
           eq_refl Hrequest).
Defined.
End Examples.

(** * Further properties of the code *)

(** ** The recording life cycle, the constructors and the destructor *)

Section LifeCycle.
Context `{!VkCommon, !ResourceCache}.

(** X1.  A primary command buffer that is not recording can be recorded:
    [begin] and then [end] both return [VK_SUCCESS], with assertions
    compiled in or out, they record one [vkBeginCommandBuffer] and one
    [vkEndCommandBuffer], and leave the command buffer [Executable] with its
    tracked state reset.  From there [begin] succeeds again: no reset is
    needed between two recordings, and a second [end] is refused. *)
Theorem record_and_record_again flags flags' cb :
  state cb ≠ Recording →
  level cb = VK_COMMAND_BUFFER_LEVEL_PRIMARY →
  ∃ cb1 cb2 cb3,
    begin flags None cb
      = Ok (VK_SUCCESS, cb1, [vkBeginCommandBuffer (handle cb) flags None]) ∧
    end_ cb1 = Ok (VK_SUCCESS, cb2, [vkEndCommandBuffer (handle cb)]) ∧
    state cb2 = Executable ∧
    pipeline_state cb2 = PipelineState.reset ∧
    resource_binding_state cb2 = ResourceBindingState.reset ∧
    descriptor_set_layout_state cb2 = ∅ ∧
    end_ cb2 = (if ndebug then Ok (VK_NOT_READY, cb2, []) else Fault AssertionFailed) ∧
    begin flags' None cb2
      = Ok (VK_SUCCESS, cb3, [vkBeginCommandBuffer (handle cb) flags' None]) ∧
    state cb3 = Recording.
Proof.
  intros Hstate Hlevel.
  assert (∀ f c, state c ≠ Recording → level c = VK_COMMAND_BUFFER_LEVEL_PRIMARY →
            begin f None c
              = Ok (VK_SUCCESS,
                    with_tracking PipelineState.reset ResourceBindingState.reset ∅
                      (with_state Recording c),
                    [vkBeginCommandBuffer (handle c) f None])) as Hbegin.
  { intros f c Hc Hl. unfold begin, c_assert, is_recording.
    rewrite bool_decide_eq_false_2 by done. simpl. rewrite orb_true_r. simpl.
    by rewrite Hl. }
  eexists _, _, _. split; [by apply Hbegin|].
  split; [unfold end_, c_assert, is_recording; simpl; by rewrite orb_true_r|].
  split; [done|]. split; [done|]. split; [done|]. split; [done|].
  split; [unfold end_, c_assert, is_recording; simpl; by destruct ndebug|].
  split; [by rewrite Hbegin|done].
Qed.

(** X2.  [reset] with the mode of the pool leads out of every state, also
    out of a recording that was never ended: it returns with the state
    [Initial], it calls [vkResetCommandBuffer] in the [ResetIndividually]
    mode only, and it does not touch the tracked state, which is cleared by
    the [begin] that follows; that [begin] succeeds. *)
Theorem reset_then_begin reset_mode driver_result flags cb :
  reset_mode = pool_reset_mode cb →
  level cb = VK_COMMAND_BUFFER_LEVEL_PRIMARY →
  ∃ cb1 cb2,
    reset reset_mode driver_result cb
      = Ok (if bool_decide (reset_mode = ResetIndividually) then driver_result
            else VK_SUCCESS,
            cb1,
            if bool_decide (reset_mode = ResetIndividually)
            then [vkResetCommandBuffer (handle cb)] else []) ∧
    state cb1 = Initial ∧
    pipeline_state cb1 = pipeline_state cb ∧
    resource_binding_state cb1 = resource_binding_state cb ∧
    descriptor_set_layout_state cb1 = descriptor_set_layout_state cb ∧
    current_render_pass cb1 = current_render_pass cb ∧
    begin flags None cb1
      = Ok (VK_SUCCESS, cb2, [vkBeginCommandBuffer (handle cb) flags None]) ∧
    state cb2 = Recording ∧
    pipeline_state cb2 = PipelineState.reset ∧
    resource_binding_state cb2 = ResourceBindingState.reset ∧
    descriptor_set_layout_state cb2 = ∅.
Proof.
  intros Hmode Hlevel. exists (with_state Initial cb). eexists. split.
  { unfold reset, c_assert.
    rewrite (bool_decide_eq_true_2 (reset_mode = pool_reset_mode cb)) by done.
    rewrite orb_true_r. simpl. by case_bool_decide. }
  split; [done|]. split; [done|]. split; [done|]. split; [done|]. split; [done|].
  split.
  { unfold begin, c_assert, is_recording. simpl. rewrite orb_true_r. simpl.
    rewrite Hlevel. reflexivity. }
  done.
Qed.

(** X3.  Moving never frees a command buffer twice.  After any number of
    move constructions in a row, the destructors of all the objects
    together, those left behind and the last one built, free what the
    destructor of the first object alone would have freed: its handle,
    once, or nothing when it held none.  Every object left behind is
    [Invalid] and holds no handle. *)
Theorem moves_free_once n cb :
  destructor (move_times n cb).1 = destructor cb ∧
  (∀ old, old ∈ (move_times n cb).2 →
          state old = Invalid ∧ handle old = VK_NULL_HANDLE ∧ destructor old = []) ∧
  handle (move_times n cb).1 = handle cb ∧
  state (move_times n cb).1 = state cb.
Proof.
  revert cb. induction n as [|n IH]; intros cb; simpl.
  - split; [done|]. split; [by intros old ?%elem_of_nil|done].
  - specialize (IH (move_construct cb)).
    destruct (move_times n (move_construct cb)) as [last behind]. simpl in *.
    destruct IH as (Hfree & Hold & Hhandle & Hstate).
    split; [done|]. split; [|done].
    intros old [->|Hin]%elem_of_cons; [done|by apply Hold].
Qed.

(** X4.  A secondary command buffer that begins takes over the render pass
    and the framebuffer that the primary one holds as current, and always
    inherits subpass 0: the subpass index is read from its own pipeline
    state right after that was reset, whatever subpass the primary command
    buffer is in.  [end_render_pass] does not clear what the primary
    command buffer holds as current: a secondary command buffer begun
    after the render pass of the primary one has ended takes over the
    ended render pass all the same.  Without a primary command buffer, or
    with one that holds no current render pass at all, [begin] does not
    return. *)
Theorem secondary_begin_inherits_first_subpass flags primary cb :
  level cb = VK_COMMAND_BUFFER_LEVEL_SECONDARY →
  state cb ≠ Recording →
  (∀ p rp fb,
     primary = Some p →
     render_pass (current_render_pass p) = Some rp →
     framebuffer (current_render_pass p) = Some fb →
     ∃ cb',
       begin flags primary cb
         = Ok (VK_SUCCESS, cb',
               [vkBeginCommandBuffer (handle cb) flags
                  (Some (rp_handle rp, fb_handle fb, 0))]) ∧
       current_render_pass cb' = current_render_pass p ∧
       state cb' = Recording) ∧
  (primary = None →
   begin flags primary cb
     = Fault (if ndebug then NullPrimaryCommandBuffer else AssertionFailed)) ∧
  (∀ p, primary = Some p → render_pass (current_render_pass p) = None →
        begin flags primary cb = Fault NullRenderPass) ∧
  (∀ p p' events, primary = Some p → end_render_pass p = Ok (p', events) →
                  begin flags (Some p') cb = begin flags primary cb).
Proof.
  intros Hlevel Hstate.
  assert (c_assert (negb (is_recording cb)) = Ok ()) as Hassert.
  { unfold c_assert, is_recording. rewrite bool_decide_eq_false_2 by done.
    by rewrite orb_true_r. }
  assert (is_recording cb = false) as Hrec
    by (unfold is_recording; by rewrite bool_decide_eq_false_2).
  split; [|split; [|split]]; cycle 3.
  { intros p p' events -> Hend. unfold end_render_pass in Hend. by injection Hend as <- _. }
  - intros p rp fb -> Hrp Hfb. unfold begin. rewrite Hassert, Hrec. simpl.
    rewrite Hlevel. unfold c_assert. simpl. rewrite orb_true_r. simpl.
    unfold deref_render_pass, deref_framebuffer, get_current_render_pass. simpl.
    rewrite Hrp, Hfb. simpl. by eexists.
  - intros ->. unfold begin. rewrite Hassert, Hrec. simpl.
    rewrite Hlevel. unfold c_assert. simpl. rewrite orb_false_r. by destruct ndebug.
  - intros p -> Hrp. unfold begin. rewrite Hassert, Hrec. simpl.
    rewrite Hlevel. unfold c_assert. simpl. rewrite orb_true_r. simpl.
    unfold deref_render_pass, get_current_render_pass. simpl. by rewrite Hrp.
Qed.
End LifeCycle.

(** ** Render passes and subpasses *)

Section RenderPasses.
Context `{!VkCommon, !ResourceCache}.

(** What [set_color_blend_state] changes: the block, and the dirty flag
    when the block differs. *)
Lemma set_color_blend_state_fields s ps :
  ps_color_blend_state (PipelineState.set_color_blend_state s ps) = s ∧
  ps_dirty (PipelineState.set_color_blend_state s ps)
    = ps_dirty ps || negb (bool_decide (ps_color_blend_state ps = s)) ∧
  ps_pipeline_layout (PipelineState.set_color_blend_state s ps) = ps_pipeline_layout ps ∧
  ps_render_pass (PipelineState.set_color_blend_state s ps) = ps_render_pass ps ∧
  ps_specialization_constants (PipelineState.set_color_blend_state s ps)
    = ps_specialization_constants ps ∧
  ps_subpass_index (PipelineState.set_color_blend_state s ps) = ps_subpass_index ps ∧
  (∀ b, PipelineState.get_block b (PipelineState.set_color_blend_state s ps)
        = PipelineState.get_block b ps).
Proof.
  unfold PipelineState.set_color_blend_state. case_bool_decide; simpl.
  - by rewrite orb_false_r.
  - by rewrite orb_true_r.
Qed.

(** X5.  [begin_render_pass] discards what was set and bound before it.
    When the render pass the cache hands out has a first subpass, with [n]
    colour outputs, the call returns with the render pass and framebuffer
    of the cache as the current ones, no pipeline layout bound, subpass
    index 0, [n] default blend attachments, no resource bound and no
    descriptor-set layout tracked; the pipeline state is dirty exactly when
    [n] is not zero.  The render pass is not yet stored in the pipeline
    state: that is left to the pipeline flush.  The cache is asked for the
    render pass, then for the framebuffer, and then the render pass is
    begun. *)
Theorem begin_render_pass_starts_afresh
    render_target load_store_infos clear_values contents subpasses cb rp fb n :
  request_render_pass (rt_attachments render_target) load_store_infos
    (subpass_info <$> subpasses) = rp →
  request_framebuffer render_target rp = fb →
  get_color_output_count rp 0 = Some n →
  ∃ cb',
    begin_render_pass render_target load_store_infos clear_values contents subpasses cb
      = Ok (cb',
            [call_request_render_pass (rt_attachments render_target) load_store_infos
               (subpass_info <$> subpasses);
             call_request_framebuffer render_target rp;
             vkCmdBeginRenderPass (handle cb) (rp_handle rp) (fb_handle fb)
               (rt_extent render_target) (to_u32 (N.of_nat (length clear_values)))
               clear_values contents]) ∧
    current_render_pass cb' = {| render_pass := Some rp; framebuffer := Some fb |} ∧
    state cb' = state cb ∧
    ps_pipeline_layout (pipeline_state cb') = None ∧
    ps_render_pass (pipeline_state cb') = None ∧
    ps_specialization_constants (pipeline_state cb') = ∅ ∧
    ps_subpass_index (pipeline_state cb') = 0 ∧
    attachments (ps_color_blend_state (pipeline_state cb')) = replicate (N.to_nat n) 0 ∧
    ps_dirty (pipeline_state cb') = negb (bool_decide (n = 0)) ∧
    resource_binding_state cb' = ResourceBindingState.reset ∧
    descriptor_set_layout_state cb' = ∅.
Proof.
  intros Hrp Hfb Hcount. unfold begin_render_pass.
  cbn [pipeline_state with_tracking with_current_render_pass]. rewrite Hrp, Hfb.
  unfold PipelineState.get_subpass_index, PipelineState.get_color_blend_state.
  cbn [ps_subpass_index ps_color_blend_state PipelineState.reset]. rewrite Hcount.
  eexists. split; [done|].
  cbn [pipeline_state with_tracking with_current_render_pass with_pipeline_state
       current_render_pass state resource_binding_state descriptor_set_layout_state].
  destruct (set_color_blend_state_fields
              (resize_attachments n {| cbs_logic_op := 0; attachments := [] |})
              PipelineState.reset) as (-> & -> & -> & -> & -> & -> & _).
  assert (resize n [] = replicate (N.to_nat n) 0) as Hresize.
  { unfold resize. simpl. by rewrite take_nil, Nat.sub_0_r. }
  unfold resize_attachments. simpl. rewrite Hresize.
  repeat split; try done.
  f_equal. apply bool_decide_ext. split.
  - intros [= Heq]. destruct (N.to_nat n) eqn:Hnat; [lia|done].
  - by intros ->.
Qed.

(** X6.  [next_subpass] does not reset the pipeline state.  With a next
    subpass to go to, it keeps the pipeline layout, the stored render pass,
    the specialization constants and the fixed-function blocks, keeps the
    blend attachment state of every colour output that the new subpass
    still has, gives the further outputs the default state, and leaves the
    pipeline state dirty, so that the next draw resolves a pipeline for the
    new subpass. *)
Theorem next_subpass_keeps_pipeline_state cb rp i n :
  ps_subpass_index (pipeline_state cb) = i →
  render_pass (current_render_pass cb) = Some rp →
  N.of_nat (length (rp_color_output_count rp)) < 2 ^ 32 →
  get_color_output_count rp (i + 1) = Some n →
  ∃ cb' events,
    next_subpass cb = Ok (cb', events) ∧
    ps_dirty (pipeline_state cb') = true ∧
    ps_pipeline_layout (pipeline_state cb') = ps_pipeline_layout (pipeline_state cb) ∧
    ps_render_pass (pipeline_state cb') = ps_render_pass (pipeline_state cb) ∧
    ps_specialization_constants (pipeline_state cb')
      = ps_specialization_constants (pipeline_state cb) ∧
    (∀ b, PipelineState.get_block b (pipeline_state cb')
          = PipelineState.get_block b (pipeline_state cb)) ∧
    cbs_logic_op (ps_color_blend_state (pipeline_state cb'))
      = cbs_logic_op (ps_color_blend_state (pipeline_state cb)) ∧
    (∀ k, (k < N.to_nat n)%nat →
          attachments (ps_color_blend_state (pipeline_state cb')) !! k
            = Some (default 0 (attachments (ps_color_blend_state (pipeline_state cb)) !! k))) ∧
    current_render_pass cb' = current_render_pass cb ∧
    state cb' = state cb.
Proof.
  intros Hi Hrp Hsubpasses Hcount.
  assert (i + 1 < 2 ^ 32) as Hwrap.
  { apply lookup_lt_Some in Hcount. lia. }
  unfold next_subpass, deref_render_pass, PipelineState.get_subpass_index,
    PipelineState.get_color_blend_state.
  rewrite Hrp, Hi. simpl.
  assert (u32 (i + 1) = i + 1) as -> by (unfold u32; by apply N.mod_small).
  unfold PipelineState.set_subpass_index at 1 2.
  rewrite Hi, (bool_decide_eq_false_2 (i = i + 1)) by lia. simpl. rewrite Hcount.
  eexists _, _. split; [done|]. simpl.
  unfold PipelineState.set_color_blend_state, PipelineState.set_subpass_index.
  rewrite Hi, (bool_decide_eq_false_2 (i = i + 1)) by lia. simpl.
  assert (∀ k, (k < N.to_nat n)%nat →
            resize n (attachments (ps_color_blend_state (pipeline_state cb))) !! k
              = Some (default 0 (attachments (ps_color_blend_state (pipeline_state cb)) !! k)))
    as Hresize.
  { intros k Hk. unfold resize.
    destruct (decide (k < length (attachments (ps_color_blend_state (pipeline_state cb))))%nat)
      as [Hlt|Hge].
    - rewrite lookup_app_l by (rewrite length_take; lia).
      rewrite lookup_take_lt by done.
      destruct (lookup_lt_is_Some_2 _ _ Hlt) as [a ->]. done.
    - rewrite lookup_app_r by (rewrite length_take; lia).
      rewrite length_take, (lookup_ge_None_2 (attachments _) k) by lia. simpl.
      apply lookup_replicate_2. lia. }
  case_bool_decide as Hb; simpl; (split; [done|]); (split; [done|]); (split; [done|]);
    (split; [done|]); (split; [by intros []|]); (split; [done|]); (split; [|done]).
  - intros k Hk. rewrite Hb at 1. by apply Hresize.
  - done.
Qed.
End RenderPasses.

(** ** The pipeline flush, further *)

Section FlushPipelineStateMore.
Context `{!VkCommon, !ResourceCache}.


(** X8.  The pipeline flush settles after two calls at most.  When a call
    returns, the next call for the same bind point returns as well and
    leaves the pipeline state clean, and every call after that records
    nothing and changes nothing; the two calls request two pipelines at
    most.  After a graphics flush of a dirty pipeline state the render pass
    stored in the pipeline state has the handle of the active one. *)
Theorem flush_pipeline_state_settles bp cb cb1 events1 :
  flush_pipeline_state bp cb = Ok (cb1, events1) →
  ∃ cb2 events2,
    flush_pipeline_state bp cb1 = Ok (cb2, events2) ∧
    ps_dirty (pipeline_state cb2) = false ∧
    flush_pipeline_state bp cb2 = Ok (cb2, []) ∧
    (pipeline_requests events1 + pipeline_requests events2 ≤ 2)%nat ∧
    (bp = VK_PIPELINE_BIND_POINT_GRAPHICS → ps_dirty (pipeline_state cb) = true →
     ∃ rp stored, render_pass (current_render_pass cb) = Some rp ∧
                  ps_render_pass (pipeline_state cb1) = Some stored ∧
                  rp_handle stored = rp_handle rp).
Proof.
  intros Hflush.
  assert (∀ rp ps, PipelineState.same_render_pass
                     (ps_render_pass (PipelineState.set_render_pass rp ps)) rp = true)
    as Hstamped.
  { intros rp ps. unfold PipelineState.set_render_pass.
    destruct (PipelineState.same_render_pass (ps_render_pass ps) rp) eqn:Hsame; [done|].
    simpl. by apply bool_decide_eq_true_2. }
  destruct (ps_dirty (pipeline_state cb)) eqn:Hdirty; cycle 1.
  { rewrite flush_pipeline_state_clean in Hflush by done. injection Hflush as <- <-.
    exists cb, []. rewrite flush_pipeline_state_clean by done.
    split; [done|]. split; [done|]. split; [done|]. split; [unfold pipeline_requests; simpl; lia|].
    intros _ Hd. congruence. }
  pose proof (flush_pipeline_state_dirty _ _ _ _ Hdirty Hflush) as Hone.
  unfold flush_pipeline_state in Hflush. unfold PipelineState.is_dirty in Hflush.
  rewrite Hdirty in Hflush. simpl in Hflush.
  destruct (decide (bp = VK_PIPELINE_BIND_POINT_GRAPHICS)) as [->|Hg].
  - simpl in Hflush. unfold deref_render_pass in Hflush.
    destruct (render_pass (current_render_pass cb)) as [rp|] eqn:Hrp; [|done].
    simpl in Hflush. injection Hflush as <- <-.
    set (ps1 := PipelineState.set_render_pass rp
                  (PipelineState.clear_dirty (pipeline_state cb))).
    assert (∃ stored, ps_render_pass ps1 = Some stored ∧ rp_handle stored = rp_handle rp)
      as Hstored.
    { specialize (Hstamped rp (PipelineState.clear_dirty (pipeline_state cb))).
      fold ps1 in Hstamped. unfold PipelineState.same_render_pass in Hstamped.
      destruct (ps_render_pass ps1) as [stored|]; [|done].
      exists stored. split; [done|]. by apply bool_decide_eq_true in Hstamped. }
    destruct (flush_pipeline_state VK_PIPELINE_BIND_POINT_GRAPHICS (with_pipeline_state ps1 cb))
      as [[cb2 events2]|err] eqn:Hsecond; cycle 1.
    { revert Hsecond. unfold flush_pipeline_state, PipelineState.is_dirty, deref_render_pass.
      simpl. rewrite Hrp. by destruct (ps_dirty ps1). }
    exists cb2, events2. split; [done|].
    assert (ps_dirty (pipeline_state cb2) = false) as Hclean.
    { destruct (ps_dirty ps1) eqn:Hd1.
      - revert Hsecond. unfold flush_pipeline_state, PipelineState.is_dirty. simpl.
        rewrite Hd1. simpl. unfold deref_render_pass. rewrite Hrp. simpl.
        unfold PipelineState.set_render_pass. simpl.
        pose proof (Hstamped rp (PipelineState.clear_dirty (pipeline_state cb))) as Hsame.
        fold ps1 in Hsame. rewrite Hsame. by intros [= <- <-].
      - rewrite flush_pipeline_state_clean in Hsecond by done. by injection Hsecond as <- <-. }
    split; [done|]. split; [by apply flush_pipeline_state_clean|]. split.
    + destruct (ps_dirty ps1) eqn:Hd1.
      * rewrite (flush_pipeline_state_dirty _ (with_pipeline_state ps1 cb) _ _ Hd1 Hsecond).
        unfold pipeline_requests in *. simpl in *. lia.
      * rewrite flush_pipeline_state_clean in Hsecond by done.
        injection Hsecond as <- <-. unfold pipeline_requests in *. simpl. lia.
    + intros _ _. destruct Hstored as (stored & ? & ?). by exists rp, stored.
  - rewrite (bool_decide_eq_false_2 (bp = VK_PIPELINE_BIND_POINT_GRAPHICS)) in Hflush by done.
    case_bool_decide as Hc; [|done]. subst bp. injection Hflush as <- <-.
    eexists _, []. split; [by apply flush_pipeline_state_clean|].
    split; [done|]. split; [by apply flush_pipeline_state_clean|].
    split; [unfold pipeline_requests in *; simpl in *; lia|done].
Qed.
End FlushPipelineStateMore.

(** ** The descriptor flush, further *)

Section FlushDescriptorStateMore.
Context `{!VkCommon, !ResourceCache}.

Lemma flush_sets_skip_all bp cb pl U its st :
  (∀ it, it ∈ its → needs_update U it.1 it.2 = false) →
  for_each (flush_set bp cb pl U) its st = Ok st.
Proof.
  induction its as [|it its IH]; intros Hskip; [done|].
  simpl. rewrite flush_set_skip by (apply Hskip; by left).
  simpl. apply IH. intros it' Hit'. apply Hskip. by right.
Qed.

Lemma prune_declared pl dsls :
  (∀ set, is_Some (dsls !! set) → has_set_layout pl set = true) → prune pl dsls = dsls.
Proof.
  intros Hdeclared. apply map_eq. intros set. rewrite lookup_prune.
  destruct (has_set_layout pl set) eqn:Hdecl; [done|].
  destruct (dsls !! set) as [l|] eqn:Hl; [|done].
  rewrite Hdeclared in Hdecl by (by eexists). done.
Qed.

Lemma prune_all_declared pl dsls set :
  is_Some (prune pl dsls !! set) → has_set_layout pl set = true.
Proof. rewrite lookup_prune. destruct (has_set_layout pl set); [done|by intros []]. Qed.

Lemma collect_update_sets_prune pl dsls :
  collect_update_sets pl dsls = ∅ → collect_update_sets pl (prune pl dsls) = ∅.
Proof.
  intros Hnone. apply elem_of_equiv_empty_L. intros set Hset.
  apply elem_of_collect_update_sets in Hset as (bound & l & Hbound & Hl & Hne).
  rewrite lookup_prune in Hbound.
  destruct (has_set_layout pl set); [|done].
  assert (set ∈ collect_update_sets pl dsls) as Hin.
  { apply elem_of_collect_update_sets. eauto. }
  rewrite Hnone in Hin. by apply elem_of_empty in Hin.
Qed.

Lemma with_tracking_eta cb :
  with_tracking (pipeline_state cb) (resource_binding_state cb)
    (descriptor_set_layout_state cb) cb = cb.
Proof. by destruct cb. Qed.

Lemma clear_dirty_clean rbs :
  rbs_dirty rbs = false → ResourceBindingState.clear_dirty rbs = rbs.
Proof. destruct rbs. simpl. by intros ->. Qed.

(** What a flush that had work to do leaves behind, set by set: no set of
    the binding state needs an update any more, and only declared sets are
    recorded as bound. *)
Lemma flush_descriptor_state_worked bp cb pl cb' events :
  ps_pipeline_layout (pipeline_state cb) = Some pl →
  descriptor_work_needed pl cb = true →
  flush_descriptor_state bp cb = Ok (cb', events) →
  (∀ set rs', resource_sets (resource_binding_state cb') !! set = Some rs' →
     needs_update (collect_update_sets pl (descriptor_set_layout_state cb')) set rs' = false) ∧
  (∀ set, is_Some (descriptor_set_layout_state cb' !! set) → has_set_layout pl set = true).
Proof.
  intros Hpl Hwork Hflush.
  destruct (flush_descriptor_state_spec _ _ _ _ _ Hpl Hwork Hflush)
    as (_ & _ & Hsets & Hdsls & _).
  split.
  - intros set rs' Hrs'. rewrite Hsets in Hrs'.
    destruct (resource_sets (resource_binding_state cb) !! set) as [rs|] eqn:Hrs; [|done].
    simpl in Hrs'. injection Hrs' as <-.
    specialize (Hdsls set). rewrite Hrs in Hdsls.
    unfold needs_update at 1. apply orb_false_iff. split.
    + destruct (needs_update _ set rs) eqn:Hneeds; [done|].
      unfold needs_update in Hneeds. by apply orb_false_iff in Hneeds as [? _].
    + apply bool_decide_eq_false. intros Hin.
      apply elem_of_collect_update_sets in Hin as (bound & l & Hbound & Hl & Hne).
      rewrite Hl, Hbound in Hdsls.
      destruct (needs_update _ set rs) eqn:Hneeds; [congruence|].
      unfold needs_update in Hneeds. apply orb_false_iff in Hneeds as [_ Hnotin].
      apply bool_decide_eq_false in Hnotin. apply Hnotin.
      apply elem_of_collect_update_sets. eauto.
  - intros set [bound Hbound]. specialize (Hdsls set). rewrite Hbound in Hdsls.
    apply has_set_layout_true.
    destruct (get_set_layout pl set); [by eexists|].
    by destruct (resource_sets (resource_binding_state cb) !! set).
Qed.

Lemma flush_descriptor_state_again bp bp' cb cb' events :
  flush_descriptor_state bp cb = Ok (cb', events) →
  flush_descriptor_state bp' cb' = Ok (cb', []).
Proof.
  intros Hflush.
  destruct (ps_pipeline_layout (pipeline_state cb)) as [pl|] eqn:Hpl; cycle 1.
  { unfold flush_descriptor_state, PipelineState.get_pipeline_layout in Hflush.
    by rewrite Hpl in Hflush. }
  destruct (descriptor_work_needed pl cb) eqn:Hwork.
  - destruct (flush_descriptor_state_worked _ _ _ _ _ Hpl Hwork Hflush) as [Hskip Hdecl].
    destruct (flush_descriptor_state_spec _ _ _ _ _ Hpl Hwork Hflush)
      as (Hcb' & Hclean & _).
    assert (ps_pipeline_layout (pipeline_state cb') = Some pl) as Hpl'.
    { by rewrite Hcb'. }
    unfold flush_descriptor_state, PipelineState.get_pipeline_layout.
    rewrite Hpl'. simpl. unfold ResourceBindingState.is_dirty. rewrite Hclean. simpl.
    rewrite (prune_declared pl (descriptor_set_layout_state cb')) by done.
    destruct (negb _).
    + rewrite flush_sets_skip_all.
      * simpl. by rewrite clear_dirty_clean, with_tracking_eta.
      * intros [set rs'] Hit%elem_of_map_to_list. by apply Hskip.
    + by rewrite with_tracking_eta.
  - rewrite (flush_descriptor_state_idle _ _ _ Hpl Hwork) in Hflush.
    injection Hflush as <- <-.
    rewrite (flush_descriptor_state_idle _ _ pl); [| done |].
    + cbn [pipeline_state resource_binding_state descriptor_set_layout_state with_tracking].
      rewrite (prune_declared pl (prune pl _)) by apply prune_all_declared. done.
    + unfold descriptor_work_needed in *.
      cbn [pipeline_state resource_binding_state descriptor_set_layout_state with_tracking].
      apply orb_false_iff in Hwork as [-> Hnone]. simpl.
      apply negb_false_iff, bool_decide_eq_true in Hnone.
      apply negb_false_iff, bool_decide_eq_true. by apply collect_update_sets_prune.
Qed.

(** X9.  The descriptor flush is idempotent.  When a flush returns, a
    second flush right after it returns as well, records nothing, requests
    no descriptor set and leaves the command buffer exactly as the first one
    left it; this holds of every command buffer, whatever was bound. *)
Theorem flush_descriptor_state_twice bp bp' cb cb' events :
  flush_descriptor_state bp cb = Ok (cb', events) →
  flush_descriptor_state bp' cb' = Ok (cb', []).
Proof. apply flush_descriptor_state_again. Qed.
(** X10.  After a descriptor flush of a command buffer that was reached
    through the interface, nothing is left to do: the binding state and
    each of its sets are clean, and every descriptor set layout recorded as
    bound is, by its handle, the layout that the pipeline layout declares
    at that set index. *)
Theorem flush_descriptor_state_settles bp cb cb' events :
  reachable cb →
  flush_descriptor_state bp cb = Ok (cb', events) →
  ∃ pl, ps_pipeline_layout (pipeline_state cb') = Some pl ∧ settled pl cb'.
Proof.
  intros Hinv%reachable_tracking Hflush.
  destruct (ps_pipeline_layout (pipeline_state cb)) as [pl|] eqn:Hpl; cycle 1.
  { unfold flush_descriptor_state, PipelineState.get_pipeline_layout in Hflush.
    by rewrite Hpl in Hflush. }
  exists pl.
  destruct (descriptor_work_needed pl cb) eqn:Hwork.
  - destruct (flush_descriptor_state_worked _ _ _ _ _ Hpl Hwork Hflush) as [Hskip Hdecl].
    destruct (flush_descriptor_state_spec _ _ _ _ _ Hpl Hwork Hflush)
      as (Hcb' & Hclean & Hsets & Hdsls & _).
    split; [by rewrite Hcb'|]. split; [done|]. split.
    + intros set rs' Hrs'. apply Hskip in Hrs'.
      unfold needs_update in Hrs'. by apply orb_false_iff in Hrs' as [? _].
    + intros set bound Hbound.
      destruct (proj1 (has_set_layout_true pl set)) as [l Hl]; [apply Hdecl; by eexists|].
      exists l. split; [done|].
      destruct (resource_sets (resource_binding_state cb') !! set) as [rs'|] eqn:Hrs'.
      * apply Hskip in Hrs'. unfold needs_update in Hrs'.
        apply orb_false_iff in Hrs' as [_ Hnotin]. apply bool_decide_eq_false in Hnotin.
        destruct (decide (dsl_handle bound = dsl_handle l)) as [|Hne]; [done|].
        exfalso. apply Hnotin. apply elem_of_collect_update_sets. eauto.
      * exfalso. rewrite Hsets in Hrs'. specialize (Hdsls set). rewrite Hl in Hdsls.
        destruct (resource_sets (resource_binding_state cb) !! set) as [rs|] eqn:Hrs;
          [done|].
        rewrite Hbound in Hdsls.
        destruct (inv_bound_sets_have_bindings cb Hinv set) as [rs Hrs2]; [by eexists|].
        congruence.
  - rewrite (flush_descriptor_state_idle _ _ _ Hpl Hwork) in Hflush.
    injection Hflush as <- <-.
    unfold descriptor_work_needed in Hwork. apply orb_false_iff in Hwork as [Hclean Hnone].
    apply negb_false_iff, bool_decide_eq_true in Hnone.
    split; [done|]. split; [done|]. split.
    + intros set rs Hrs. simpl in Hrs.
      destruct (rs_dirty rs) eqn:Hdirty; [|done].
      unfold ResourceBindingState.is_dirty in Hclean.
      by rewrite (inv_dirty_set_marks_state cb Hinv set rs) in Hclean.
    + intros set bound Hbound. simpl in Hbound.
      destruct (proj1 (has_set_layout_true pl set)) as [l Hl].
      { apply (prune_all_declared pl (descriptor_set_layout_state cb)). by eexists. }
      exists l. split; [done|].
      rewrite lookup_prune, (proj2 (has_set_layout_true pl set)) in Hbound by (by eexists).
      destruct (decide (dsl_handle bound = dsl_handle l)) as [|Hne]; [done|].
      assert (set ∈ collect_update_sets pl (descriptor_set_layout_state cb)) as Hin.
      { apply elem_of_collect_update_sets. eauto. }
      rewrite Hnone in Hin. by apply elem_of_empty in Hin.
Qed.

(** X11.  The descriptor flush loses nothing that was bound.  It only
    clears dirty flags and records bound layouts: every resource bound at
    a set, binding and array element is still bound there afterwards, no
    set appears or disappears, and the pipeline state, the recording
    state, the current render pass, the handle and the level are as they
    were. *)
Theorem flush_descriptor_state_keeps_bindings bp cb cb' events :
  flush_descriptor_state bp cb = Ok (cb', events) →
  (∀ set binding element,
     bound_resource cb' set binding element = bound_resource cb set binding element) ∧
  dom (resource_sets (resource_binding_state cb'))
    = dom (resource_sets (resource_binding_state cb)) ∧
  pipeline_state cb' = pipeline_state cb ∧
  state cb' = state cb ∧
  current_render_pass cb' = current_render_pass cb ∧
  handle cb' = handle cb ∧
  level cb' = level cb.
Proof.
  intros Hflush.
  destruct (ps_pipeline_layout (pipeline_state cb)) as [pl|] eqn:Hpl; cycle 1.
  { unfold flush_descriptor_state, PipelineState.get_pipeline_layout in Hflush.
    by rewrite Hpl in Hflush. }
  destruct (descriptor_work_needed pl cb) eqn:Hwork; cycle 1.
  { rewrite (flush_descriptor_state_idle _ _ _ Hpl Hwork) in Hflush.
    by injection Hflush as <- <-. }
  destruct (flush_descriptor_state_spec _ _ _ _ _ Hpl Hwork Hflush)
    as (Hcb' & _ & Hsets & _).
  split; [|split; [|by rewrite Hcb']].
  - intros set binding element. unfold bound_resource. rewrite Hsets.
    destruct (resource_sets (resource_binding_state cb) !! set) as [rs|]; [|done].
    simpl. by destruct (needs_update _ set rs).
  - apply set_eq. intros set. rewrite !elem_of_dom, Hsets.
    by rewrite fmap_is_Some.
Qed.
End FlushDescriptorStateMore.

(** ** What a requested descriptor set holds, and where it comes from *)

Section DescriptorSets.
Context `{!VkCommon, !ResourceCache}.

Ltac visit_split x :=
  let info := fresh "info" in
  let view := fresh "view" in
  destruct x as [info ? ? [[?|] ? ? [view|] [?|]]];
  unfold visit, flush_element, is_dynamic_buffer_entry, is_buffer_entry, entry_key in *;
  simpl in *;
  destruct (is_buffer_descriptor_type (descriptorType info)) eqn:Hbuffer_type;
  destruct (is_dynamic_buffer_descriptor_type (descriptorType info)) eqn:Hdynamic_type;
  simpl in *;
  try destruct (image_layout_for (descriptorType info) view) as [?|] eqn:Hlayout;
  simpl in *.

Lemma NoDup_fmap_eq {A B} (f : A → B) (l : list A) (x y : A) :
  NoDup (f <$> l) → x ∈ l → y ∈ l → f x = f y → x = y.
Proof.
  induction l as [|z l IH]; intros Hnd Hx Hy Heq; [by apply elem_of_nil in Hx|].
  rewrite fmap_cons in Hnd. apply NoDup_cons in Hnd as [Hnotin Hnd].
  apply elem_of_cons in Hx as [->|Hx]; apply elem_of_cons in Hy as [->|Hy].
  - done.
  - exfalso. apply Hnotin. rewrite Heq. by apply list_elem_of_fmap_2.
  - exfalso. apply Hnotin. rewrite <- Heq. by apply list_elem_of_fmap_2.
  - by apply IH.
Qed.

(** A record that is in the infos after a visit was there before, or was
    put there by the visit, as a buffer for a buffer entry and as an image
    for another entry with an image view. *)
Lemma visit_source x acc acc' b e :
  visit x acc = Ok acc' →
  (is_Some (binding_map_get b e (buffer_infos acc')) →
     is_Some (binding_map_get b e (buffer_infos acc)) ∨
     (entry_key x = (b, e) ∧ is_buffer_entry x = true)) ∧
  (is_Some (binding_map_get b e (image_infos acc')) →
     is_Some (binding_map_get b e (image_infos acc)) ∨
     (entry_key x = (b, e) ∧ is_buffer_entry x = false ∧
      is_Some (image_view (entry_resource x)))).
Proof.
  intros Hvisit.
  destruct (decide (entry_key x = (b, e))) as [Hkey|Hkey]; cycle 1.
  { destruct (visit_frame _ _ _ b e Hvisit Hkey) as [-> ->]. by split; left. }
  visit_split x; inversion Hvisit; subst; simpl;
    (split; intros Hsome; first [by left | right; by eauto]).
Qed.

Lemma visits_source xs acc acc' b e :
  for_each visit xs acc = Ok acc' →
  (is_Some (binding_map_get b e (buffer_infos acc')) →
     is_Some (binding_map_get b e (buffer_infos acc)) ∨
     ∃ x, x ∈ xs ∧ entry_key x = (b, e) ∧ is_buffer_entry x = true) ∧
  (is_Some (binding_map_get b e (image_infos acc')) →
     is_Some (binding_map_get b e (image_infos acc)) ∨
     ∃ x, x ∈ xs ∧ entry_key x = (b, e) ∧ is_buffer_entry x = false ∧
          is_Some (image_view (entry_resource x))).
Proof.
  revert acc. induction xs as [|x xs IH]; intros acc Hrun.
  { inversion Hrun; subst. by split; left. }
  simpl in Hrun. destruct (visit x acc) as [acc1|] eqn:Hvisit; [|done].
  simpl in Hrun. destruct (IH _ Hrun) as [IHb IHi].
  destruct (visit_source _ _ _ b e Hvisit) as [Hb Hi].
  split; intros Hsome.
  - destruct (IHb Hsome) as [Hbefore|(y & Hy & ?)].
    + destruct (Hb Hbefore) as [?|?]; [by left|].
      right. exists x. split; [by left|done].
    + right. exists y. split; [by right|done].
  - destruct (IHi Hsome) as [Hbefore|(y & Hy & ?)].
    + destruct (Hi Hbefore) as [?|?]; [by left|].
      right. exists x. split; [by left|done].
    + right. exists y. split; [by right|done].
Qed.

(** X12.  A requested descriptor set holds nothing but what was bound at
    declared bindings.  Every buffer record of the request stands at the
    binding and array element of a resource of the set that has a buffer
    and is bound at a binding that the layout declares with a buffer
    descriptor type; every image record stands at those of a resource with
    an image view that is not taken as a buffer.  So a resource at an
    undeclared binding, and a buffer at a binding declared with an image
    type, contribute nothing; and no binding and array element has both a
    buffer and an image record. *)
Theorem descriptor_set_holds_only_bound_resources bp cb cb' events l buffers images :
  flush_descriptor_state bp cb = Ok (cb', events) →
  call_request_descriptor_set l buffers images ∈ events →
  ∃ pl set rs,
    ps_pipeline_layout (pipeline_state cb) = Some pl ∧
    resource_sets (resource_binding_state cb) !! set = Some rs ∧
    get_set_layout pl set = Some l ∧
    (∀ b e bi, binding_map_get b e buffers = Some bi →
       ∃ info r buf,
         get_layout_binding l b = Some info ∧
         binding_map_get b e (resource_bindings rs) = Some r ∧
         buffer r = Some buf ∧
         is_buffer_descriptor_type (descriptorType info) = true ∧
         bi_buffer bi = buffer_handle buf ∧ bi_range bi = range r) ∧
    (∀ b e ii, binding_map_get b e images = Some ii →
       ∃ info r v,
         get_layout_binding l b = Some info ∧
         binding_map_get b e (resource_bindings rs) = Some r ∧
         image_view r = Some v ∧
         (buffer r = None ∨ is_buffer_descriptor_type (descriptorType info) = false) ∧
         ii_imageView ii = image_view_handle v ∧
         ii_sampler ii = sampler_handle_or_null (sampler r)) ∧
    (∀ b e, is_Some (binding_map_get b e buffers) → binding_map_get b e images = None).
Proof.
  intros Hflush He.
  destruct (flush_descriptor_state_events _ _ _ _ _ Hflush He)
    as (pl & set & rs & l' & infos & Hpl & Hrs & Hl & Hinfos & Hbind & _).
  unfold bind_events in Hbind. rewrite !elem_of_cons, elem_of_nil in Hbind.
  destruct Hbind as [Heq|[?|[]]]; [|done].
  injection Heq as -> -> ->.
  rewrite collect_infos_visits in Hinfos.
  exists pl, set, rs. repeat (split; [done|]).
  pose proof (visited_entries_NoDup l' rs) as Hnd.
  assert (∀ b e, ¬ is_Some (binding_map_get b e (buffer_infos no_infos)) ∧
                 ¬ is_Some (binding_map_get b e (image_infos no_infos))) as Hnone.
  { intros b e. split; by intros [? ?]. }
  split; [|split].
  - intros b e bi Hbi.
    destruct (visits_source _ _ _ b e Hinfos) as [Hb _].
    destruct Hb as [Hbefore|(x & Hx & Hkey & Hbuf)]; [by eexists|by apply Hnone in Hbefore|].
    destruct (visits_buffer _ _ _ x Hinfos Hnd Hx Hbuf) as (buf & Hbuffer & Hget).
    injection Hkey as <- <-. rewrite Hget in Hbi. injection Hbi as <-.
    apply elem_of_visited_entries in Hx as [Hinfo Hr].
    exists (entry_binding_info x), (entry_resource x), buf.
    repeat (split; [done|]). split; [|done].
    unfold is_buffer_entry in Hbuf. by apply andb_true_iff in Hbuf as [_ ?].
  - intros b e ii Hii.
    destruct (visits_source _ _ _ b e Hinfos) as [_ Hi].
    destruct Hi as [Hbefore|(x & Hx & Hkey & Himg & [v Hv])];
      [by eexists|by apply Hnone in Hbefore|].
    injection Hkey as <- <-.
    rewrite (visits_image _ _ _ x v Hinfos Hnd Hx Himg Hv) in Hii by done.
    destruct (image_layout_for _ v) as [layout|]; [|done].
    simpl in Hii. injection Hii as <-.
    apply elem_of_visited_entries in Hx as [Hinfo Hr].
    exists (entry_binding_info x), (entry_resource x), v.
    repeat (split; [done|]). split; [|done].
    unfold is_buffer_entry in Himg. apply andb_false_iff in Himg as [Hnobuf|?]; [|by right].
    left. apply bool_decide_eq_false in Hnobuf.
    destruct (buffer (entry_resource x)); [|done]. exfalso. apply Hnobuf. by eexists.
  - intros b e Hsome.
    destruct (binding_map_get b e (image_infos infos)) as [ii|] eqn:Hii; [|done].
    exfalso.
    destruct (visits_source _ _ _ b e Hinfos) as [Hb Hi].
    destruct Hb as [Hbefore|(x & Hx & Hkx & Hbuf)]; [done|by apply Hnone in Hbefore|].
    destruct Hi as [Hbefore|(y & Hy & Hky & Himg & _)];
      [by eexists|by apply Hnone in Hbefore|].
    assert (x = y) as -> by (apply (NoDup_fmap_eq entry_key _ _ _ Hnd Hx Hy); congruence).
    congruence.
Qed.
End DescriptorSets.

(** ** From a bind call to the descriptor set *)

Section BindAndFlush.
Context `{!VkCommon, !ResourceCache}.

(** A resource bound at a declared set, where something else or nothing
    was bound before, makes the next flush resolve and bind that set. *)
Lemma bind_then_flush bp cb pl l set b e info :
  tracking_inv cb → resource_ok info →
  ps_pipeline_layout (pipeline_state cb) = Some pl →
  get_set_layout pl set = Some l →
  bound_resource cb set b e ≠ Some info →
  ∃ cb2 events rs1 infos,
    flush_descriptor_state bp
      (with_resource_binding_state
         (ResourceBindingState.bind info set b e (resource_binding_state cb)) cb)
      = Ok (cb2, events) ∧
    for_each visit (visited_entries l rs1) no_infos = Ok infos ∧
    binding_map_get b e (resource_bindings rs1) = Some info ∧
    bound_resource cb2 set b e = Some info ∧
    (∀ ev, ev ∈ bind_events bp cb pl set l infos → ev ∈ events).
Proof.
  intros Hinv Hinfo Hpl Hl Hchange.
  set (rs0 := default ResourceSet.empty (resource_sets (resource_binding_state cb) !! set)).
  set (rs1 := ResourceSet.bind info b e rs0).
  set (cb1 := with_resource_binding_state
                (ResourceBindingState.bind info set b e (resource_binding_state cb)) cb).
  assert (ResourceSet.changes info b e rs0 = true) as Hchanges.
  { unfold ResourceSet.changes. apply negb_true_iff, bool_decide_eq_false.
    intros Hget. apply Hchange. unfold bound_resource. subst rs0.
    destruct (resource_sets (resource_binding_state cb) !! set) as [rs|]; [done|].
    unfold binding_map_get in Hget. simpl in Hget. by rewrite lookup_empty in Hget. }
  assert (resource_sets (resource_binding_state cb1) !! set = Some rs1) as Hrs1.
  { subst cb1. simpl. by rewrite lookup_insert_eq. }
  assert (binding_map_get b e (resource_bindings rs1) = Some info) as Hget.
  { subst rs1. simpl. by rewrite binding_map_get_set. }
  assert (tracking_inv cb1) as Hinv1 by (by apply tracking_inv_bind).
  assert (ps_pipeline_layout (pipeline_state cb1) = Some pl) as Hpl1 by done.
  destruct (flush_descriptor_state_ok bp cb1) as [[cb2 events] Hflush];
    [by eexists|apply Hinv1|].
  assert (descriptor_work_needed pl cb1 = true) as Hwork.
  { unfold descriptor_work_needed, ResourceBindingState.is_dirty. subst cb1. simpl.
    fold rs0. rewrite Hchanges. by rewrite orb_true_r. }
  destruct (flush_descriptor_state_spec _ _ _ _ _ Hpl1 Hwork Hflush)
    as (_ & _ & Hsets & _ & Hevents).
  destruct (collect_infos_ok l rs1) as [infos Hinfos].
  { intros b' e' r. by apply (inv_bindings_ok cb1 Hinv1 set). }
  exists cb2, events, rs1, infos. split; [done|].
  split; [by rewrite <- collect_infos_visits|]. split; [done|]. split.
  - unfold bound_resource. rewrite Hsets, Hrs1. simpl.
    by destruct (needs_update _ set rs1).
  - intros ev Hev. rewrite Hevents. apply list_elem_of_bind. exists (set, rs1). split.
    + unfold set_events. simpl. rewrite Hl, Hinfos. done.
    + apply list_elem_of_filter. split; [|by apply elem_of_map_to_list].
      unfold resolves, needs_update, ResourceSet.is_dirty. simpl.
      rewrite Hchanges, orb_true_r. simpl.
      apply has_set_layout_true. by eexists.
Qed.

(** X13.  From [bind_buffer] to the descriptor set.  On a command buffer
    reached through the interface, with a pipeline layout whose set [set]
    declares the binding with a buffer descriptor type, binding a buffer
    region where it was not bound before makes the next descriptor flush
    return, request a descriptor set for the layout of the set and bind it
    at [set]: the request has, at the binding and array element, the handle
    of the buffer, its range, and its offset, or the offset zero when the
    type is a dynamic one, and it has no image there.  The region stays
    bound after the flush. *)
Theorem bound_buffer_reaches_descriptor_set bp cb pl l info buf off rng set b e :
  reachable cb →
  ps_pipeline_layout (pipeline_state cb) = Some pl →
  get_set_layout pl set = Some l →
  get_layout_binding l b = Some info →
  is_buffer_descriptor_type (descriptorType info) = true →
  bound_resource cb set b e ≠ Some (ResourceBindingState.buffer_info buf off rng) →
  ∃ cb1 cb2 events buffers images offsets,
    bind_buffer buf off rng set b e cb = Ok (cb1, []) ∧
    flush_descriptor_state bp cb1 = Ok (cb2, events) ∧
    call_request_descriptor_set l buffers images ∈ events ∧
    vkCmdBindDescriptorSets (handle cb) bp (pl_handle pl) set
      [request_descriptor_set l buffers images]
      (to_u32 (N.of_nat (length offsets))) offsets ∈ events ∧
    binding_map_get b e buffers
      = Some {| bi_buffer := buffer_handle buf;
                bi_offset := if is_dynamic_buffer_descriptor_type (descriptorType info)
                             then 0 else off;
                bi_range := rng |} ∧
    binding_map_get b e images = None ∧
    bound_resource cb2 set b e = Some (ResourceBindingState.buffer_info buf off rng).
Proof.
  intros Hinv%reachable_tracking Hpl Hl Hinfo Htype Hchange.
  destruct (bind_then_flush bp cb pl l set b e (ResourceBindingState.buffer_info buf off rng))
    as (cb2 & events & rs1 & infos & Hflush & Hinfos & Hget & Hbound & Hevents);
    [done|by intros [? ?]|done..|].
  set (x := {| entry_binding_info := info; entry_binding := b; entry_element := e;
               entry_resource := ResourceBindingState.buffer_info buf off rng |}).
  assert (x ∈ visited_entries l rs1) as Hx by (by apply elem_of_visited_entries).
  assert (is_buffer_entry x = true) as Hbuffer.
  { unfold is_buffer_entry. simpl. by rewrite Htype. }
  destruct (visits_buffer _ _ _ x Hinfos (visited_entries_NoDup l rs1) Hx Hbuffer)
    as (buf' & [= <-] & Hrecord).
  eexists _, cb2, events, (buffer_infos infos), (image_infos infos), (dynamic_offsets infos).
  split; [done|]. split; [done|].
  split; [apply Hevents; by left|].
  split; [apply Hevents; right; by left|].
  split; [done|]. split; [|done].
  destruct (binding_map_get b e (image_infos infos)) as [ii|] eqn:Hii; [|done].
  exfalso. destruct (visits_source _ _ _ b e Hinfos) as [_ Hi].
  destruct Hi as [[? Hbefore]|(y & Hy & Hky & Himg & _)]; [by eexists|done|].
  assert (x = y) as <-; [|congruence].
  by apply (NoDup_fmap_eq entry_key _ _ _ (visited_entries_NoDup l rs1) Hx Hy).
Qed.

(** X14.  From [bind_image] and [bind_input] to the descriptor set.  The
    two calls differ in the sampler only.  With the binding declared with
    a type that has an image layout for the view (a combined image
    sampler, an input attachment or a storage image), binding a view where
    it was not bound before makes the next descriptor flush return and
    request and bind a descriptor set that has, at the binding and array
    element, the handle of the view, that image layout, and the handle of
    the sampler for [bind_image] and [VK_NULL_HANDLE] for [bind_input]; it
    has no buffer there. *)
Theorem bound_image_reaches_descriptor_set bp cb pl l info v s layout set b e :
  reachable cb →
  ps_pipeline_layout (pipeline_state cb) = Some pl →
  get_set_layout pl set = Some l →
  get_layout_binding l b = Some info →
  image_layout_for (descriptorType info) v = Some layout →
  bound_resource cb set b e
    ≠ Some (match s with
            | Some s => ResourceBindingState.image_info v s
            | None => ResourceBindingState.input_info v
            end) →
  ∃ cb1 cb2 events buffers images offsets,
    match s with
    | Some s => bind_image v s set b e cb
    | None => bind_input v set b e cb
    end = Ok (cb1, []) ∧
    flush_descriptor_state bp cb1 = Ok (cb2, events) ∧
    call_request_descriptor_set l buffers images ∈ events ∧
    vkCmdBindDescriptorSets (handle cb) bp (pl_handle pl) set
      [request_descriptor_set l buffers images]
      (to_u32 (N.of_nat (length offsets))) offsets ∈ events ∧
    binding_map_get b e images
      = Some {| ii_sampler := match s with
                              | Some s => sampler_handle s
                              | None => VK_NULL_HANDLE
                              end;
                ii_imageView := image_view_handle v;
                ii_imageLayout := layout |} ∧
    binding_map_get b e buffers = None.
Proof.
  intros Hinv%reachable_tracking Hpl Hl Hinfo Hlayout Hchange.
  set (r := match s with
            | Some s => ResourceBindingState.image_info v s
            | None => ResourceBindingState.input_info v
            end) in *.
  assert (buffer r = None ∧ image_view r = Some v ∧ sampler r = s) as (Hnobuf & Hview & Hs).
  { subst r. by destruct s. }
  destruct (bind_then_flush bp cb pl l set b e r)
    as (cb2 & events & rs1 & infos & Hflush & Hinfos & Hget & Hbound & Hevents);
    [done|intros _; rewrite Hview; by eexists|done..|].
  set (x := {| entry_binding_info := info; entry_binding := b; entry_element := e;
               entry_resource := r |}).
  assert (x ∈ visited_entries l rs1) as Hx by (by apply elem_of_visited_entries).
  assert (is_buffer_entry x = false) as Himage.
  { unfold is_buffer_entry. simpl. rewrite Hnobuf. done. }
  pose proof (visits_image _ _ _ x v Hinfos (visited_entries_NoDup l rs1) Hx Himage Hview)
    as Hrecord.
  simpl in Hrecord. rewrite Hlayout, Hs in Hrecord. specialize (Hrecord eq_refl).
  exists (with_resource_binding_state
            (ResourceBindingState.bind r set b e (resource_binding_state cb)) cb),
    cb2, events, (buffer_infos infos), (image_infos infos), (dynamic_offsets infos).
  split; [subst r; by destruct s|]. split; [done|].
  split; [apply Hevents; by left|].
  split; [apply Hevents; right; by left|].
  split; [rewrite Hrecord; by destruct s|].
  destruct (binding_map_get b e (buffer_infos infos)) as [bi|] eqn:Hbi; [|done].
  exfalso. destruct (visits_source _ _ _ b e Hinfos) as [Hb _].
  destruct Hb as [[? Hbefore]|(y & Hy & Hky & Hbuf)]; [by eexists|done|].
  assert (x = y) as <-; [|congruence].
  by apply (NoDup_fmap_eq entry_key _ _ _ (visited_entries_NoDup l rs1) Hx Hy).
Qed.
End BindAndFlush.

(** ** Draws and dispatches in a row *)

Section SteadyState.
Context `{!VkCommon, !ResourceCache}.

Lemma with_pipeline_state_eta cb : with_pipeline_state (pipeline_state cb) cb = cb.
Proof. by destruct cb. Qed.

(** The pipeline flush looks at the pipeline state, the current render
    pass and the handle only. *)
Lemma flush_pipeline_state_congr bp cb c :
  pipeline_state c = pipeline_state cb →
  current_render_pass c = current_render_pass cb →
  handle c = handle cb →
  flush_pipeline_state bp c =
    match flush_pipeline_state bp cb with
    | Ok (cb', events) => Ok (with_pipeline_state (pipeline_state cb') c, events)
    | Fault err => Fault err
    end.
Proof.
  intros Hps Hrp Hh. unfold flush_pipeline_state, get_handle. rewrite Hps, Hrp, Hh.
  destruct (negb _).
  { by rewrite <- Hps, with_pipeline_state_eta. }
  repeat case_bool_decide; [| |done].
  - destruct (deref_render_pass _); simpl; [|done]. by rewrite <- Hps.
  - by rewrite <- Hps.
Qed.

(** The descriptor flush looks at the pipeline layout, the binding state,
    the bound layouts and the handle only. *)
Lemma flush_descriptor_state_congr bp cb c :
  ps_pipeline_layout (pipeline_state c) = ps_pipeline_layout (pipeline_state cb) →
  resource_binding_state c = resource_binding_state cb →
  descriptor_set_layout_state c = descriptor_set_layout_state cb →
  handle c = handle cb →
  flush_descriptor_state bp c =
    match flush_descriptor_state bp cb with
    | Ok (cb', events) =>
        Ok (with_tracking (pipeline_state c) (resource_binding_state cb')
              (descriptor_set_layout_state cb') c, events)
    | Fault err => Fault err
    end.
Proof.
  intros Hpl Hrbs Hdsls Hh.
  unfold flush_descriptor_state, PipelineState.get_pipeline_layout.
  rewrite Hpl, Hrbs, Hdsls.
  destruct (ps_pipeline_layout (pipeline_state cb)) as [pl|]; [|done]. simpl.
  destruct (_ || _); [|done].
  match goal with |- context [for_each (flush_set bp c pl ?U) ?l ?s] =>
    rewrite (for_each_ext (flush_set bp c pl U) (flush_set bp cb pl U) l s) end.
  - by destruct (for_each _ _ _) as [[[? ?] ?]|].
  - intros [set rs] [[rbs dsls] events] _.
    unfold flush_set, bind_events, get_handle. by rewrite Hh.
Qed.

Lemma flush_descriptor_state_shape bp cb cb' events :
  flush_descriptor_state bp cb = Ok (cb', events) →
  pipeline_state cb' = pipeline_state cb ∧
  current_render_pass cb' = current_render_pass cb ∧
  handle cb' = handle cb.
Proof.
  unfold flush_descriptor_state. intros Hflush.
  destruct (PipelineState.get_pipeline_layout _); [|done]. simpl in Hflush.
  destruct (_ || _); [|by injection Hflush as <- <-].
  destruct (for_each _ _ _) as [[[? ?] ?]|]; [|done]. by injection Hflush as <- <-.
Qed.

(** After a pipeline flush that returned, the next one returns and leaves
    the pipeline state clean; it requests a pipeline, one, when the first
    flush left the state dirty, which only the graphics flush does. *)
Lemma flush_pipeline_state_again bp cb ca ea :
  flush_pipeline_state bp cb = Ok (ca, ea) →
  ∃ ps2 e2,
    flush_pipeline_state bp ca = Ok (with_pipeline_state ps2 ca, e2) ∧
    ps_dirty ps2 = false ∧
    ps_pipeline_layout ps2 = ps_pipeline_layout (pipeline_state ca) ∧
    (e2 = [] ∨
     (bp = VK_PIPELINE_BIND_POINT_GRAPHICS ∧
      e2 = [call_request_graphics_pipeline ps2;
            vkCmdBindPipeline (handle cb) bp (request_graphics_pipeline ps2)])) ∧
    (bp = VK_PIPELINE_BIND_POINT_COMPUTE → e2 = [] ∧ ps2 = pipeline_state ca) ∧
    handle ca = handle cb ∧
    current_render_pass ca = current_render_pass cb.
Proof.
  intros Hflush.
  assert (∀ ps c, with_pipeline_state ps (with_pipeline_state ps c) = with_pipeline_state ps c)
    as Hidem by done.
  destruct (ps_dirty (pipeline_state cb)) eqn:Hdirty; cycle 1.
  { rewrite flush_pipeline_state_clean in Hflush by done. injection Hflush as <- <-.
    exists (pipeline_state cb), []. rewrite with_pipeline_state_eta.
    split; [by apply flush_pipeline_state_clean|]. split; [done|]. split; [done|].
    split; [by left|done]. }
  unfold flush_pipeline_state in Hflush. unfold PipelineState.is_dirty in Hflush.
  rewrite Hdirty in Hflush. simpl in Hflush.
  destruct (decide (bp = VK_PIPELINE_BIND_POINT_GRAPHICS)) as [->|Hg].
  - simpl in Hflush. unfold deref_render_pass in Hflush.
    destruct (render_pass (current_render_pass cb)) as [rp|] eqn:Hrp; [|done].
    simpl in Hflush. injection Hflush as <- <-.
    set (ps1 := PipelineState.set_render_pass rp
                  (PipelineState.clear_dirty (pipeline_state cb))).
    assert (PipelineState.same_render_pass (ps_render_pass ps1) rp = true) as Hsame.
    { subst ps1. unfold PipelineState.set_render_pass.
      destruct (PipelineState.same_render_pass
                  (ps_render_pass (PipelineState.clear_dirty (pipeline_state cb))) rp)
        eqn:Hsame; [done|].
      simpl. by apply bool_decide_eq_true_2. }
    destruct (ps_dirty ps1) eqn:Hd1; cycle 1.
    { exists ps1, []. rewrite Hidem.
      split; [by apply flush_pipeline_state_clean|]. split; [done|]. split; [done|].
      split; [by left|done]. }
    eexists (PipelineState.clear_dirty ps1), _. split.
    { unfold flush_pipeline_state, PipelineState.is_dirty, deref_render_pass.
      cbn [pipeline_state with_pipeline_state with_tracking current_render_pass].
      rewrite Hd1, Hrp. simpl. unfold PipelineState.set_render_pass.
      change (ps_render_pass (PipelineState.clear_dirty ps1)) with (ps_render_pass ps1).
      rewrite Hsame. done. }
    split; [done|]. split; [done|]. split; [right; by split|]. done.
  - rewrite (bool_decide_eq_false_2 (bp = VK_PIPELINE_BIND_POINT_GRAPHICS)) in Hflush by done.
    case_bool_decide as Hc; [|done]. subst bp. injection Hflush as <- <-.
    exists (PipelineState.clear_dirty (pipeline_state cb)), [].
    rewrite Hidem.
    split; [by apply flush_pipeline_state_clean|]. split; [done|]. split; [done|].
    split; [by left|done].
Qed.

(** The three steps that every draw and dispatch function takes, taken
    again: the second time no descriptor set is requested or bound, and
    from the third time on only the command itself is recorded. *)
Lemma flush_again bp last last2 last3 cb cb1 e1 :
  flush bp last cb = Ok (cb1, e1) →
  ∃ cb2 e2,
    flush bp last2 cb1 = Ok (cb2, e2 ++ [last2]) ∧
    (e2 = [] ∨
     (bp = VK_PIPELINE_BIND_POINT_GRAPHICS ∧
      e2 = [call_request_graphics_pipeline (pipeline_state cb2);
            vkCmdBindPipeline (handle cb) bp
              (request_graphics_pipeline (pipeline_state cb2))])) ∧
    (bp = VK_PIPELINE_BIND_POINT_COMPUTE → e2 = [] ∧ cb2 = cb1) ∧
    flush bp last3 cb2 = Ok (cb2, [last3]) ∧
    handle cb1 = handle cb ∧ handle cb2 = handle cb.
Proof.
  unfold flush at 1. intros Hflush.
  destruct (flush_pipeline_state bp cb) as [[ca ea]|] eqn:Hpipeline; [|done].
  simpl in Hflush.
  destruct (flush_descriptor_state bp ca) as [[cb1' eb]|] eqn:Hdescriptor; [|done].
  simpl in Hflush. injection Hflush as -> <-.
  destruct (flush_pipeline_state_again _ _ _ _ Hpipeline)
    as (ps2 & e2 & Hagain & Hclean & Hpl & He2 & Hcompute & Hh & Hrp).
  destruct (flush_descriptor_state_shape _ _ _ _ Hdescriptor) as (Hps1 & Hrp1 & Hh1).
  pose proof (flush_descriptor_state_again bp bp _ _ _ Hdescriptor) as Hidle.
  set (cb2 := with_pipeline_state ps2 cb1).
  assert (flush_pipeline_state bp cb1 = Ok (cb2, e2)) as Hstep1.
  { rewrite (flush_pipeline_state_congr bp ca cb1), Hagain by done. done. }
  assert (flush_descriptor_state bp cb2 = Ok (cb2, [])) as Hstep2.
  { rewrite (flush_descriptor_state_congr bp cb1 cb2), Hidle; try done.
    simpl. by rewrite Hpl, Hps1. }
  exists cb2, e2. split.
  { unfold flush. rewrite Hstep1. simpl. rewrite Hstep2. done. }
  split; [done|]. split.
  { intros Hc. destruct (Hcompute Hc) as [-> ->]. split; [done|].
    subst cb2. by rewrite <- Hps1, with_pipeline_state_eta. }
  split.
  { unfold flush. rewrite flush_pipeline_state_clean by done. simpl.
    rewrite Hstep2. done. }
  split; [congruence|]. simpl. congruence.
Qed.

(** X15.  A second dispatch right after a dispatch that returned records
    its dispatch command and nothing else: no pipeline and no descriptor
    set is requested or bound again, and the command buffer is left as
    the first dispatch left it.  The same holds of [dispatch_indirect]
    after it. *)
Theorem dispatch_again_records_the_dispatch_only x y z x' y' z' b off cb cb1 events1 :
  dispatch x y z cb = Ok (cb1, events1) →
  dispatch x' y' z' cb1 = Ok (cb1, [vkCmdDispatch (handle cb) x' y' z']) ∧
  dispatch_indirect b off cb1
    = Ok (cb1, [vkCmdDispatchIndirect (handle cb) (buffer_handle b) off]).
Proof.
  intros Hfirst. unfold dispatch, dispatch_indirect, get_handle in *.
  split.
  - destruct (flush_again _ _ (vkCmdDispatch (handle cb1) x' y' z')
                (vkCmdDispatch (handle cb1) x' y' z') _ _ _ Hfirst)
      as (cb2 & e2 & Hsecond & _ & Hcompute & _ & Hh & _).
    destruct Hcompute as [-> ->]; [done|]. by rewrite <- Hh.
  - destruct (flush_again _ _ (vkCmdDispatchIndirect (handle cb1) (buffer_handle b) off)
                (vkCmdDispatchIndirect (handle cb1) (buffer_handle b) off) _ _ _ Hfirst)
      as (cb2 & e2 & Hsecond & _ & Hcompute & _ & Hh & _).
    destruct Hcompute as [-> ->]; [done|]. by rewrite <- Hh.
Qed.

(** X16.  Draws in a row settle at the third.  After a draw that
    returned, the next draw returns as well and requests and binds no
    descriptor set; before its draw command it records nothing, or one
    pipeline request with the bind of that pipeline.  Every draw after
    that records its draw command only and leaves the command buffer as it
    is. *)
Theorem third_draw_records_the_draw_only
    vertex_count instance_count first_vertex first_instance
    vertex_count2 instance_count2 first_vertex2 first_instance2
    vertex_count3 instance_count3 first_vertex3 first_instance3 cb cb1 events1 :
  draw vertex_count instance_count first_vertex first_instance cb = Ok (cb1, events1) →
  ∃ cb2 events2,
    draw vertex_count2 instance_count2 first_vertex2 first_instance2 cb1
      = Ok (cb2, events2 ++
                 [vkCmdDraw (handle cb) vertex_count2 instance_count2
                    first_vertex2 first_instance2]) ∧
    (events2 = [] ∨
     events2 = [call_request_graphics_pipeline (pipeline_state cb2);
                vkCmdBindPipeline (handle cb) VK_PIPELINE_BIND_POINT_GRAPHICS
                  (request_graphics_pipeline (pipeline_state cb2))]) ∧
    draw vertex_count3 instance_count3 first_vertex3 first_instance3 cb2
      = Ok (cb2, [vkCmdDraw (handle cb) vertex_count3 instance_count3
                    first_vertex3 first_instance3]).
Proof.
  intros Hfirst. unfold draw, get_handle in *.
  destruct (flush_again _ _
              (vkCmdDraw (handle cb) vertex_count2 instance_count2
                 first_vertex2 first_instance2)
              (vkCmdDraw (handle cb) vertex_count3 instance_count3
                 first_vertex3 first_instance3) _ _ _ Hfirst)
    as (cb2 & e2 & Hsecond & He2 & _ & Hthird & Hh1 & Hh2).
  exists cb2, e2. rewrite Hh1, Hh2. split; [done|]. split; [|done].
  destruct He2 as [?|[_ ?]]; [by left|by right].
Qed.
End SteadyState.

(** ** The interface as a whole *)

Section InterfaceMore.
Context `{!VkCommon, !ResourceCache}.

Lemma flush_pipeline_state_result bp cb cb' events :
  flush_pipeline_state bp cb = Ok (cb', events) →
  cb' = with_pipeline_state (pipeline_state cb') cb ∧
  ∀ e cmd, e ∈ events → event_command_buffer e = Some cmd → cmd = handle cb.
Proof.
  unfold flush_pipeline_state. intros Hflush.
  destruct (negb _).
  { injection Hflush as <- <-. split; [by rewrite with_pipeline_state_eta|].
    intros e cmd He. by apply elem_of_nil in He. }
  repeat case_bool_decide; [| |done].
  - destruct (deref_render_pass _); simpl in Hflush; [|done].
    injection Hflush as <- <-. split; [done|].
    intros e cmd He. rewrite !elem_of_cons, elem_of_nil in He.
    destruct He as [->|[->|[]]]; simpl; unfold get_handle; congruence.
  - injection Hflush as <- <-. split; [done|].
    intros e cmd He. rewrite !elem_of_cons, elem_of_nil in He.
    destruct He as [->|[->|[]]]; simpl; unfold get_handle; congruence.
Qed.

Lemma flush_descriptor_state_result bp cb cb' events :
  flush_descriptor_state bp cb = Ok (cb', events) →
  cb' = with_tracking (pipeline_state cb) (resource_binding_state cb')
          (descriptor_set_layout_state cb') cb ∧
  ∀ e cmd, e ∈ events → event_command_buffer e = Some cmd → cmd = handle cb.
Proof.
  intros Hflush. split.
  - revert Hflush. unfold flush_descriptor_state.
    destruct (PipelineState.get_pipeline_layout _); [|done]. simpl.
    destruct (_ || _); [|by intros [= <- <-]].
    destruct (for_each _ _ _) as [[[? ?] ?]|]; [|done]. by intros [= <- <-].
  - intros e cmd He.
    destruct (flush_descriptor_state_events _ _ _ _ _ Hflush He)
      as (pl & set & rs & l & infos & _ & _ & _ & _ & Hbind & _).
    unfold bind_events, get_handle in Hbind. rewrite !elem_of_cons, elem_of_nil in Hbind.
    destruct Hbind as [->|[->|[]]]; simpl; congruence.
Qed.

Lemma flush_result bp last cb cb' events :
  flush bp last cb = Ok (cb', events) →
  event_command_buffer last = Some (handle cb) →
  cb' = with_tracking (pipeline_state cb') (resource_binding_state cb')
          (descriptor_set_layout_state cb') cb ∧
  ∀ e cmd, e ∈ events → event_command_buffer e = Some cmd → cmd = handle cb.
Proof.
  unfold flush. intros Hflush Hlast.
  destruct (flush_pipeline_state bp cb) as [[c1 e1]|] eqn:H1; [|done]. simpl in Hflush.
  destruct (flush_descriptor_state bp c1) as [[c2 e2]|] eqn:H2; [|done]. simpl in Hflush.
  injection Hflush as <- <-.
  destruct (flush_pipeline_state_result _ _ _ _ H1) as [Hc1 He1].
  destruct (flush_descriptor_state_result _ _ _ _ H2) as [Hc2 He2].
  assert (handle c1 = handle cb) as Hh by (by rewrite Hc1).
  split.
  - rewrite Hc2 at 1. rewrite Hc1 at 2. simpl. by rewrite Hc2.
  - intros e cmd. rewrite !elem_of_app, list_elem_of_singleton.
    intros [?|[?| ->]]; [by eapply He1|rewrite <- Hh; by eapply He2|congruence].
Qed.

(** What a call leaves of the identity of the command buffer, and where
    its commands go. *)
Lemma call_handle op cb cb' events :
  call op cb = Ok (cb', events) →
  handle cb' = handle cb ∧ level cb' = level cb ∧
  pool_reset_mode cb' = pool_reset_mode cb ∧
  ∀ e cmd, e ∈ events → event_command_buffer e = Some cmd → cmd = handle cb.
Proof.
  assert (∀ (l : list Event) (h : N),
            Forall (λ e, ∀ cmd, event_command_buffer e = Some cmd → cmd = h) l →
            ∀ e cmd, e ∈ l → event_command_buffer e = Some cmd → cmd = h) as Hall.
  { intros l h Hl e cmd He. rewrite Forall_forall in Hl. by apply Hl. }
  assert (∀ bp last, event_command_buffer last = Some (handle cb) →
            flush bp last cb = Ok (cb', events) →
            handle cb' = handle cb ∧ level cb' = level cb ∧
            pool_reset_mode cb' = pool_reset_mode cb ∧
            ∀ e cmd, e ∈ events → event_command_buffer e = Some cmd → cmd = handle cb)
    as Hflush.
  { intros bp last Hlast Hrun.
    destruct (flush_result _ _ _ _ _ Hrun Hlast) as [Hcb' He]. by rewrite Hcb'. }
  intros Hcall. destruct op; simpl in Hcall;
    unfold end_render_pass, bind_pipeline_layout, set_specialization_constant,
      set_state_block, set_color_blend_state, bind_buffer, bind_image, bind_input,
      pass_through, draw, draw_indexed, draw_indexed_indirect, dispatch,
      dispatch_indirect, get_handle in Hcall;
    try (eapply Hflush; [|exact Hcall]; done);
    try (injection Hcall as <- <-; repeat (split; [done|]); apply Hall;
         repeat constructor; simpl; congruence).
  - (* begin *)
    unfold begin, drop_result, c_assert in Hcall.
    destruct (is_recording cb); simpl in Hcall.
    { rewrite orb_false_r in Hcall. destruct ndebug; simpl in Hcall; [|done].
      injection Hcall as <- <-. repeat (split; [done|]). by apply Hall. }
    rewrite orb_true_r in Hcall. simpl in Hcall.
    destruct (level cb) eqn:Hlevel; simpl in Hcall.
    + injection Hcall as <- <-. repeat (split; [done|]). apply Hall.
      repeat constructor; simpl; congruence.
    + destruct primary_cmd_buf as [primary|]; simpl in Hcall; cycle 1.
      { rewrite orb_false_r in Hcall. by destruct ndebug. }
      rewrite orb_true_r in Hcall. simpl in Hcall.
      destruct (deref_render_pass _); simpl in Hcall; [|done].
      destruct (deref_framebuffer _); simpl in Hcall; [|done].
      injection Hcall as <- <-. repeat (split; [done|]). apply Hall.
      repeat constructor; simpl; congruence.
  - (* end *)
    unfold end_, drop_result, c_assert, get_handle in Hcall.
    destruct (ndebug || is_recording cb); simpl in Hcall; [|done].
    destruct (negb _); injection Hcall as <- <-; repeat (split; [done|]); apply Hall;
      repeat constructor; simpl; congruence.
  - (* reset *)
    unfold reset, drop_result, c_assert in Hcall.
    destruct (ndebug || _); simpl in Hcall; [|done].
    case_bool_decide; injection Hcall as <- <-; repeat (split; [done|]); apply Hall;
      repeat constructor; simpl; congruence.
  - (* begin_render_pass *)
    unfold begin_render_pass, get_handle in Hcall.
    destruct (get_color_output_count _ _); [|done].
    injection Hcall as <- <-. repeat (split; [done|]). apply Hall.
    repeat constructor; simpl; congruence.
  - (* next_subpass *)
    unfold next_subpass, get_handle in Hcall.
    destruct (deref_render_pass _); simpl in Hcall; [|done].
    destruct (get_color_output_count _ _); [|done].
    injection Hcall as <- <-. repeat (split; [done|]). apply Hall.
    repeat constructor; simpl; congruence.
  - (* push_constants *)
    unfold push_constants, get_handle in Hcall.
    destruct (PipelineState.get_pipeline_layout _); simpl in Hcall; [|done].
    case_bool_decide; injection Hcall as <- <-; repeat (split; [done|]); apply Hall;
      repeat constructor; simpl; congruence.
Qed.

(** X17.  A command buffer records into its own handle only.  Whatever
    sequence of calls is made on it, the ones that return leave its
    handle, its level and the reset mode of its pool as they were, and
    every Vulkan command recorded on the way is recorded into that
    handle. *)
Theorem commands_go_to_the_own_handle ops cb cb' events :
  run ops cb = Ok (cb', events) →
  handle cb' = handle cb ∧ level cb' = level cb ∧
  pool_reset_mode cb' = pool_reset_mode cb ∧
  ∀ e cmd, e ∈ events → event_command_buffer e = Some cmd → cmd = handle cb.
Proof.
  revert cb events. induction ops as [|op ops IH]; intros cb events Hrun.
  - injection Hrun as <- <-. repeat (split; [done|]).
    intros e cmd He. by apply elem_of_nil in He.
  - simpl in Hrun. destruct (call op cb) as [[cb1 e1]|] eqn:Hcall; [|done].
    simpl in Hrun. destruct (run ops cb1) as [[cb2 e2]|] eqn:Hrest; [|done].
    simpl in Hrun. injection Hrun as <- <-.
    destruct (call_handle _ _ _ _ Hcall) as (Hh1 & Hl1 & Hm1 & He1).
    destruct (IH _ _ Hrest) as (Hh2 & Hl2 & Hm2 & He2).
    split; [congruence|]. split; [congruence|]. split; [congruence|].
    intros e cmd [?|?]%elem_of_app; [by eapply He1|]. rewrite <- Hh1. by eapply He2.
Qed.

(** The draw and dispatch functions do not look at the recording state. *)
Lemma flush_with_state bp last s cb :
  flush bp last (with_state s cb) =
    match flush bp last cb with
    | Ok (cb', events) => Ok (with_state s cb', events)
    | Fault err => Fault err
    end.
Proof.
  unfold flush.
  rewrite (flush_pipeline_state_congr bp cb (with_state s cb)) by done.
  destruct (flush_pipeline_state bp cb) as [[c1 e1]|] eqn:H1; [|done]. simpl.
  destruct (flush_pipeline_state_result _ _ _ _ H1) as [Hc1 _].
  rewrite (flush_descriptor_state_congr bp c1 (with_pipeline_state _ (with_state s cb)));
    [|simpl; by rewrite Hc1..].
  destruct (flush_descriptor_state bp c1) as [[c2 e2]|] eqn:H2; [|done]. simpl.
  destruct (flush_descriptor_state_result _ _ _ _ H2) as [Hc2 _].
  remember (resource_binding_state c2) as rbs eqn:Hrbs.
  remember (descriptor_set_layout_state c2) as dsls eqn:Hdsls.
  remember (pipeline_state c1) as ps eqn:Hps.
  by rewrite Hc2, Hc1.
Qed.

(** X18.  Only [begin], [end] and [reset] look at the recording state.
    Every other call does on a command buffer in any state, recording or
    not, what it does in any other state: it fails or returns alike,
    records the same Vulkan commands and makes the same requests, changes
    the tracked state alike, and leaves the recording state as it is.
    So a draw, a bind or a render-pass command on a command buffer that is
    not recording is not refused. *)
Theorem recording_calls_ignore_the_state op s cb :
  is_lifecycle op = false →
  call op (with_state s cb) =
    match call op cb with
    | Ok (cb', events) => Ok (with_state s cb', events)
    | Fault err => Fault err
    end.
Proof.
  intros Hop. destruct op; try done; simpl;
    unfold draw, draw_indexed, draw_indexed_indirect, dispatch, dispatch_indirect, get_handle;
    try apply flush_with_state.
  - unfold begin_render_pass. simpl. by destruct (get_color_output_count _ _).
  - unfold next_subpass. simpl.
    destruct (deref_render_pass _); simpl; [|done].
    by destruct (get_color_output_count _ _).
  - unfold push_constants. simpl.
    destruct (PipelineState.get_pipeline_layout _); simpl; [|done].
    by case_bool_decide.
Qed.

(** X19.  A changed fixed-function state reaches the next pipeline.  In a
    render pass, setting a state block to a value it does not have makes
    the next graphics pipeline flush return, request one graphics pipeline
    and bind it; the pipeline state of the request has the new value in
    that block, the other blocks as they were, and a render pass with the
    handle of the current one, and it is the pipeline state that the
    command buffer is left with. *)
Theorem changed_state_block_reaches_pipeline_request b v cb rp :
  PipelineState.get_block b (pipeline_state cb) ≠ v →
  render_pass (current_render_pass cb) = Some rp →
  ∃ cb1 cb2 ps stored,
    set_state_block b v cb = Ok (cb1, []) ∧
    flush_pipeline_state VK_PIPELINE_BIND_POINT_GRAPHICS cb1
      = Ok (cb2, [call_request_graphics_pipeline ps;
                  vkCmdBindPipeline (handle cb) VK_PIPELINE_BIND_POINT_GRAPHICS
                    (request_graphics_pipeline ps)]) ∧
    pipeline_state cb2 = ps ∧
    PipelineState.get_block b ps = v ∧
    (∀ b', b' ≠ b → PipelineState.get_block b' ps
                    = PipelineState.get_block b' (pipeline_state cb)) ∧
    ps_pipeline_layout ps = ps_pipeline_layout (pipeline_state cb) ∧
    ps_render_pass ps = Some stored ∧ rp_handle stored = rp_handle rp.
Proof.
  intros Hchange Hrp.
  set (ps1 := PipelineState.set_block b v (pipeline_state cb)).
  assert (ps_dirty ps1 = true ∧ PipelineState.get_block b ps1 = v ∧
          (∀ b', b' ≠ b → PipelineState.get_block b' ps1
                          = PipelineState.get_block b' (pipeline_state cb)) ∧
          ps_pipeline_layout ps1 = ps_pipeline_layout (pipeline_state cb))
    as (Hdirty & Hblock & Hothers & Hpl).
  { subst ps1. unfold PipelineState.set_block.
    rewrite bool_decide_eq_false_2 by done.
    split; [done|]. split; [by destruct b|]. split; [|done].
    intros b' Hne. by destruct b, b'. }
  set (ps := PipelineState.set_render_pass rp (PipelineState.clear_dirty ps1)).
  assert ((∀ b', PipelineState.get_block b' ps = PipelineState.get_block b' ps1) ∧
          ps_pipeline_layout ps = ps_pipeline_layout ps1 ∧
          ∃ stored, ps_render_pass ps = Some stored ∧ rp_handle stored = rp_handle rp)
    as (Hblocks & Hpl' & stored & Hstored & Hhandle).
  { subst ps. unfold PipelineState.set_render_pass.
    destruct (PipelineState.same_render_pass
                (ps_render_pass (PipelineState.clear_dirty ps1)) rp) eqn:Hsame.
    - split; [by intros []|]. split; [done|].
      unfold PipelineState.same_render_pass in Hsame.
      destruct (ps_render_pass (PipelineState.clear_dirty ps1)) as [stored|]; [|done].
      exists stored. split; [done|]. by apply bool_decide_eq_true in Hsame.
    - split; [by intros []|]. split; [done|]. by exists rp. }
  exists (with_pipeline_state ps1 cb), (with_pipeline_state ps (with_pipeline_state ps1 cb)),
    ps, stored.
  split; [done|]. split.
  { unfold flush_pipeline_state, PipelineState.is_dirty, deref_render_pass.
    cbn [pipeline_state with_pipeline_state with_tracking current_render_pass].
    rewrite Hdirty, Hrp. done. }
  split; [done|]. split; [by rewrite Hblocks|]. split.
  { intros b' Hne. rewrite Hblocks. by apply Hothers. }
  split; [congruence|done].
Qed.

End InterfaceMore.

(** ** Further worked examples *)

Section FurtherExamples.
#[local] Existing Instance Example.vk_common.
#[local] Existing Instance Example.resource_cache.

(** A fresh primary command buffer, recorded twice. *)
Lemma record_and_record_again_witness :
  state Example.fresh ≠ Recording ∧
  level Example.fresh = VK_COMMAND_BUFFER_LEVEL_PRIMARY ∧
  ∃ cb1 cb2 cb3,
    begin 0 None Example.fresh = Ok (VK_SUCCESS, cb1, [vkBeginCommandBuffer 7 0 None]) ∧
    end_ cb1 = Ok (VK_SUCCESS, cb2, [vkEndCommandBuffer 7]) ∧
    state cb2 = Executable ∧
    begin 1 None cb2 = Ok (VK_SUCCESS, cb3, [vkBeginCommandBuffer 7 1 None]) ∧
    state cb3 = Recording.
Proof.
  assert (state Example.fresh ≠ Recording) as Hstate by discriminate.
  split; [exact Hstate|]. split; [reflexivity|].
  destruct (record_and_record_again 0 1 Example.fresh Hstate)
    as (cb1 & cb2 & cb3 & Hbegin & Hend & Hexecutable & _ & _ & _ & _ & Hagain & Hrecording);
    [reflexivity|].
  exists cb1, cb2, cb3.
  split; [exact Hbegin|]. split; [exact Hend|]. split; [exact Hexecutable|].
  split; [exact Hagain|exact Hrecording].
Defined.

(** A reset in the middle of a recording, for a pool that is reset as a
    whole: no Vulkan call is made. *)
Lemma reset_then_begin_witness :
  ResetPool = pool_reset_mode (Example.after Example.ready_to_draw) ∧
  level (Example.after Example.ready_to_draw) = VK_COMMAND_BUFFER_LEVEL_PRIMARY ∧
  state (Example.after Example.ready_to_draw) = Recording ∧
  ∃ cb1 cb2,
    reset ResetPool VK_SUCCESS (Example.after Example.ready_to_draw)
      = Ok (VK_SUCCESS, cb1, []) ∧
    state cb1 = Initial ∧
    begin 0 None cb1 = Ok (VK_SUCCESS, cb2, [vkBeginCommandBuffer 7 0 None]) ∧
    state cb2 = Recording.
Proof.
  split; [reflexivity|]. split; [reflexivity|]. split; [reflexivity|].
  destruct (reset_then_begin ResetPool VK_SUCCESS 0 (Example.after Example.ready_to_draw))
    as (cb1 & cb2 & Hreset & Hinitial & _ & _ & _ & _ & Hbegin & Hrecording & _);
    [reflexivity|reflexivity|].
  exists cb1, cb2.
  split; [exact Hreset|]. split; [exact Hinitial|]. split; [exact Hbegin|exact Hrecording].
Defined.

(** A secondary command buffer begun from a primary one that is in its
    second subpass: subpass 0 is inherited.  And one begun from a primary
    one whose render pass has ended: the ended render pass is inherited. *)
Lemma secondary_begin_inherits_first_subpass_witness :
  level Scenario.secondary = VK_COMMAND_BUFFER_LEVEL_SECONDARY ∧
  state Scenario.secondary ≠ Recording ∧
  ps_subpass_index (pipeline_state (Example.after Scenario.in_second_subpass)) = 1 ∧
  is_Ok (run Scenario.render_pass_ended Example.fresh) ∧
  state (Example.after Scenario.render_pass_ended) = Executable ∧
  ∃ cb' cb'',
    begin 0 (Some (Example.after Scenario.in_second_subpass)) Scenario.secondary
      = Ok (VK_SUCCESS, cb', [vkBeginCommandBuffer 8 0 (Some (1, 2, 0))]) ∧
    state cb' = Recording ∧
    begin 0 (Some (Example.after Scenario.render_pass_ended)) Scenario.secondary
      = Ok (VK_SUCCESS, cb'', [vkBeginCommandBuffer 8 0 (Some (1, 2, 0))]) ∧
    state cb'' = Recording.
Proof.
  assert (state Scenario.secondary ≠ Recording) as Hstate by discriminate.
  split; [reflexivity|]. split; [exact Hstate|]. split; [reflexivity|].
  split; [eexists; vm_compute; reflexivity|]. split; [reflexivity|].
  destruct (secondary_begin_inherits_first_subpass 0
              (Some (Example.after Scenario.in_second_subpass)) Scenario.secondary)
    as (Hinherits & _ & _); [reflexivity|exact Hstate|].
  destruct (Hinherits (Example.after Scenario.in_second_subpass)
              {| rp_handle := 1; rp_color_output_count := [1; 2] |} {| fb_handle := 2 |})
    as (cb' & Hbegin & _ & Hrecording); [reflexivity|reflexivity|reflexivity|].
  destruct (secondary_begin_inherits_first_subpass 0
              (Some (Example.after Scenario.render_pass_ended)) Scenario.secondary)
    as (Hstale & _ & _); [reflexivity|exact Hstate|].
  destruct (Hstale (Example.after Scenario.render_pass_ended)
              {| rp_handle := 1; rp_color_output_count := [1; 2] |} {| fb_handle := 2 |})
    as (cb'' & Hbegin' & _ & Hrecording'); [reflexivity|reflexivity|reflexivity|].
  exists cb', cb''. split; [exact Hbegin|]. split; [exact Hrecording|].
  split; [exact Hbegin'|exact Hrecording'].
Defined.

(** A render pass begun with a pipeline layout bound and a buffer bound:
    both are gone afterwards. *)
Lemma begin_render_pass_starts_afresh_witness :
  is_Some (ps_pipeline_layout (pipeline_state (Example.after Example.two_dirty_sets))) ∧
  rbs_dirty (resource_binding_state (Example.after Example.two_dirty_sets)) = true ∧
  get_color_output_count {| rp_handle := 1; rp_color_output_count := [1; 2] |} 0 = Some 1 ∧
  ∃ cb',
    begin_render_pass Example.a_target [] [] VK_SUBPASS_CONTENTS_INLINE
      Example.two_subpasses (Example.after Example.two_dirty_sets)
      = Ok (cb',
            [call_request_render_pass [1; 2; 3] [] (subpass_info <$> Example.two_subpasses);
             call_request_framebuffer Example.a_target
               {| rp_handle := 1; rp_color_output_count := [1; 2] |};
             vkCmdBeginRenderPass 7 1 2 (640, 480) 0 [] VK_SUBPASS_CONTENTS_INLINE]) ∧
    ps_pipeline_layout (pipeline_state cb') = None ∧
    attachments (ps_color_blend_state (pipeline_state cb')) = [0] ∧
    ps_dirty (pipeline_state cb') = true ∧
    resource_binding_state cb' = ResourceBindingState.reset.
Proof.
  split; [eexists; reflexivity|]. split; [reflexivity|]. split; [reflexivity|].
  destruct (begin_render_pass_starts_afresh Example.a_target [] []
              VK_SUBPASS_CONTENTS_INLINE Example.two_subpasses
              (Example.after Example.two_dirty_sets)
              {| rp_handle := 1; rp_color_output_count := [1; 2] |} {| fb_handle := 2 |} 1)
    as (cb' & Hbegin & _ & _ & Hlayout & _ & _ & _ & Hattachments & Hdirty & Hrbs & _);
    [reflexivity|reflexivity|reflexivity|].
  exists cb'. split; [exact Hbegin|]. split; [exact Hlayout|].
  split; [exact Hattachments|]. split; [exact Hdirty|exact Hrbs].
Defined.

(** From subpass 0 to subpass 1 with a pipeline layout bound: the layout
    stays. *)
Lemma next_subpass_keeps_pipeline_state_witness :
  ps_subpass_index (pipeline_state (Example.after Example.ready_to_draw)) = 0 ∧
  render_pass (current_render_pass (Example.after Example.ready_to_draw))
    = Some {| rp_handle := 1; rp_color_output_count := [1; 2] |} ∧
  N.of_nat (length [1; 2]) < 2 ^ 32 ∧
  get_color_output_count {| rp_handle := 1; rp_color_output_count := [1; 2] |} (0 + 1)
    = Some 2 ∧
  ∃ cb' events,
    next_subpass (Example.after Example.ready_to_draw) = Ok (cb', events) ∧
    ps_dirty (pipeline_state cb') = true ∧
    ps_pipeline_layout (pipeline_state cb') = Some Example.layout_A.
Proof.
  split; [reflexivity|]. split; [reflexivity|]. split; [reflexivity|]. split; [reflexivity|].
  destruct (next_subpass_keeps_pipeline_state (Example.after Example.ready_to_draw)
              {| rp_handle := 1; rp_color_output_count := [1; 2] |} 0 2)
    as (cb' & events & Hnext & Hdirty & Hlayout & _);
    [reflexivity|reflexivity|reflexivity|reflexivity|].
  exists cb', events. split; [exact Hnext|]. split; [exact Hdirty|exact Hlayout].
Defined.

(** Three graphics pipeline flushes in a render pass. *)
Lemma flush_pipeline_state_settles_witness :
  ∃ cb1 events1 cb2 events2,
    flush_pipeline_state VK_PIPELINE_BIND_POINT_GRAPHICS
      (Example.after Example.ready_to_draw) = Ok (cb1, events1) ∧
    flush_pipeline_state VK_PIPELINE_BIND_POINT_GRAPHICS cb1 = Ok (cb2, events2) ∧
    ps_dirty (pipeline_state cb2) = false ∧
    flush_pipeline_state VK_PIPELINE_BIND_POINT_GRAPHICS cb2 = Ok (cb2, []).
Proof.
  destruct (flush_pipeline_state VK_PIPELINE_BIND_POINT_GRAPHICS
              (Example.after Example.ready_to_draw)) as [[cb1 events1]|err] eqn:Hfirst;
    [|vm_compute in Hfirst; discriminate].
  destruct (flush_pipeline_state_settles _ _ _ _ Hfirst)
    as (cb2 & events2 & Hsecond & Hclean & Hthird & _).
  exists cb1, events1, cb2, events2.
  split; [reflexivity|]. split; [exact Hsecond|]. split; [exact Hclean|exact Hthird].
Defined.

(** The flush of [Example.bound], and a graphics flush after it. *)
Lemma flush_descriptor_state_twice_witness :
  flush_descriptor_state VK_PIPELINE_BIND_POINT_COMPUTE Example.bound
    = Ok (Example.flush_state, Example.flush_events) ∧
  length Example.flush_events = 2%nat ∧
  flush_descriptor_state VK_PIPELINE_BIND_POINT_GRAPHICS Example.flush_state
    = Ok (Example.flush_state, []).
Proof.
  split; [reflexivity|]. split; [reflexivity|].
  apply (flush_descriptor_state_twice VK_PIPELINE_BIND_POINT_COMPUTE
           VK_PIPELINE_BIND_POINT_GRAPHICS Example.bound Example.flush_state
           Example.flush_events).
  reflexivity.
Defined.

Lemma flush_descriptor_state_settles_witness :
  reachable Example.bound ∧
  rbs_dirty (resource_binding_state Example.bound) = true ∧
  flush_descriptor_state VK_PIPELINE_BIND_POINT_COMPUTE Example.bound
    = Ok (Example.flush_state, Example.flush_events) ∧
  ∃ pl, ps_pipeline_layout (pipeline_state Example.flush_state) = Some pl ∧
        settled pl Example.flush_state.
Proof.
  assert (reachable Example.bound) as Hreach.
  { apply after_reachable. eexists. vm_compute. reflexivity. }
  split; [exact Hreach|]. split; [reflexivity|]. split; [reflexivity|].
  apply (flush_descriptor_state_settles VK_PIPELINE_BIND_POINT_COMPUTE Example.bound
           Example.flush_state Example.flush_events); [exact Hreach|reflexivity].
Defined.

Lemma flush_descriptor_state_keeps_bindings_witness :
  flush_descriptor_state VK_PIPELINE_BIND_POINT_COMPUTE Example.bound
    = Ok (Example.flush_state, Example.flush_events) ∧
  bound_resource Example.flush_state 0 1 0
    = Some (ResourceBindingState.image_info Example.a_depth_view Example.a_sampler) ∧
  pipeline_state Example.flush_state = pipeline_state Example.bound.
Proof.
  split; [reflexivity|].
  destruct (flush_descriptor_state_keeps_bindings VK_PIPELINE_BIND_POINT_COMPUTE
              Example.bound Example.flush_state Example.flush_events)
    as (Hbound & _ & Hps & _); [reflexivity|].
  split; [|exact Hps]. rewrite Hbound. reflexivity.
Defined.

(** The one descriptor set requested by the flush of [Example.bound]. *)
Lemma descriptor_set_holds_only_bound_resources_witness :
  flush_descriptor_state VK_PIPELINE_BIND_POINT_COMPUTE Example.bound
    = Ok (Example.flush_state, Example.flush_events) ∧
  call_request_descriptor_set Example.L2 Example.zeroed_buffer_infos
    Example.depth_image_infos ∈ Example.flush_events ∧
  binding_map_get 0 0 Example.depth_image_infos = None ∧
  binding_map_get 1 0 Example.zeroed_buffer_infos = None.
Proof.
  assert (call_request_descriptor_set Example.L2 Example.zeroed_buffer_infos
            Example.depth_image_infos ∈ Example.flush_events) as Hrequest.
  { vm_compute. apply list_elem_of_here. }
  split; [reflexivity|]. split; [exact Hrequest|].
  destruct (descriptor_set_holds_only_bound_resources VK_PIPELINE_BIND_POINT_COMPUTE
              Example.bound Example.flush_state Example.flush_events
              Example.L2 Example.zeroed_buffer_infos Example.depth_image_infos)
    as (pl & set & rs & _ & _ & _ & _ & _ & Hdisjoint); [reflexivity|exact Hrequest|].
  split; [apply Hdisjoint; eexists; reflexivity|reflexivity].
Defined.

(** A buffer bound at the dynamic uniform buffer binding of layout B, at
    offset 16. *)
Lemma bound_buffer_reaches_descriptor_set_witness :
  reachable (Example.after Scenario.layout_bound) ∧
  ∃ cb1 cb2 events buffers images,
    bind_buffer Example.a_buffer 16 256 0 0 0 (Example.after Scenario.layout_bound)
      = Ok (cb1, []) ∧
    flush_descriptor_state VK_PIPELINE_BIND_POINT_COMPUTE cb1 = Ok (cb2, events) ∧
    call_request_descriptor_set Example.L2 buffers images ∈ events ∧
    binding_map_get 0 0 buffers = Some {| bi_buffer := 31; bi_offset := 0; bi_range := 256 |}.
Proof.
  assert (reachable (Example.after Scenario.layout_bound)) as Hreach.
  { apply after_reachable. eexists. vm_compute. reflexivity. }
  split; [exact Hreach|].
  destruct (bound_buffer_reaches_descriptor_set VK_PIPELINE_BIND_POINT_COMPUTE
              (Example.after Scenario.layout_bound) Example.layout_B Example.L2
              (Example.uniform_binding 0 VK_DESCRIPTOR_TYPE_UNIFORM_BUFFER_DYNAMIC)
              Example.a_buffer 16 256 0 0 0)
    as (cb1 & cb2 & events & buffers & images & offsets & Hbind & Hflush & Hrequest & _ &
        Hrecord & _);
    [exact Hreach|reflexivity|reflexivity|reflexivity|reflexivity|vm_compute; discriminate|].
  exists cb1, cb2, events, buffers, images.
  split; [exact Hbind|]. split; [exact Hflush|]. split; [exact Hrequest|exact Hrecord].
Defined.

(** A depth image bound with a sampler at the combined image sampler
    binding of layout B. *)
Lemma bound_image_reaches_descriptor_set_witness :
  reachable (Example.after Scenario.layout_bound) ∧
  ∃ cb1 cb2 events buffers images,
    bind_image Example.a_depth_view Example.a_sampler 0 1 0
      (Example.after Scenario.layout_bound) = Ok (cb1, []) ∧
    flush_descriptor_state VK_PIPELINE_BIND_POINT_COMPUTE cb1 = Ok (cb2, events) ∧
    call_request_descriptor_set Example.L2 buffers images ∈ events ∧
    binding_map_get 1 0 images
      = Some {| ii_sampler := 41; ii_imageView := 52;
                ii_imageLayout := VK_IMAGE_LAYOUT_DEPTH_STENCIL_READ_ONLY_OPTIMAL |}.
Proof.
  assert (reachable (Example.after Scenario.layout_bound)) as Hreach.
  { apply after_reachable. eexists. vm_compute. reflexivity. }
  split; [exact Hreach|].
  destruct (bound_image_reaches_descriptor_set VK_PIPELINE_BIND_POINT_COMPUTE
              (Example.after Scenario.layout_bound) Example.layout_B Example.L2
              (Example.uniform_binding 1 VK_DESCRIPTOR_TYPE_COMBINED_IMAGE_SAMPLER)
              Example.a_depth_view (Some Example.a_sampler)
              VK_IMAGE_LAYOUT_DEPTH_STENCIL_READ_ONLY_OPTIMAL 0 1 0)
    as (cb1 & cb2 & events & buffers & images & offsets & Hbind & Hflush & Hrequest & _ &
        Hrecord & _);
    [exact Hreach|reflexivity|reflexivity|reflexivity|reflexivity|vm_compute; discriminate|].
  exists cb1, cb2, events, buffers, images.
  split; [exact Hbind|]. split; [exact Hflush|]. split; [exact Hrequest|exact Hrecord].
Defined.

(** Two dispatches with a buffer bound. *)
Lemma dispatch_again_records_the_dispatch_only_witness :
  ∃ cb1 events1,
    dispatch 1 1 1 (Example.after Example.two_dirty_sets) = Ok (cb1, events1) ∧
    length events1 = 5%nat ∧
    dispatch 4 4 1 cb1 = Ok (cb1, [vkCmdDispatch 7 4 4 1]).
Proof.
  destruct (dispatch 1 1 1 (Example.after Example.two_dirty_sets))
    as [[cb1 events1]|err] eqn:Hfirst; [|vm_compute in Hfirst; discriminate].
  destruct (dispatch_again_records_the_dispatch_only 1 1 1 4 4 1 Example.a_buffer 0 _ _ _
              Hfirst) as [Hsecond _].
  exists cb1, events1. split; [reflexivity|]. split; [|exact Hsecond].
  vm_compute in Hfirst. injection Hfirst as <- <-. reflexivity.
Defined.

(** Three draws in a render pass with a pipeline layout bound. *)
Lemma third_draw_records_the_draw_only_witness :
  ∃ cb1 events1 cb2 events2,
    draw 3 1 0 0 (Example.after Example.ready_to_draw) = Ok (cb1, events1) ∧
    draw 6 1 0 0 cb1 = Ok (cb2, events2 ++ [vkCmdDraw 7 6 1 0 0]) ∧
    draw 9 1 0 0 cb2 = Ok (cb2, [vkCmdDraw 7 9 1 0 0]).
Proof.
  destruct (draw 3 1 0 0 (Example.after Example.ready_to_draw))
    as [[cb1 events1]|err] eqn:Hfirst; [|vm_compute in Hfirst; discriminate].
  destruct (third_draw_records_the_draw_only 3 1 0 0 6 1 0 0 9 1 0 0 _ _ _ Hfirst)
    as (cb2 & events2 & Hsecond & _ & Hthird).
  exists cb1, events1, cb2, events2.
  split; [reflexivity|]. split; [exact Hsecond|exact Hthird].
Defined.

(** The calls of [Example.layout_swap]. *)
Lemma commands_go_to_the_own_handle_witness :
  ∃ cb' events,
    run Example.layout_swap Example.fresh = Ok (cb', events) ∧
    handle cb' = 7 ∧
    ∀ e cmd, e ∈ events → event_command_buffer e = Some cmd → cmd = 7.
Proof.
  destruct (run Example.layout_swap Example.fresh) as [[cb' events]|err] eqn:Hrun;
    [|vm_compute in Hrun; discriminate].
  destruct (commands_go_to_the_own_handle _ _ _ _ Hrun) as (Hhandle & _ & _ & Hevents).
  exists cb', events. split; [reflexivity|]. split; [exact Hhandle|exact Hevents].
Defined.

(** A draw on a command buffer that was ended. *)
Lemma recording_calls_ignore_the_state_witness :
  is_lifecycle (op_draw 3 1 0 0) = false ∧
  call (op_draw 3 1 0 0) (with_state Executable (Example.after Example.ready_to_draw))
    = match call (op_draw 3 1 0 0) (Example.after Example.ready_to_draw) with
      | Ok (cb', events) => Ok (with_state Executable cb', events)
      | Fault err => Fault err
      end ∧
  is_Ok (call (op_draw 3 1 0 0) (Example.after Example.ready_to_draw)).
Proof.
  split; [reflexivity|]. split; [|eexists; vm_compute; reflexivity].
  apply (recording_calls_ignore_the_state (op_draw 3 1 0 0) Executable
           (Example.after Example.ready_to_draw)).
  reflexivity.
Defined.

(** A viewport state set in a render pass. *)
Lemma changed_state_block_reaches_pipeline_request_witness :
  PipelineState.get_block PipelineState.Viewport
    (pipeline_state (Example.after Example.ready_to_draw)) ≠ 5 ∧
  render_pass (current_render_pass (Example.after Example.ready_to_draw))
    = Some {| rp_handle := 1; rp_color_output_count := [1; 2] |} ∧
  ∃ cb1 cb2 ps,
    set_state_block PipelineState.Viewport 5 (Example.after Example.ready_to_draw)
      = Ok (cb1, []) ∧
    flush_pipeline_state VK_PIPELINE_BIND_POINT_GRAPHICS cb1
      = Ok (cb2, [call_request_graphics_pipeline ps;
                  vkCmdBindPipeline 7 VK_PIPELINE_BIND_POINT_GRAPHICS
                    (request_graphics_pipeline ps)]) ∧
    ps_viewport_state ps = 5.
Proof.
  assert (PipelineState.get_block PipelineState.Viewport
            (pipeline_state (Example.after Example.ready_to_draw)) ≠ 5) as Hchange
    by (vm_compute; discriminate).
  split; [exact Hchange|]. split; [reflexivity|].
  destruct (changed_state_block_reaches_pipeline_request PipelineState.Viewport 5
              (Example.after Example.ready_to_draw)
              {| rp_handle := 1; rp_color_output_count := [1; 2] |})
    as (cb1 & cb2 & ps & stored & Hset & Hflush & _ & Hblock & _);
    [exact Hchange|reflexivity|].
  exists cb1, cb2, ps. split; [exact Hset|]. split; [exact Hflush|exact Hblock].
Defined.

End FurtherExamples.
